(** * Rental lifecycle and settlement of the car-rental system

    A shallow embedding of
      - rentals/models.py  (Rental.clean, Rental.save, rental_days,
        calculate_order_total, refresh_financials, outstanding_amount),
      - rentals/views.py   (rental_detail, rental_create, rental_update,
        rental_status_update, rental_return, rental_cancel,
        calculate_rental_amount, calculate_rental_cost,
        get_vehicle_available_dates),
      - rentals/management/commands/update_expired_rentals.py (the sweep),
    followed by the properties of the lifecycle and of the settlement ledger.

    Database tables are lists of rows; an ORM call becomes a function over
    the [World], which also carries the number of clock readings taken so
    far and the lines written to stdout. *)

From Stdlib Require Import ZArith List Bool String Ascii Lia ListSet DecimalString.
Import ListNotations.
Open Scope Z_scope.

(** ** Dates: [datetime.date] as its proleptic Gregorian ordinal *)

Module Date.

Definition t := Z.

Definition _is_leap (year : Z) : bool :=
  (year mod 4 =? 0) && (negb (year mod 100 =? 0) || (year mod 400 =? 0)).

Definition _days_before_year (year : Z) : Z :=
  let y := year - 1 in y * 365 + y / 4 - y / 100 + y / 400.

Definition _DAYS_IN_MONTH : list Z := [31; 28; 31; 30; 31; 30; 31; 31; 30; 31; 30; 31].

Definition _days_before_month (year month : Z) : Z :=
  fold_right Z.add 0 (firstn (Z.to_nat (month - 1)) _DAYS_IN_MONTH)
  + (if (2 <? month) && _is_leap year then 1 else 0).

(** [date(year, month, day).toordinal()] *)
Definition _ymd2ord (year month day : Z) : t :=
  _days_before_year year + _days_before_month year month + day.

(** [(a - b).days] *)
Definition days (a b : t) : Z := a - b.

End Date.

(** ** [decimal.Decimal]: a coefficient and a number of decimal places

    [Dec c p] is the number c * 10^-p; [Decimal('0.00')] is [Dec 0 2].  The
    operations are the exact ones of Python; the context precision of 28
    digits is never reached by fields of at most 10 digits multiplied by a
    number of days. *)

Record Decimal := Dec { coef : Z; places : nat }.

Definition D0_00 : Decimal := Dec 0 2.

Definition scale_to (n : nat) (d : Decimal) : Z :=
  coef d * 10 ^ Z.of_nat (n - places d).

Definition Dadd (a b : Decimal) : Decimal :=
  let n := Nat.max (places a) (places b) in
  Dec (scale_to n a + scale_to n b) n.

Definition Dsub (a b : Decimal) : Decimal :=
  let n := Nat.max (places a) (places b) in
  Dec (scale_to n a - scale_to n b) n.

Definition Dmul (a b : Decimal) : Decimal :=
  Dec (coef a * coef b) (places a + places b).

(** [Decimal * int]: the integer is converted exactly, with exponent 0. *)
Definition Dmul_int (a : Decimal) (k : Z) : Decimal :=
  Dec (coef a * k) (places a).

Definition Dleb (a b : Decimal) : bool :=
  let n := Nat.max (places a) (places b) in scale_to n a <=? scale_to n b.

Definition Dltb (a b : Decimal) : bool :=
  let n := Nat.max (places a) (places b) in scale_to n a <? scale_to n b.

Definition Deqb (a b : Decimal) : bool :=
  let n := Nat.max (places a) (places b) in scale_to n a =? scale_to n b.

(** Truth value of a Decimal: false exactly for zero. *)
Definition Dtruthy (d : Decimal) : bool := negb (coef d =? 0).

(** [d or Decimal('0.00')] *)
Definition or_zero (d : Decimal) : Decimal := if Dtruthy d then d else D0_00.

(** [aggregate(total=Sum('amount'))['total']]: NULL over no rows. *)
Definition Sum (amounts : list Decimal) : option Decimal :=
  match amounts with
  | [] => None
  | a :: rest => Some (fold_left Dadd rest a)
  end.

(** [aggregate(...)['total'] or Decimal('0.00')] *)
Definition total_or_zero (total : option Decimal) : Decimal :=
  match total with
  | Some d => or_zero d
  | None => D0_00
  end.

(** What a column [DecimalField(max_digits=10, decimal_places=2)] holds for
    the value [d]: [d.quantize(Decimal('0.01'))], ties to even, the rounding
    of Python's default context, which Django applies when it formats the
    value for the database and when it converts the column back.  The ten
    digits of [max_digits] are not reached by the amounts of an order. *)
Definition quantize2 (d : Decimal) : Decimal :=
  if (places d <=? 2)%nat then Dec (scale_to 2 d) 2
  else
    let unit := 10 ^ Z.of_nat (places d - 2) in
    let q := Z.abs (coef d) / unit in
    let r := Z.abs (coef d) mod unit in
    let q := if (unit <? 2 * r) || ((2 * r =? unit) && Z.odd q) then q + 1 else q in
    Dec (Z.sgn (coef d) * q) 2.

(** ** Tables: rows found, saved and updated by primary key *)

Section Table.

Context {Row : Type} (pk : Row -> Z).

(** [objects.get(pk=k)] / [get_object_or_404] *)
Definition get (k : Z) (tbl : list Row) : option Row :=
  find (fun r => pk r =? k) tbl.

Definition has_pk (k : Z) (tbl : list Row) : bool :=
  existsb (fun r => pk r =? k) tbl.

(** [Model.save()]: UPDATE the row of this key, INSERT when there is none. *)
Definition save (r : Row) (tbl : list Row) : list Row :=
  if has_pk (pk r) tbl
  then map (fun r0 => if pk r0 =? pk r then r else r0) tbl
  else tbl ++ [r].

(** [Model.save(update_fields=...)]: UPDATE only, the listed columns
    written by [f]. *)
Definition update (k : Z) (f : Row -> Row) (tbl : list Row) : list Row :=
  map (fun r0 => if pk r0 =? k then f r0 else r0) tbl.

(** The rows stored under one key. *)
Definition rows_at (k : Z) (tbl : list Row) : list Row :=
  filter (fun r => pk r =? k) tbl.

End Table.

(** ** The models *)

(** Datetimes are microseconds since the epoch; a user account is its key. *)
Definition datetime := Z.
Definition User := Z.

Module Vehicle.

(** vehicles/models.py is outside the sources read here: the fields are those
    the rental code reads and writes. *)
Record t := mk { id : Z; status : string; daily_rate : Decimal }.

Definition set_status (s : string) (v : t) : t := mk (id v) s (daily_rate v).

End Vehicle.

Module Customer.

Record t := mk { id : Z; user : option User; member_level : string }.

End Customer.

Module Payment.

(** accounts/models.py is outside the sources read here: the fields are those
    the rental code filters on, orders by and passes to [create]. *)
Record t := mk {
  rental : Z;
  user : option User;
  amount : Decimal;
  payment_method : string;
  transaction_type : string;
  status : string;
  description : string;
  paid_at : option datetime;
  transaction_id : string;
  created_at : datetime }.

End Payment.

Inductive RentalStatus := PENDING | ONGOING | COMPLETED | CANCELLED.

Inductive SettlementStatus := UNSETTLED | PARTIAL | SETTLED.

Definition RentalStatus_eqb (a b : RentalStatus) : bool :=
  match a, b with
  | PENDING, PENDING | ONGOING, ONGOING
  | COMPLETED, COMPLETED | CANCELLED, CANCELLED => true
  | _, _ => false
  end.

Module Rental.

Record t := mk {
  id : Z;
  customer : Z;
  vehicle : Z;
  start_date : Date.t;
  end_date : Date.t;
  actual_return_date : option Date.t;
  total_amount : Decimal;
  deposit : Decimal;
  pickup_location : string;
  return_location : option string;
  is_cross_location_return : bool;
  cross_location_fee : Decimal;
  status : RentalStatus;
  notes : option string;
  created_at : datetime;
  settlement_status : SettlementStatus;
  settled_at : option datetime;
  amount_paid : Decimal;
  amount_refunded : Decimal }.

Definition set_actual_return_date (x : option Date.t) (r : t) : t :=
  mk (id r) (customer r) (vehicle r) (start_date r) (end_date r) x
     (total_amount r) (deposit r) (pickup_location r) (return_location r)
     (is_cross_location_return r) (cross_location_fee r) (status r) (notes r)
     (created_at r) (settlement_status r) (settled_at r) (amount_paid r)
     (amount_refunded r).

Definition set_total_amount (x : Decimal) (r : t) : t :=
  mk (id r) (customer r) (vehicle r) (start_date r) (end_date r)
     (actual_return_date r) x (deposit r) (pickup_location r)
     (return_location r) (is_cross_location_return r) (cross_location_fee r)
     (status r) (notes r) (created_at r) (settlement_status r) (settled_at r)
     (amount_paid r) (amount_refunded r).

Definition set_deposit (x : Decimal) (r : t) : t :=
  mk (id r) (customer r) (vehicle r) (start_date r) (end_date r)
     (actual_return_date r) (total_amount r) x (pickup_location r)
     (return_location r) (is_cross_location_return r) (cross_location_fee r)
     (status r) (notes r) (created_at r) (settlement_status r) (settled_at r)
     (amount_paid r) (amount_refunded r).

Definition set_return_location (x : option string) (r : t) : t :=
  mk (id r) (customer r) (vehicle r) (start_date r) (end_date r)
     (actual_return_date r) (total_amount r) (deposit r) (pickup_location r)
     x (is_cross_location_return r) (cross_location_fee r) (status r)
     (notes r) (created_at r) (settlement_status r) (settled_at r)
     (amount_paid r) (amount_refunded r).

Definition set_cross_location_fee (x : Decimal) (r : t) : t :=
  mk (id r) (customer r) (vehicle r) (start_date r) (end_date r)
     (actual_return_date r) (total_amount r) (deposit r) (pickup_location r)
     (return_location r) (is_cross_location_return r) x (status r) (notes r)
     (created_at r) (settlement_status r) (settled_at r) (amount_paid r)
     (amount_refunded r).

Definition set_status (x : RentalStatus) (r : t) : t :=
  mk (id r) (customer r) (vehicle r) (start_date r) (end_date r)
     (actual_return_date r) (total_amount r) (deposit r) (pickup_location r)
     (return_location r) (is_cross_location_return r) (cross_location_fee r)
     x (notes r) (created_at r) (settlement_status r) (settled_at r)
     (amount_paid r) (amount_refunded r).

Definition set_notes (x : option string) (r : t) : t :=
  mk (id r) (customer r) (vehicle r) (start_date r) (end_date r)
     (actual_return_date r) (total_amount r) (deposit r) (pickup_location r)
     (return_location r) (is_cross_location_return r) (cross_location_fee r)
     (status r) x (created_at r) (settlement_status r) (settled_at r)
     (amount_paid r) (amount_refunded r).

(** The four columns [refresh_financials] derives and writes. *)
Definition set_financials (paid refunded : Decimal) (s : SettlementStatus)
  (at_ : option datetime) (r : t) : t :=
  mk (id r) (customer r) (vehicle r) (start_date r) (end_date r)
     (actual_return_date r) (total_amount r) (deposit r) (pickup_location r)
     (return_location r) (is_cross_location_return r) (cross_location_fee r)
     (status r) (notes r) (created_at r) s at_ paid refunded.

Definition set_created_at (x : datetime) (r : t) : t :=
  mk (id r) (customer r) (vehicle r) (start_date r) (end_date r)
     (actual_return_date r) (total_amount r) (deposit r) (pickup_location r)
     (return_location r) (is_cross_location_return r) (cross_location_fee r)
     (status r) (notes r) x (settlement_status r) (settled_at r) (amount_paid r)
     (amount_refunded r).

End Rental.

(** ** Rental: the pure methods of the model *)

Inductive ValidationError :=
| end_before_start       (* 租赁结束日期不能早于开始日期 *)
| return_before_start    (* 实际还车日期不能早于租赁开始日期 *)
| return_after_today.    (* 实际还车日期不能晚于今天 *)

(** [Rental.clean]: [inl e] when it raises [e].  The two date columns are
    NOT NULL, so the guard [if self.start_date and self.end_date] holds. *)
Definition Rental_clean (today : Date.t) (self : Rental.t) : ValidationError + unit :=
  if Rental.end_date self <? Rental.start_date self then inl end_before_start
  else
    match Rental.actual_return_date self with
    | Some d =>
        if d <? Rental.start_date self then inl return_before_start
        else if today <? d then inl return_after_today
        else inr tt
    | None => inr tt
    end.

(** The property [Rental.rental_days]. *)
Definition rental_days (self : Rental.t) : Z :=
  Date.days (Rental.end_date self) (Rental.start_date self) + 1.

(** What [Rental.save] assigns before it calls [super().save]; [vehicle] is
    the related row [self.vehicle]. *)
Definition save_defaults (vehicle : Vehicle.t) (self : Rental.t) : Rental.t :=
  let self :=
    if negb (Dtruthy (Rental.total_amount self))
    then Rental.set_total_amount
           (Dmul_int (Vehicle.daily_rate vehicle) (rental_days self)) self
    else self in
  let self :=
    if Deqb (Rental.deposit self) D0_00
    then Rental.set_deposit (Dmul (Vehicle.daily_rate vehicle) (Dec 10 0)) self
    else self in
  let self :=
    if Rental.is_cross_location_return self
       && match Rental.return_location self with
          | Some s => (s =? "")%string
          | None => true
          end
    then Rental.set_return_location (Some (Rental.pickup_location self)) self
    else self in
  let self :=
    if Rental.is_cross_location_return self
       && Deqb (Rental.cross_location_fee self) D0_00
    then Rental.set_cross_location_fee
           (Dmul (Vehicle.daily_rate vehicle) (Dec 5 1)) self
    else self in
  self.

(** [Rental.calculate_order_total] *)
Definition calculate_order_total (self : Rental.t) : Decimal :=
  let base_amount := or_zero (Rental.total_amount self) in
  let deposit_amount := or_zero (Rental.deposit self) in
  let cross_location_fee := or_zero (Rental.cross_location_fee self) in
  let cross_location_fee :=
    if negb (Rental.is_cross_location_return self) then D0_00
    else cross_location_fee in
  Dadd (Dadd base_amount deposit_amount) cross_location_fee.

(** ** The world: tables, clock and stdout *)

Inductive Style := SUCCESS | WARNING.

(** The two lines [_settle_completed_rental] writes; the progress lines of
    the command carry no state and are left out. *)
Inductive Message :=
| deposit_refunded (rental_id : Z) (refundable : Decimal) (refund_user : User)
| no_refund_account (rental_id : Z).

Record World := mkWorld {
  rentals : list Rental.t;
  vehicles : list Vehicle.t;
  customers : list Customer.t;
  payments : list Payment.t;
  clock : nat -> datetime;      (* the n-th reading of the system clock *)
  ticks : nat;                  (* readings taken so far *)
  stdout : list (Style * Message) }.

Definition with_rentals (x : list Rental.t) (w : World) : World :=
  mkWorld x (vehicles w) (customers w) (payments w) (clock w) (ticks w) (stdout w).

Definition with_vehicles (x : list Vehicle.t) (w : World) : World :=
  mkWorld (rentals w) x (customers w) (payments w) (clock w) (ticks w) (stdout w).

Definition with_payments (x : list Payment.t) (w : World) : World :=
  mkWorld (rentals w) (vehicles w) (customers w) x (clock w) (ticks w) (stdout w).

Definition write (line : Style * Message) (w : World) : World :=
  mkWorld (rentals w) (vehicles w) (customers w) (payments w) (clock w) (ticks w)
          (stdout w ++ [line]).

(** [timezone.now()] *)
Definition timezone_now (w : World) : datetime * World :=
  (clock w (ticks w),
   mkWorld (rentals w) (vehicles w) (customers w) (payments w) (clock w)
           (S (ticks w)) (stdout w)).

(** [updated_at = DateTimeField(auto_now=True)]: every save that writes the
    column reads the clock for it.  Nothing reads [updated_at], so the
    record leaves the column out and only the reading is counted. *)
Definition auto_now (w : World) : World := snd (timezone_now w).

(** The row a save writes for the instance: the five decimal columns hold
    the quantized values. *)
Definition stored (self : Rental.t) : Rental.t :=
  Rental.mk (Rental.id self) (Rental.customer self) (Rental.vehicle self)
    (Rental.start_date self) (Rental.end_date self)
    (Rental.actual_return_date self) (quantize2 (Rental.total_amount self))
    (quantize2 (Rental.deposit self)) (Rental.pickup_location self)
    (Rental.return_location self) (Rental.is_cross_location_return self)
    (quantize2 (Rental.cross_location_fee self)) (Rental.status self)
    (Rental.notes self) (Rental.created_at self)
    (Rental.settlement_status self) (Rental.settled_at self)
    (quantize2 (Rental.amount_paid self))
    (quantize2 (Rental.amount_refunded self)).

(** [Rental.save()] on an instance that has its key: the defaults, then
    [super().save()].  Django tries an UPDATE of all columns, which reads
    the clock for [updated_at]; when no row has the key it INSERTs, and
    reads the clock again for [created_at] ([auto_now_add]) and for
    [updated_at]. *)
Definition Rental_save (vehicle : Vehicle.t) (self : Rental.t) (w : World)
  : Rental.t * World :=
  let self := save_defaults vehicle self in
  let w := auto_now w in
  if has_pk Rental.id (Rental.id self) (rentals w) then
    (self, with_rentals (save Rental.id (stored self) (rentals w)) w)
  else
    let '(created_at, w) := timezone_now w in
    let w := auto_now w in
    let self := Rental.set_created_at created_at self in
    (self, with_rentals (save Rental.id (stored self) (rentals w)) w).

(** [Vehicle.save()]; vehicles/models.py is outside the sources read here,
    and the save is taken to read no clock. *)
Definition Vehicle_save (self : Vehicle.t) (w : World) : World :=
  with_vehicles (save Vehicle.id self (vehicles w)) w.

(** [Payment.objects.filter(rental=self, ...)] / [rental.payments.filter(...)] *)
Definition payments_of (rental_id : Z) (w : World) : list Payment.t :=
  filter (fun p => Payment.rental p =? rental_id) (payments w).

Definition paid_charge (p : Payment.t) : bool :=
  (Payment.transaction_type p =? "CHARGE")%string
  && (Payment.status p =? "PAID")%string.

Definition refunded_refund (p : Payment.t) : bool :=
  (Payment.transaction_type p =? "REFUND")%string
  && (Payment.status p =? "REFUNDED")%string.

Definition paid_total (rental_id : Z) (w : World) : Decimal :=
  total_or_zero
    (Sum (map Payment.amount (filter paid_charge (payments_of rental_id w)))).

Definition refunded_total (rental_id : Z) (w : World) : Decimal :=
  total_or_zero
    (Sum (map Payment.amount (filter refunded_refund (payments_of rental_id w)))).

(** The columns named in [update_fields] as the UPDATE writes them from
    the instance: the two amounts quantized. *)
Definition copy_financials (self row : Rental.t) : Rental.t :=
  Rental.set_financials (quantize2 (Rental.amount_paid self))
    (quantize2 (Rental.amount_refunded self))
    (Rental.settlement_status self) (Rental.settled_at self) row.

(** [Rental.refresh_financials(save)]: the instance after the call and the
    world after it.  [vehicle] is the related row, read by [Rental.save].
    [save(update_fields=...)] runs the defaults of [Rental.save] on the
    instance, reads the clock for [updated_at] and UPDATEs the listed
    columns of the row (Django raises when no row has the key; every caller
    passes a stored order). *)
Definition refresh_financials (save_ : bool) (vehicle : Vehicle.t)
  (self : Rental.t) (w : World) : Rental.t * World :=
  let paid := paid_total (Rental.id self) w in
  let refunded := refunded_total (Rental.id self) w in
  let self :=
    Rental.set_financials paid refunded (Rental.settlement_status self)
      (Rental.settled_at self) self in
  let order_total := calculate_order_total self in
  let '(self, w) :=
    if RentalStatus_eqb (Rental.status self) COMPLETED && Dleb order_total paid
    then
      match Rental.settled_at self with
      | Some t0 => (Rental.set_financials paid refunded SETTLED (Some t0) self, w)
      | None =>
          let '(now, w) := timezone_now w in
          (Rental.set_financials paid refunded SETTLED (Some now) self, w)
      end
    else if Dltb D0_00 paid
    then (Rental.set_financials paid refunded PARTIAL (Rental.settled_at self) self, w)
    else (Rental.set_financials paid refunded UNSETTLED None self, w) in
  if save_
  then
    let self := save_defaults vehicle self in
    let w := auto_now w in
    (self, with_rentals
             (update Rental.id (Rental.id self) (copy_financials self) (rentals w)) w)
  else (self, w).

(** The refresh in closed form: whether the order counts as settled, the
    instance it derives, and the world once the clock has been read for
    [settled_at]. *)
Definition covered (self : Rental.t) (w : World) : bool :=
  RentalStatus_eqb (Rental.status self) COMPLETED
  && Dleb (calculate_order_total self) (paid_total (Rental.id self) w).

Definition derived (self : Rental.t) (w : World) : Rental.t :=
  let paid := paid_total (Rental.id self) w in
  Rental.set_financials paid (refunded_total (Rental.id self) w)
    (if covered self w then SETTLED
     else if Dltb D0_00 paid then PARTIAL else UNSETTLED)
    (if covered self w then
       Some match Rental.settled_at self with
            | Some t0 => t0
            | None => clock w (ticks w)
            end
     else if Dltb D0_00 paid then Rental.settled_at self else None)
    self.

Definition stamped (self : Rental.t) (w : World) : World :=
  if covered self w then
    match Rental.settled_at self with
    | Some _ => w
    | None => snd (timezone_now w)
    end
  else w.

(** ** rentals/views.py *)

Inductive Response :=
| Http404            (* get_object_or_404 found no row *)
| redirect_detail (pk : Z)
| render_form        (* GET, or a form that is not valid *)
| server_error.      (* the related vehicle row is missing; the foreign key excludes it *)

(** [str.strip()].  A string is the UTF-8 encoding of the Python string;
    the white space of [str.isspace] is U+0009..U+000D, U+001C..U+0020,
    U+0085, U+00A0, U+1680, U+2000..U+200A, U+2028, U+2029, U+202F, U+205F
    and U+3000, of one, two or three bytes. *)
Definition is_space (c : ascii) : bool :=
  let n := nat_of_ascii c in
  ((9 <=? n) && (n <=? 13) || (28 <=? n) && (n <=? 32))%nat.

Definition is_space2 (c1 c2 : ascii) : bool :=
  let n2 := nat_of_ascii c2 in
  (nat_of_ascii c1 =? 194)%nat && ((n2 =? 133) || (n2 =? 160))%nat.

Definition is_space3 (c1 c2 c3 : ascii) : bool :=
  let n1 := nat_of_ascii c1 in
  let n2 := nat_of_ascii c2 in
  let n3 := nat_of_ascii c3 in
  ((n1 =? 225) && (n2 =? 154) && (n3 =? 128)
   || (n1 =? 226) && (n2 =? 128)
      && ((128 <=? n3) && (n3 <=? 138) || (n3 =? 168) || (n3 =? 169)
          || (n3 =? 175))
   || (n1 =? 226) && (n2 =? 129) && (n3 =? 159)
   || (n1 =? 227) && (n2 =? 128) && (n3 =? 128))%nat.

(** Strip from the front; [from_end] tells that the bytes are those of the
    string read backwards. *)
Fixpoint strip_front (from_end : bool) (s : list ascii) : list ascii :=
  match s with
  | [] => []
  | c1 :: r1 =>
      if is_space c1 then strip_front from_end r1
      else
        match r1 with
        | [] => s
        | c2 :: r2 =>
            if (if from_end then is_space2 c2 c1 else is_space2 c1 c2)
            then strip_front from_end r2
            else
              match r2 with
              | [] => s
              | c3 :: r3 =>
                  if (if from_end then is_space3 c3 c2 c1
                      else is_space3 c1 c2 c3)
                  then strip_front from_end r3
                  else s
              end
        end
  end.

Definition strip (s : string) : string :=
  string_of_list_ascii
    (rev (strip_front true (rev (strip_front false (list_ascii_of_string s))))).

Definition newline : string := String "010"%char EmptyString.

Section Views.

(** forms.py is outside the sources read here.  [ReturnForm] and
    [CancelForm] are built from the posted data alone; [RentalStatusForm]
    is a ModelForm bound to the order and is taken to have the one field
    [status]: once [is_valid()] has run, the instance carries the posted
    status and is otherwise as it was read. *)
Variable ReturnForm_is_valid : Date.t -> bool.
Variable CancelForm_is_valid : string -> bool.
Variable RentalStatusForm_is_valid : Rental.t -> RentalStatus -> bool.

(** [rental_status_update(request, pk)]; [request] is the posted status, or
    [None] for a GET. *)
Definition rental_status_update (pk : Z) (request : option RentalStatus)
  (w : World) : Response * World :=
  match get Rental.id pk (rentals w) with
  | None => (Http404, w)
  | Some rental =>
    match request with
    | None => (render_form, w)
    | Some new_status =>
      if RentalStatusForm_is_valid rental new_status then
        match get Vehicle.id (Rental.vehicle rental) (vehicles w) with
        | None => (server_error, w)
        | Some vehicle =>
          (* form.is_valid() has bound the posted status to the instance *)
          let rental := Rental.set_status new_status rental in
          let old_status := Rental.status rental in
          (* rental = form.save() *)
          let '(rental, w) := Rental_save vehicle rental w in
          let w :=
            if RentalStatus_eqb old_status PENDING
               && RentalStatus_eqb (Rental.status rental) ONGOING
            then Vehicle_save (Vehicle.set_status "RENTED" vehicle) w
            else if (RentalStatus_eqb old_status PENDING
                     || RentalStatus_eqb old_status ONGOING)
                    && RentalStatus_eqb (Rental.status rental) COMPLETED
            then Vehicle_save (Vehicle.set_status "AVAILABLE" vehicle) w
            else if RentalStatus_eqb (Rental.status rental) CANCELLED
            then
              if (Vehicle.status vehicle =? "RENTED")%string
              then Vehicle_save (Vehicle.set_status "AVAILABLE" vehicle) w
              else w
            else w in
          (redirect_detail pk, w)
        end
      else (render_form, w)
    end
  end.

(** [rental_return(request, pk)]; [request] is the posted return date. *)
Definition rental_return (pk : Z) (request : option Date.t) (w : World)
  : Response * World :=
  match get Rental.id pk (rentals w) with
  | None => (Http404, w)
  | Some rental =>
    match request with
    | None => (render_form, w)
    | Some posted =>
      if ReturnForm_is_valid posted then
        let actual_return_date := posted in
        match get Vehicle.id (Rental.vehicle rental) (vehicles w) with
        | None => (server_error, w)
        | Some vehicle =>
          let rental :=
            Rental.set_actual_return_date (Some actual_return_date) rental in
          let rental :=
            if Rental.end_date rental <? actual_return_date then
              let extra_days :=
                Date.days actual_return_date (Rental.end_date rental) in
              let extra_cost := Dmul_int (Vehicle.daily_rate vehicle) extra_days in
              Rental.set_total_amount
                (Dadd (Rental.total_amount rental) extra_cost) rental
            else rental in
          let rental := Rental.set_status COMPLETED rental in
          let '(rental, w) := Rental_save vehicle rental w in
          let w := Vehicle_save (Vehicle.set_status "AVAILABLE" vehicle) w in
          (redirect_detail pk, w)
        end
      else (render_form, w)
    end
  end.

(** [rental_cancel(request, pk)]; [request] is the posted reason. *)
Definition rental_cancel (pk : Z) (request : option string) (w : World)
  : Response * World :=
  match get Rental.id pk (rentals w) with
  | None => (Http404, w)
  | Some rental =>
    match request with
    | None => (render_form, w)
    | Some posted =>
      if CancelForm_is_valid posted then
        let cancel_reason := posted in
        match get Vehicle.id (Rental.vehicle rental) (vehicles w) with
        | None => (server_error, w)
        | Some vehicle =>
          let rental := Rental.set_status CANCELLED rental in
          let rental :=
            Rental.set_notes
              (Some (strip
                 (match Rental.notes rental with
                  | Some s => s
                  | None => ""
                  end ++ newline ++ "取消原因：" ++ cancel_reason)%string))
              rental in
          let '(rental, w) := Rental_save vehicle rental w in
          let w :=
            if (Vehicle.status vehicle =? "RENTED")%string
            then Vehicle_save (Vehicle.set_status "AVAILABLE" vehicle) w
            else w in
          (redirect_detail pk, w)
        end
      else (render_form, w)
    end
  end.

End Views.

(** The dictionary [calculate_rental_cost] returns. *)
Record CostDetails := mkCost {
  base_amount : Decimal;
  discount : Decimal;
  extra_amount : Decimal;
  cost_total_amount : Decimal;      (* key 'total_amount' *)
  cost_rental_days : Z;             (* key 'rental_days' *)
  extra_days : Z }.

(** [calculate_rental_cost(rental)], with the related customer and vehicle
    rows.  Both date columns are NOT NULL, so the outer guard holds. *)
Definition calculate_rental_cost (rental : Rental.t) (customer : Customer.t)
  (vehicle : Vehicle.t) : CostDetails :=
  let days := Date.days (Rental.end_date rental) (Rental.start_date rental) + 1 in
  let base := Dmul_int (Vehicle.daily_rate vehicle) days in
  let disc :=
    if (Customer.member_level customer =? "VIP")%string
    then Dmul base (Dec 10 2)
    else D0_00 in
  let total := Dsub base disc in
  match Rental.actual_return_date rental with
  | Some d =>
      if Rental.end_date rental <? d then
        let xdays := Date.days d (Rental.end_date rental) in
        let extra := Dmul_int (Vehicle.daily_rate vehicle) xdays in
        mkCost base disc extra (Dadd total extra) days xdays
      else mkCost base disc D0_00 total days 0
  | None => mkCost base disc D0_00 total days 0
  end.

(** ** management/commands/update_expired_rentals.py *)

(** [queryset.order_by('created_at').first()]: the earliest row, the first
    stored among equals. *)
Fixpoint first_by_created_at (ps : list Payment.t) : option Payment.t :=
  match ps with
  | [] => None
  | p :: rest =>
      match first_by_created_at rest with
      | Some q =>
          if Payment.created_at q <? Payment.created_at p then Some q else Some p
      | None => Some p
      end
  end.

Definition is_charge (p : Payment.t) : bool :=
  (Payment.transaction_type p =? "CHARGE")%string.

(** [rental.customer.user], when the customer has a linked account. *)
Definition linked_account (rental : Rental.t) (w : World) : option User :=
  match get Customer.id (Rental.customer rental) (customers w) with
  | Some c => Customer.user c
  | None => None
  end.

(** The account a deposit refund goes to: the user of the first charge,
    else the user linked to the customer. *)
Definition refund_user_of (rental : Rental.t) (w : World) : option User :=
  let payment_user :=
    first_by_created_at (filter is_charge (payments_of (Rental.id rental) w)) in
  let refund_user :=
    match payment_user with
    | Some p => Payment.user p
    | None => None
    end in
  match refund_user with
  | Some u => Some u
  | None => linked_account rental w
  end.

(** [f'REF{int(timezone.now().timestamp())}'] *)
Definition transaction_ref (now : datetime) : string :=
  ("REF" ++ NilZero.string_of_int (Z.to_int (Z.quot now 1000000)))%string.

(** [Command._settle_completed_rental(rental)].  [Payment.objects.create]
    reads the clock for [paid_at], for the reference and for the row's own
    [created_at]. *)
Definition _settle_completed_rental (rental : Rental.t) (vehicle : Vehicle.t)
  (w : World) : Rental.t * World :=
  let deposit_amount := or_zero (Rental.deposit rental) in
  let charges := paid_total (Rental.id rental) w in
  let refunded := refunded_total (Rental.id rental) w in
  let refundable := Dsub deposit_amount refunded in
  let w :=
    if Dltb D0_00 deposit_amount && Dltb D0_00 refundable
       && Dleb deposit_amount charges
    then
      match refund_user_of rental w with
      | Some refund_user =>
          let '(paid_at, w) := timezone_now w in
          let '(stamp, w) := timezone_now w in
          let '(created_at, w) := timezone_now w in
          let w :=
            with_payments
              (payments w ++
               [Payment.mk (Rental.id rental) (Some refund_user) refundable
                  "BANK" "REFUND" "REFUNDED" "订单完成，押金自动退还"
                  (Some paid_at) (transaction_ref stamp) created_at]) w in
          write (SUCCESS, deposit_refunded (Rental.id rental) refundable refund_user) w
      | None => write (WARNING, no_refund_account (Rental.id rental)) w
      end
    else w in
  refresh_financials true vehicle rental w.

(** [Rental.Meta.ordering = ['-created_at']], the order of every queryset
    of orders that is not ordered otherwise: the newest first, rows of the
    same instant in table order. *)
Fixpoint insert_by_created_at (r : Rental.t) (sorted : list Rental.t)
  : list Rental.t :=
  match sorted with
  | [] => [r]
  | r0 :: rest =>
      if Rental.created_at r <? Rental.created_at r0
      then r0 :: insert_by_created_at r rest
      else r :: sorted
  end.

Definition newest_first (qs : list Rental.t) : list Rental.t :=
  fold_right insert_by_created_at [] qs.

(** [queryset.select_related('vehicle')], iterated: the orders in the
    order of the model, joined on the vehicle key; each row carries its own
    copy of the vehicle as read by the query. *)
Definition select_related_vehicle (qs : list Rental.t) (w : World)
  : list (Rental.t * Vehicle.t) :=
  flat_map
    (fun r =>
       match get Vehicle.id (Rental.vehicle r) (vehicles w) with
       | Some v => [(r, v)]
       | None => []
       end) (newest_first qs).

Definition pending_due (today : Date.t) (r : Rental.t) : bool :=
  RentalStatus_eqb (Rental.status r) PENDING && (Rental.start_date r <=? today).

Definition ongoing_expired (today : Date.t) (r : Rental.t) : bool :=
  RentalStatus_eqb (Rental.status r) ONGOING && (Rental.end_date r <? today).

(** The loop of [_activate_pending_rentals]. *)
Fixpoint activate_loop (rows : list (Rental.t * Vehicle.t))
  (activated_rentals : list Rental.t) (activated_vehicles : list Vehicle.t)
  (w : World) : (list Rental.t * list Vehicle.t) * World :=
  match rows with
  | [] => ((activated_rentals, activated_vehicles), w)
  | (rental, vehicle) :: rest =>
      let rental := Rental.set_status ONGOING rental in
      let '(rental, w) := Rental_save vehicle rental w in
      let activated_rentals := activated_rentals ++ [rental] in
      if (Vehicle.status vehicle =? "AVAILABLE")%string then
        let vehicle := Vehicle.set_status "RENTED" vehicle in
        let w := Vehicle_save vehicle w in
        activate_loop rest activated_rentals (activated_vehicles ++ [vehicle]) w
      else activate_loop rest activated_rentals activated_vehicles w
  end.

(** [Command._activate_pending_rentals(today)] *)
Definition _activate_pending_rentals (today : Date.t) (w : World)
  : (list Rental.t * list Vehicle.t) * World :=
  let pending_rentals := filter (pending_due today) (rentals w) in
  let pending_count := List.length pending_rentals in
  if Nat.eqb pending_count 0 then (([], []), w)
  else activate_loop (select_related_vehicle pending_rentals w) [] [] w.

(** The first loop of [_complete_expired_rentals].  The list keeps the
    instance itself, so it holds the instance as the settlement left it. *)
Fixpoint complete_loop (rows : list (Rental.t * Vehicle.t))
  (vehicle_ids : set Z) (completed_rentals : list Rental.t) (w : World)
  : (set Z * list Rental.t) * World :=
  match rows with
  | [] => ((vehicle_ids, completed_rentals), w)
  | (rental, vehicle) :: rest =>
      let rental := Rental.set_status COMPLETED rental in
      let rental :=
        match Rental.actual_return_date rental with
        | None => Rental.set_actual_return_date (Some (Rental.end_date rental)) rental
        | Some _ => rental
        end in
      let '(rental, w) := Rental_save vehicle rental w in
      let vehicle_ids := set_add Z.eq_dec (Vehicle.id vehicle) vehicle_ids in
      let '(rental, w) := _settle_completed_rental rental vehicle w in
      complete_loop rest vehicle_ids (completed_rentals ++ [rental]) w
  end.

Definition ongoing_on (vehicle_id : Z) (r : Rental.t) : bool :=
  (Rental.vehicle r =? vehicle_id) && RentalStatus_eqb (Rental.status r) ONGOING.

(** The second loop: release every vehicle left without an ongoing order. *)
Fixpoint release_loop (vehicle_ids : list Z) (released_vehicles : list Vehicle.t)
  (w : World) : list Vehicle.t * World :=
  match vehicle_ids with
  | [] => (released_vehicles, w)
  | vehicle_id :: rest =>
      let ongoing_rentals := List.length (filter (ongoing_on vehicle_id) (rentals w)) in
      if Nat.eqb ongoing_rentals 0 then
        match get Vehicle.id vehicle_id (vehicles w) with
        | Some vehicle =>
            if (Vehicle.status vehicle =? "RENTED")%string then
              let vehicle := Vehicle.set_status "AVAILABLE" vehicle in
              let w := Vehicle_save vehicle w in
              release_loop rest (released_vehicles ++ [vehicle]) w
            else release_loop rest released_vehicles w
        | None => release_loop rest released_vehicles w
        end
      else release_loop rest released_vehicles w
  end.

(** [Command._complete_expired_rentals(today)] *)
Definition _complete_expired_rentals (today : Date.t) (w : World)
  : (list Rental.t * list Vehicle.t) * World :=
  let expired_rentals := filter (ongoing_expired today) (rentals w) in
  let expired_count := List.length expired_rentals in
  if Nat.eqb expired_count 0 then (([], []), w)
  else
    let '((vehicle_ids, completed_rentals), w) :=
      complete_loop (select_related_vehicle expired_rentals w) (empty_set Z) [] w in
    let '(released_vehicles, w) := release_loop vehicle_ids [] w in
    ((completed_rentals, released_vehicles), w).

(** The four counts the command prints. *)
Record Summary := mkSummary {
  activated_orders : nat;
  rented_vehicles : nat;
  completed_orders : nat;
  released : nat }.

(** [Command.handle] on the day [today = date.today()]. *)
Definition handle (today : Date.t) (w : World) : Summary * World :=
  let '((activated_rentals, activated_vehicles), w) :=
    _activate_pending_rentals today w in
  let '((completed_rentals, released_vehicles), w) :=
    _complete_expired_rentals today w in
  (mkSummary (List.length activated_rentals) (List.length activated_vehicles)
             (List.length completed_rentals) (List.length released_vehicles), w).

(** ** The remaining functions of the model and of the views *)

(** The property [Rental.outstanding_amount]. *)
Definition outstanding_amount (self : Rental.t) : Decimal :=
  let order_total := calculate_order_total self in
  let remaining := Dsub order_total (Rental.amount_paid self) in
  if Dltb D0_00 remaining then remaining else D0_00.

(** [calculate_rental_amount(customer, vehicle, start_date, end_date)] *)
Definition calculate_rental_amount (customer : Customer.t) (vehicle : Vehicle.t)
  (start_date end_date : Date.t) : Decimal :=
  let rental_days := Date.days end_date start_date + 1 in
  let base_amount := Dmul_int (Vehicle.daily_rate vehicle) rental_days in
  if (Customer.member_level customer =? "VIP")%string then
    let discount := Dmul base_amount (Dec 10 2) in
    Dsub base_amount discount
  else base_amount.

(** The instance once the INSERT has given it its key. *)
Definition assign_pk (k : Z) (r : Rental.t) : Rental.t :=
  Rental.mk k (Rental.customer r) (Rental.vehicle r) (Rental.start_date r)
    (Rental.end_date r) (Rental.actual_return_date r) (Rental.total_amount r)
    (Rental.deposit r) (Rental.pickup_location r) (Rental.return_location r)
    (Rental.is_cross_location_return r) (Rental.cross_location_fee r)
    (Rental.status r) (Rental.notes r) (Rental.created_at r)
    (Rental.settlement_status r) (Rental.settled_at r) (Rental.amount_paid r)
    (Rental.amount_refunded r).

Section RentalForm.

(** [RentalForm] (forms.py, outside the sources read here) is a ModelForm:
    [RentalForm_is_valid instance post] is [form.is_valid()] and
    [RentalForm_save instance post] the instance [form.save(commit=False)]
    returns, for the form bound to [post] and to [instance] ([None] when
    the view creates an order). *)
Variable POST : Type.
Variable RentalForm_is_valid : option Rental.t -> POST -> bool.
Variable RentalForm_save : option Rental.t -> POST -> Rental.t.

(** [rental_create(request)]; [new_pk] is the key the database gives the
    inserted row.  The form has checked that customer and vehicle exist. *)
Definition rental_create (new_pk : Z) (request : option POST) (w : World)
  : Response * World :=
  match request with
  | None => (render_form, w)
  | Some post =>
    if RentalForm_is_valid None post then
      let rental := RentalForm_save None post in
      match get Customer.id (Rental.customer rental) (customers w),
            get Vehicle.id (Rental.vehicle rental) (vehicles w) with
      | Some customer, Some vehicle =>
          let total_amount :=
            calculate_rental_amount customer vehicle
              (Rental.start_date rental) (Rental.end_date rental) in
          let rental := Rental.set_total_amount total_amount rental in
          (* rental.save(): the defaults, then an INSERT, which reads the
             clock for created_at and for updated_at *)
          let rental := save_defaults vehicle rental in
          let '(created_at, w) := timezone_now w in
          let w := auto_now w in
          let rental := assign_pk new_pk (Rental.set_created_at created_at rental) in
          let w := with_rentals (rentals w ++ [stored rental]) w in
          let w :=
            if RentalStatus_eqb (Rental.status rental) PENDING
            then Vehicle_save (Vehicle.set_status "RENTED" vehicle) w
            else w in
          (redirect_detail (Rental.id rental), w)
      | _, _ => (server_error, w)
      end
    else (render_form, w)
  end.

(** [rental_update(request, pk)] *)
Definition rental_update (pk : Z) (request : option POST) (w : World)
  : Response * World :=
  match get Rental.id pk (rentals w) with
  | None => (Http404, w)
  | Some rental =>
    match request with
    | None => (render_form, w)
    | Some post =>
      if RentalForm_is_valid (Some rental) post then
        let rental := RentalForm_save (Some rental) post in
        match get Customer.id (Rental.customer rental) (customers w),
              get Vehicle.id (Rental.vehicle rental) (vehicles w) with
        | Some customer, Some vehicle =>
            let total_amount :=
              calculate_rental_amount customer vehicle
                (Rental.start_date rental) (Rental.end_date rental) in
            let rental := Rental.set_total_amount total_amount rental in
            let '(rental, w) := Rental_save vehicle rental w in
            let w :=
              if RentalStatus_eqb (Rental.status rental) PENDING
                 && (Vehicle.status vehicle =? "AVAILABLE")%string
              then Vehicle_save (Vehicle.set_status "RENTED" vehicle) w
              else w in
            (redirect_detail (Rental.id rental), w)
        | _, _ => (server_error, w)
        end
      else (render_form, w)
    end
  end.

End RentalForm.

(** [rental_detail(request, pk)]: the cost details the page shows, [None]
    for a 404. *)
Definition rental_detail (pk : Z) (w : World) : option CostDetails :=
  match get Rental.id pk (rentals w) with
  | None => None
  | Some rental =>
      match get Customer.id (Rental.customer rental) (customers w),
            get Vehicle.id (Rental.vehicle rental) (vehicles w) with
      | Some customer, Some vehicle =>
          Some (calculate_rental_cost rental customer vehicle)
      | _, _ => None
      end
  end.

(** What [get_vehicle_available_dates] answers: an error with its HTTP
    status, or the three keys of the JSON object.  A busy date stands for
    its [isoformat()] string. *)
Inductive JsonResponse :=
| json_error (status : Z)
| json_ok (vehicle_id : Z) (busy_dates : list Date.t) (is_available : bool).

(** [queryset.order_by('start_date')]: a stable insertion sort. *)
Fixpoint insert_by_start_date (r : Rental.t) (sorted : list Rental.t)
  : list Rental.t :=
  match sorted with
  | [] => [r]
  | r0 :: rest =>
      if Rental.start_date r <? Rental.start_date r0
      then r :: sorted
      else r0 :: insert_by_start_date r rest
  end.

Definition order_by_start_date (qs : list Rental.t) : list Rental.t :=
  fold_right insert_by_start_date [] qs.

(** The loop [while current_date <= end_date: ...; current_date += 1 day],
    unrolled [fuel] times. *)
Fixpoint busy_loop (fuel : nat) (current_date end_date : Date.t) : list Date.t :=
  match fuel with
  | O => []
  | S fuel =>
      if current_date <=? end_date
      then current_date :: busy_loop fuel (current_date + 1) end_date
      else []
  end.

(** The dates one order blocks; the fuel is the number of days from start
    to end. *)
Definition busy_dates_of (rental : Rental.t) : list Date.t :=
  busy_loop (Z.to_nat (Rental.end_date rental - Rental.start_date rental + 1))
    (Rental.start_date rental) (Rental.end_date rental).

Definition blocks (vehicle_id : Z) (r : Rental.t) : bool :=
  (Rental.vehicle r =? vehicle_id)
  && (RentalStatus_eqb (Rental.status r) PENDING
      || RentalStatus_eqb (Rental.status r) ONGOING).

(** [get_vehicle_available_dates(request)]; [vehicle_id] is the query
    parameter, [None] when it is missing or empty. *)
Definition get_vehicle_available_dates (vehicle_id : option Z) (w : World)
  : JsonResponse :=
  match vehicle_id with
  | None => json_error 400
  | Some vehicle_id =>
      match get Vehicle.id vehicle_id (vehicles w) with
      | None => json_error 404
      | Some vehicle =>
          let rentals_ :=
            order_by_start_date (filter (blocks (Vehicle.id vehicle)) (rentals w)) in
          let busy_dates := flat_map busy_dates_of rentals_ in
          json_ok vehicle_id busy_dates
            (Vehicle.status vehicle =? "AVAILABLE")%string
      end
  end.

(** ** Vocabulary of the sweep properties *)

(** The statuses no transition of the lifecycle leaves. *)
Definition terminal (s : RentalStatus) : Prop := s = COMPLETED \/ s = CANCELLED.

(** No selected order has its vehicle row: the join of the sweep is empty. *)
Definition idle (sel : Rental.t -> bool) (w : World) : Prop :=
  forall r, In r (rentals w) -> sel r = true ->
    has_pk Vehicle.id (Rental.vehicle r) (vehicles w) = false.

(** Every selected order without work left is still in the rows to process. *)
Definition pending_in (sel : Rental.t -> bool)
  (rows : list (Rental.t * Vehicle.t)) (w : World) : Prop :=
  forall r, In r (rentals w) -> sel r = true ->
    has_pk Vehicle.id (Rental.vehicle r) (vehicles w) = false
    \/ In (Rental.id r) (map (fun rv => Rental.id (fst rv)) rows).

(** ** Vocabulary of the further properties *)

(** A refund record of the order [rental_id]. *)
Definition is_refund_of (rental_id : Z) (p : Payment.t) : Prop :=
  Payment.rental p = rental_id
  /\ Payment.transaction_type p = "REFUND"%string
  /\ Payment.status p = "REFUNDED"%string.

(** The tables a step of the sweep may not reshape. *)
Definition same_keys (w w1 : World) : Prop :=
  map Rental.id (rentals w1) = map Rental.id (rentals w)
  /\ map Vehicle.id (vehicles w1) = map Vehicle.id (vehicles w)
  /\ customers w1 = customers w.

(** Both rows of a joined pair are stored. *)
Definition row_present (w : World) (rv : Rental.t * Vehicle.t) : Prop :=
  has_pk Rental.id (Rental.id (fst rv)) (rentals w) = true
  /\ has_pk Vehicle.id (Vehicle.id (snd rv)) (vehicles w) = true.

(** What the sweep makes of the booking [r0] it activates. *)
Definition activated_as (r0 r : Rental.t) : Prop :=
  Rental.id r = Rental.id r0
  /\ Rental.customer r = Rental.customer r0
  /\ Rental.vehicle r = Rental.vehicle r0
  /\ Rental.start_date r = Rental.start_date r0
  /\ Rental.end_date r = Rental.end_date r0
  /\ Rental.actual_return_date r = Rental.actual_return_date r0
  /\ Rental.status r = ONGOING.

(** What the sweep makes of the order [r0] it completes, on the vehicle
    row [v] of its query. *)
Definition completed_as (r0 : Rental.t) (v : Vehicle.t) (r : Rental.t) : Prop :=
  Rental.id r = Rental.id r0
  /\ Rental.customer r = Rental.customer r0
  /\ Rental.vehicle r = Rental.vehicle r0
  /\ Rental.start_date r = Rental.start_date r0
  /\ Rental.end_date r = Rental.end_date r0
  /\ Rental.status r = COMPLETED
  /\ Rental.actual_return_date r
     = Some match Rental.actual_return_date r0 with
            | Some d => d
            | None => Rental.end_date r0
            end
  /\ Rental.total_amount r
     = if Dtruthy (Rental.total_amount r0) then Rental.total_amount r0
       else Dmul_int (Vehicle.daily_rate v) (rental_days r0).

(** The test [_settle_completed_rental] makes before it refunds. *)
Definition refund_due (rental : Rental.t) (w : World) : bool :=
  let deposit_amount := or_zero (Rental.deposit rental) in
  let refundable := Dsub deposit_amount (refunded_total (Rental.id rental) w) in
  Dltb D0_00 deposit_amount && Dltb D0_00 refundable
  && Dleb deposit_amount (paid_total (Rental.id rental) w).

(** The payments the settlement adds. *)
Definition refund_records (rental : Rental.t) (w : World) : list Payment.t :=
  if refund_due rental w then
    match refund_user_of rental w with
    | Some refund_user =>
        [Payment.mk (Rental.id rental) (Some refund_user)
           (Dsub (or_zero (Rental.deposit rental))
                 (refunded_total (Rental.id rental) w))
           "BANK" "REFUND" "REFUNDED" "订单完成，押金自动退还"
           (Some (clock w (ticks w))) (transaction_ref (clock w (S (ticks w))))
           (clock w (S (S (ticks w))))]
    | None => []
    end
  else [].

(** ** Sample data *)

Module Sample.

Definition yuan (n : Z) : Decimal := Dec (n * 100) 2.

Definition today : Date.t := Date._ymd2ord 2024 1 12.

Definition car7 : Vehicle.t := Vehicle.mk 7 "RENTED" (yuan 200).
Definition car8 : Vehicle.t := Vehicle.mk 8 "RENTED" (yuan 100).

(** Alice has a linked account, Bob has none. *)
Definition alice : Customer.t := Customer.mk 3 (Some 11) "NORMAL".
Definition bob : Customer.t := Customer.mk 4 None "VIP".

(** Orders are booked one second apart, in the order of their keys, from
    2023-12-20 00:00:00 UTC. *)
Definition booked_at (id : Z) : datetime := 1703030400000000 + id * 1000000.

Definition order (id customer vehicle : Z) (start_date end_date : Date.t)
  (status : RentalStatus) (total_amount deposit : Decimal)
  (settlement : SettlementStatus) (settled_at : option datetime)
  (amount_paid : Decimal) : Rental.t :=
  Rental.mk id customer vehicle start_date end_date None total_amount deposit
    "门店" None false D0_00 status None (booked_at id) settlement settled_at
    amount_paid D0_00.

Definition charge (rental : Z) (user : option User) (amount : Decimal)
  (at_ : datetime) : Payment.t :=
  Payment.mk rental user amount "BANK" "CHARGE" "PAID" "" (Some at_) "PAY" at_.

(** 2024-01-12 00:00:00 UTC, in microseconds; one microsecond per reading. *)
Definition midnight : datetime := 1705017600000000.
Definition fast_clock (n : nat) : datetime := midnight + Z.of_nat n.

(** Six days at 200 a day with a deposit of 2000, paid in full. *)
Definition orderA (status : RentalStatus) : Rental.t :=
  order 1 3 7 (Date._ymd2ord 2024 1 5) (Date._ymd2ord 2024 1 10) status
    (yuan 1200) (yuan 2000) PARTIAL None (yuan 3200).

Definition orderB (vehicle : Z) : Rental.t :=
  order 2 4 vehicle (Date._ymd2ord 2024 1 6) (Date._ymd2ord 2024 1 9) ONGOING
    (yuan 400) (yuan 1000) PARTIAL None (yuan 1400).

Definition chargeA : Payment.t := charge 1 (Some 11) (yuan 3200) 1704000000000000.
Definition chargeB : Payment.t := charge 2 (Some 12) (yuan 1400) 1704000000000001.

(** One ongoing order, paid in full, on car 7. *)
Definition w_paid : World :=
  mkWorld [orderA ONGOING] [car7] [alice] [chargeA] fast_clock 0 [].

(** Two ongoing orders on the same car. *)
Definition w_shared : World :=
  mkWorld [orderA ONGOING; orderB 7] [car7] [alice; bob] [chargeA; chargeB]
    fast_clock 0 [].

(** Two ongoing orders past their end date, on two cars. *)
Definition w_two : World :=
  mkWorld [orderA ONGOING; orderB 8] [car7; car8] [alice; bob]
    [chargeA; chargeB] fast_clock 0 [].

(** A completed order; its car is back. *)
Definition w_done : World :=
  mkWorld [orderA COMPLETED] [Vehicle.set_status "AVAILABLE" car7] [alice]
    [chargeA] fast_clock 0 [].

(** A completed order settled at [midnight] whose total has grown since
    (1600 + 2000 against 3200 paid). *)
Definition regrown : Rental.t :=
  order 1 3 7 (Date._ymd2ord 2024 1 5) (Date._ymd2ord 2024 1 10) COMPLETED
    (yuan 1600) (yuan 2000) SETTLED (Some midnight) (yuan 3200).

Definition w_regrown : World :=
  mkWorld [regrown] [Vehicle.set_status "AVAILABLE" car7] [alice] [chargeA]
    fast_clock 0 [].




Definition not_in_future (d : Date.t) : bool := d <=? today.
Definition non_empty (s : string) : bool := negb (s =? "")%string.
Definition any_status (r : Rental.t) (s : RentalStatus) : bool := true.

(** A form of which every posting is valid and that takes all columns from
    the posted data, the key from its instance. *)
Definition form_valid (instance : option Rental.t) (post : Rental.t) : bool := true.

Definition form_save (instance : option Rental.t) (post : Rental.t) : Rental.t :=
  match instance with
  | Some r => assign_pk (Rental.id r) post
  | None => post
  end.

(** Three days in February on car 7, amounts left to the view. *)
Definition booking : Rental.t :=
  Sample.order 0 3 7 (Date._ymd2ord 2024 2 1) (Date._ymd2ord 2024 2 3) PENDING
    D0_00 D0_00 UNSETTLED None D0_00.

(** Order 1 prolonged by a day. *)
Definition prolonged : Rental.t :=
  Sample.order 1 3 7 (Date._ymd2ord 2024 1 5) (Date._ymd2ord 2024 1 11) ONGOING
    (Sample.yuan 1200) (Sample.yuan 2000) PARTIAL None (Sample.yuan 3200).

(** A booking that starts before [today] and ends after it. *)
Definition booked : Rental.t :=
  Sample.order 3 3 7 (Date._ymd2ord 2024 1 10) (Date._ymd2ord 2024 1 15) PENDING
    (Sample.yuan 1200) (Sample.yuan 2000) UNSETTLED None D0_00.

Definition w_booked : World :=
  mkWorld [booked] [Vehicle.set_status "AVAILABLE" Sample.car7] [Sample.alice] []
    Sample.fast_clock 0 [].

(** A car at 99.99 a day and Bob's order 6 on it: three days with the VIP
    discount, 269.97 after rounding. *)
Definition car9 : Vehicle.t := Vehicle.mk 9 "AVAILABLE" (Dec 9999 2).

Definition orderV (id : Z) (end_date : Date.t) (total_amount : Decimal)
  : Rental.t :=
  Sample.order id 4 9 (Date._ymd2ord 2024 2 1) end_date PENDING total_amount
    (Sample.yuan 1000) UNSETTLED None D0_00.

Definition w_vip : World :=
  mkWorld [orderV 6 (Date._ymd2ord 2024 2 3) (Dec 26997 2)] [car9] [Sample.bob]
    [] Sample.fast_clock 0 [].

End Sample.

(** * Properties *)

(** ** Tables *)

Section TableFacts.

Context {Row : Type} (pk : Row -> Z).

Lemma get_Some_inv (k : Z) (tbl : list Row) (r : Row) :
  get pk k tbl = Some r -> In r tbl /\ pk r = k.
Proof.
  unfold get. intros H. apply find_some in H.
  destruct H as [Hin Hk]. split; [exact Hin | now apply Z.eqb_eq].
Qed.

Lemma get_None_has_pk (k : Z) (tbl : list Row) :
  get pk k tbl = None <-> has_pk pk k tbl = false.
Proof.
  unfold get, has_pk. induction tbl as [|r tbl IH]; simpl.
  - tauto.
  - destruct (pk r =? k); simpl; [split; discriminate | exact IH].
Qed.

Lemma has_pk_true (k : Z) (tbl : list Row) :
  has_pk pk k tbl = true <-> exists r, In r tbl /\ pk r = k.
Proof.
  unfold has_pk. rewrite existsb_exists.
  split; intros [r [Hin Hk]]; exists r; split; auto; now apply Z.eqb_eq.
Qed.

Lemma has_pk_false (k : Z) (tbl : list Row) :
  has_pk pk k tbl = false <-> forall r, In r tbl -> pk r <> k.
Proof.
  split.
  - intros H r Hin Hk.
    assert (has_pk pk k tbl = true) by (apply has_pk_true; eauto).
    congruence.
  - intros H. destruct (has_pk pk k tbl) eqn:E; [|reflexivity].
    apply has_pk_true in E. destruct E as [r [Hin Hk]].
    exfalso. exact (H r Hin Hk).
Qed.

Lemma get_is_head_of_rows (k : Z) (tbl : list Row) :
  get pk k tbl = hd_error (rows_at pk k tbl).
Proof.
  unfold get, rows_at. induction tbl as [|r tbl IH]; simpl; [reflexivity|].
  destruct (pk r =? k); simpl; [reflexivity | exact IH].
Qed.

Lemma In_save (r r' : Row) (tbl : list Row) :
  In r' (save pk r tbl) -> r' = r \/ (In r' tbl /\ pk r' <> pk r).
Proof.
  unfold save. destruct (has_pk pk (pk r) tbl) eqn:E.
  - rewrite in_map_iff. intros [r0 [Heq Hin]].
    destruct (pk r0 =? pk r) eqn:Ek.
    + left. now symmetry.
    + right. subst r'. split; [exact Hin | now apply Z.eqb_neq].
  - rewrite in_app_iff. simpl. intros [Hin | [Heq | []]].
    + right. split; [exact Hin|]. now apply (proj1 (has_pk_false _ _) E).
    + left. now symmetry.
Qed.

Lemma has_pk_save (k : Z) (r : Row) (tbl : list Row) :
  has_pk pk k (save pk r tbl) = has_pk pk k tbl || (pk r =? k).
Proof.
  unfold save. destruct (has_pk pk (pk r) tbl) eqn:E.
  - unfold has_pk in *. induction tbl as [|r0 tbl IH]; simpl in *.
    + discriminate.
    + destruct (pk r0 =? pk r) eqn:Ek.
      * apply Z.eqb_eq in Ek. rewrite Ek.
        destruct (pk r =? k) eqn:Erk; simpl.
        -- reflexivity.
        -- clear IH E. induction tbl as [|r1 tbl IH1]; simpl.
           ++ reflexivity.
           ++ destruct (pk r1 =? pk r) eqn:E1.
              ** apply Z.eqb_eq in E1. rewrite E1, Erk. simpl. exact IH1.
              ** rewrite IH1. now rewrite !orb_false_r.
      * simpl in E. rewrite (IH E).
        now rewrite orb_assoc.
  - unfold has_pk. rewrite existsb_app. simpl. now rewrite orb_false_r.
Qed.

Lemma rows_at_save_other (k : Z) (r : Row) (tbl : list Row) :
  pk r <> k -> rows_at pk k (save pk r tbl) = rows_at pk k tbl.
Proof.
  intros Hne. unfold save, rows_at.
  destruct (has_pk pk (pk r) tbl).
  - induction tbl as [|r0 tbl IH]; simpl; [reflexivity|].
    destruct (pk r0 =? pk r) eqn:Ek.
    + apply Z.eqb_eq in Ek.
      assert ((pk r =? k) = false) as -> by now apply Z.eqb_neq.
      assert ((pk r0 =? k) = false) as -> by (apply Z.eqb_neq; congruence).
      exact IH.
    + now rewrite IH.
  - rewrite filter_app. simpl.
    assert ((pk r =? k) = false) as -> by now apply Z.eqb_neq.
    now rewrite app_nil_r.
Qed.

Lemma rows_at_update_other (k k' : Z) (f : Row -> Row) (tbl : list Row) :
  (forall r, pk (f r) = pk r) -> k' <> k ->
  rows_at pk k (update pk k' f tbl) = rows_at pk k tbl.
Proof.
  intros Hf Hne. unfold update, rows_at.
  induction tbl as [|r0 tbl IH]; simpl; [reflexivity|].
  destruct (pk r0 =? k') eqn:Ek.
  - apply Z.eqb_eq in Ek. rewrite Hf.
    assert ((pk r0 =? k) = false) as -> by (apply Z.eqb_neq; congruence).
    exact IH.
  - now rewrite IH.
Qed.

Lemma In_update (k : Z) (f : Row -> Row) (r' : Row) (tbl : list Row) :
  In r' (update pk k f tbl) ->
  exists r0, In r0 tbl /\ r' = (if pk r0 =? k then f r0 else r0).
Proof.
  unfold update. rewrite in_map_iff. intros [r0 [Heq Hin]]. eauto.
Qed.

Lemma update_update_same (k : Z) (f : Row -> Row) (tbl : list Row) :
  (forall r, pk (f r) = pk r) -> (forall r, f (f r) = f r) ->
  update pk k f (update pk k f tbl) = update pk k f tbl.
Proof.
  intros Hpk Hf. unfold update. rewrite map_map. apply map_ext. intros r.
  destruct (pk r =? k) eqn:E.
  - now rewrite Hpk, E, Hf.
  - now rewrite E.
Qed.

Lemma get_update (k : Z) (f : Row -> Row) (tbl : list Row) :
  (forall r, pk (f r) = pk r) ->
  get pk k (update pk k f tbl) = option_map f (get pk k tbl).
Proof.
  intros Hpk. unfold get, update.
  induction tbl as [|r tbl IH]; simpl; [reflexivity|].
  destruct (pk r =? k) eqn:E.
  - now rewrite Hpk, E.
  - now rewrite E.
Qed.

Lemma get_has_pk (k : Z) (tbl : list Row) (r : Row) :
  get pk k tbl = Some r -> has_pk pk k tbl = true.
Proof.
  intros H. destruct (has_pk pk k tbl) eqn:E; [reflexivity|].
  apply get_None_has_pk in E. congruence.
Qed.

Lemma get_save_same (r : Row) (tbl : list Row) :
  get pk (pk r) (save pk r tbl) = Some r.
Proof.
  unfold save. destruct (has_pk pk (pk r) tbl) eqn:E.
  - unfold get, has_pk in *. induction tbl as [|r0 tbl IH]; simpl in *.
    + discriminate.
    + destruct (pk r0 =? pk r) eqn:Ek; simpl in *.
      * now rewrite Z.eqb_refl.
      * rewrite Ek. exact (IH E).
  - unfold get. apply (proj2 (get_None_has_pk _ _)) in E. unfold get in E.
    induction tbl as [|r0 tbl IH]; simpl in *.
    + now rewrite Z.eqb_refl.
    + destruct (pk r0 =? pk r); [discriminate | exact (IH E)].
Qed.

End TableFacts.

(** ** Decimal values at a common scale *)

(** ** Decimal values at a common scale *)

Lemma pow10_pos (k : nat) : 0 < 10 ^ Z.of_nat k.
Proof. apply Z.pow_pos_nonneg; lia. Qed.

Lemma scale_to_rescale (n N : nat) (d : Decimal) :
  (places d <= n)%nat -> (n <= N)%nat ->
  scale_to N d = scale_to n d * 10 ^ Z.of_nat (N - n).
Proof.
  intros H1 H2. unfold scale_to.
  replace (Z.of_nat (N - places d))
    with (Z.of_nat (n - places d) + Z.of_nat (N - n)) by lia.
  rewrite Z.pow_add_r by lia. ring.
Qed.

Lemma scale_to_exact (d : Decimal) : scale_to (places d) d = coef d.
Proof. unfold scale_to. rewrite Nat.sub_diag. cbn. ring. Qed.

Lemma scale_to_Dec (c : Z) (n : nat) : scale_to n (Dec c n) = c.
Proof. exact (scale_to_exact (Dec c n)). Qed.

Lemma scale_to_coef (N : nat) (d : Decimal) :
  (places d <= N)%nat -> scale_to N d = coef d * 10 ^ Z.of_nat (N - places d).
Proof. reflexivity. Qed.

Lemma scale_to_Dadd (N : nat) (a b : Decimal) :
  (places a <= N)%nat -> (places b <= N)%nat ->
  scale_to N (Dadd a b) = scale_to N a + scale_to N b.
Proof.
  intros Ha Hb. set (m := Nat.max (places a) (places b)).
  assert (Hm : (m <= N)%nat) by (unfold m; lia).
  rewrite (scale_to_rescale m N (Dadd a b)) by (cbn; fold m; lia).
  rewrite (scale_to_rescale m N a), (scale_to_rescale m N b) by (unfold m; lia).
  unfold Dadd. fold m. rewrite scale_to_Dec. ring.
Qed.

Lemma scale_to_Dsub (N : nat) (a b : Decimal) :
  (places a <= N)%nat -> (places b <= N)%nat ->
  scale_to N (Dsub a b) = scale_to N a - scale_to N b.
Proof.
  intros Ha Hb. set (m := Nat.max (places a) (places b)).
  assert (Hm : (m <= N)%nat) by (unfold m; lia).
  rewrite (scale_to_rescale m N (Dsub a b)) by (cbn; fold m; lia).
  rewrite (scale_to_rescale m N a), (scale_to_rescale m N b) by (unfold m; lia).
  unfold Dsub. fold m. rewrite scale_to_Dec. ring.
Qed.

Lemma Dltb_scale (N : nat) (a b : Decimal) :
  (places a <= N)%nat -> (places b <= N)%nat ->
  Dltb a b = (scale_to N a <? scale_to N b).
Proof.
  intros Ha Hb. unfold Dltb. set (m := Nat.max (places a) (places b)).
  rewrite (scale_to_rescale m N a), (scale_to_rescale m N b) by (unfold m; lia).
  pose proof (pow10_pos (N - m)) as Hp.
  destruct (scale_to m a <? scale_to m b) eqn:E; symmetry.
  - apply Z.ltb_lt in E. apply Z.ltb_lt. nia.
  - apply Z.ltb_ge in E. apply Z.ltb_ge. nia.
Qed.

Lemma Dleb_scale (N : nat) (a b : Decimal) :
  (places a <= N)%nat -> (places b <= N)%nat ->
  Dleb a b = (scale_to N a <=? scale_to N b).
Proof.
  intros Ha Hb. unfold Dleb. set (m := Nat.max (places a) (places b)).
  rewrite (scale_to_rescale m N a), (scale_to_rescale m N b) by (unfold m; lia).
  pose proof (pow10_pos (N - m)) as Hp.
  destruct (scale_to m a <=? scale_to m b) eqn:E; symmetry.
  - apply Z.leb_le in E. apply Z.leb_le. nia.
  - apply Z.leb_gt in E. apply Z.leb_gt. nia.
Qed.

Lemma Deqb_scale (N : nat) (a b : Decimal) :
  (places a <= N)%nat -> (places b <= N)%nat ->
  Deqb a b = (scale_to N a =? scale_to N b).
Proof.
  intros Ha Hb. unfold Deqb. set (m := Nat.max (places a) (places b)).
  rewrite (scale_to_rescale m N a), (scale_to_rescale m N b) by (unfold m; lia).
  pose proof (pow10_pos (N - m)) as Hp.
  destruct (scale_to m a =? scale_to m b) eqn:E; symmetry.
  - apply Z.eqb_eq in E. apply Z.eqb_eq. nia.
  - apply Z.eqb_neq in E. apply Z.eqb_neq. nia.
Qed.

Lemma Dltb_zero (d : Decimal) : Dltb D0_00 d = (0 <? coef d).
Proof.
  rewrite (Dltb_scale (Nat.max 2 (places d))) by (cbn [places D0_00]; lia).
  unfold scale_to at 1. cbn [coef D0_00]. rewrite Z.mul_0_l.
  unfold scale_to. pose proof (pow10_pos (Nat.max 2 (places d) - places d)) as Hp.
  destruct (0 <? coef d) eqn:E.
  - apply Z.ltb_lt in E. apply Z.ltb_lt. nia.
  - apply Z.ltb_ge in E. apply Z.ltb_ge. nia.
Qed.

Lemma Deqb_zero (d : Decimal) : Deqb d D0_00 = (coef d =? 0).
Proof.
  rewrite (Deqb_scale (Nat.max 2 (places d))) by (cbn [places D0_00]; lia).
  unfold scale_to at 2. cbn [coef D0_00]. rewrite Z.mul_0_l.
  unfold scale_to. pose proof (pow10_pos (Nat.max 2 (places d) - places d)) as Hp.
  destruct (coef d =? 0) eqn:E.
  - apply Z.eqb_eq in E. apply Z.eqb_eq. nia.
  - apply Z.eqb_neq in E. apply Z.eqb_neq. nia.
Qed.

Lemma scale_to_or_zero (N : nat) (d : Decimal) :
  scale_to N (or_zero d) = scale_to N d.
Proof.
  unfold or_zero, Dtruthy. destruct (coef d =? 0) eqn:E; [|reflexivity].
  apply Z.eqb_eq in E. cbn [negb]. unfold scale_to. rewrite E. reflexivity.
Qed.

Lemma places_or_zero (d : Decimal) :
  (places (or_zero d) <= Nat.max 2 (places d))%nat.
Proof. unfold or_zero. destruct (Dtruthy d); cbn [places D0_00]; lia. Qed.

Lemma Dltb_zero_r (d : Decimal) : Dltb d D0_00 = (coef d <? 0).
Proof.
  rewrite (Dltb_scale (Nat.max 2 (places d))) by (cbn [places D0_00]; lia).
  unfold scale_to at 2. cbn [coef D0_00]. rewrite Z.mul_0_l.
  unfold scale_to. pose proof (pow10_pos (Nat.max 2 (places d) - places d)) as Hp.
  destruct (coef d <? 0) eqn:E.
  - apply Z.ltb_lt in E. apply Z.ltb_lt. nia.
  - apply Z.ltb_ge in E. apply Z.ltb_ge. nia.
Qed.

(** ** Quantized values *)

Lemma quantize2_places (d : Decimal) : places (quantize2 d) = 2%nat.
Proof. unfold quantize2. now destruct (places d <=? 2)%nat. Qed.

Lemma quantize2_exact (d : Decimal) :
  (places d <= 2)%nat -> quantize2 d = Dec (scale_to 2 d) 2.
Proof. intros H. unfold quantize2. now apply Nat.leb_le in H as ->. Qed.

Lemma quantize2_two_places (d : Decimal) : places d = 2%nat -> quantize2 d = d.
Proof.
  intros H. rewrite quantize2_exact by lia. destruct d as [c n]. cbn in H.
  subst n. now rewrite scale_to_Dec.
Qed.

Lemma quantize2_idem (d : Decimal) : quantize2 (quantize2 d) = quantize2 d.
Proof. apply quantize2_two_places, quantize2_places. Qed.

Lemma scale_to_quantize2 (N : nat) (d : Decimal) :
  (places d <= 2)%nat -> (2 <= N)%nat ->
  scale_to N (quantize2 d) = scale_to N d.
Proof.
  intros H HN. rewrite quantize2_exact by exact H.
  rewrite (scale_to_rescale 2 N d) by lia.
  unfold scale_to at 1. cbn [coef places]. reflexivity.
Qed.

Lemma Dleb_quantize2_r (a d : Decimal) :
  (places d <= 2)%nat -> Dleb a (quantize2 d) = Dleb a d.
Proof.
  intros H. set (N := Nat.max 2 (places a)).
  rewrite (Dleb_scale N a (quantize2 d))
    by (rewrite ?quantize2_places; unfold N; lia).
  rewrite (Dleb_scale N a d) by (unfold N; lia).
  now rewrite scale_to_quantize2 by (unfold N; lia).
Qed.

Lemma stored_fields (r : Rental.t) :
  Rental.id (stored r) = Rental.id r
  /\ Rental.customer (stored r) = Rental.customer r
  /\ Rental.vehicle (stored r) = Rental.vehicle r
  /\ Rental.start_date (stored r) = Rental.start_date r
  /\ Rental.end_date (stored r) = Rental.end_date r
  /\ Rental.actual_return_date (stored r) = Rental.actual_return_date r
  /\ Rental.status (stored r) = Rental.status r
  /\ Rental.settlement_status (stored r) = Rental.settlement_status r
  /\ Rental.settled_at (stored r) = Rental.settled_at r
  /\ Rental.created_at (stored r) = Rental.created_at r.
Proof. repeat split. Qed.

(** ** The settlement refresh *)

Lemma save_defaults_fields (v : Vehicle.t) (r : Rental.t) :
  save_defaults v r =
  Rental.mk (Rental.id r) (Rental.customer r) (Rental.vehicle r)
    (Rental.start_date r) (Rental.end_date r) (Rental.actual_return_date r)
    (if negb (Dtruthy (Rental.total_amount r))
     then Dmul_int (Vehicle.daily_rate v) (rental_days r)
     else Rental.total_amount r)
    (if Deqb (Rental.deposit r) D0_00
     then Dmul (Vehicle.daily_rate v) (Dec 10 0) else Rental.deposit r)
    (Rental.pickup_location r)
    (if Rental.is_cross_location_return r
        && match Rental.return_location r with
           | Some s => (s =? "")%string
           | None => true
           end
     then Some (Rental.pickup_location r) else Rental.return_location r)
    (Rental.is_cross_location_return r)
    (if Rental.is_cross_location_return r
        && Deqb (Rental.cross_location_fee r) D0_00
     then Dmul (Vehicle.daily_rate v) (Dec 5 1) else Rental.cross_location_fee r)
    (Rental.status r) (Rental.notes r) (Rental.created_at r)
    (Rental.settlement_status r) (Rental.settled_at r) (Rental.amount_paid r)
    (Rental.amount_refunded r).
Proof.
  destruct r as [i c ve s e a tot dep pl rl cross fee st n ca ss sa ap ar].
  unfold save_defaults, rental_days.
  cbn -[Deqb Dtruthy String.eqb Dmul Dmul_int].
  destruct (Dtruthy tot); cbn -[Deqb Dtruthy String.eqb Dmul Dmul_int];
  destruct (Deqb dep D0_00); cbn -[Deqb Dtruthy String.eqb Dmul Dmul_int];
  destruct cross; cbn -[Deqb Dtruthy String.eqb Dmul Dmul_int];
  try reflexivity;
  (destruct rl as [rs|]; [destruct (String.eqb rs "")|]);
  cbn -[Deqb Dtruthy String.eqb Dmul Dmul_int];
  destruct (Deqb fee D0_00); reflexivity.
Qed.

Lemma save_defaults_idem (v : Vehicle.t) (r : Rental.t) :
  save_defaults v (save_defaults v r) = save_defaults v r.
Proof.
  rewrite (save_defaults_fields v (save_defaults v r)).
  rewrite (save_defaults_fields v r).
  unfold rental_days.
  cbn -[Deqb Dtruthy String.eqb Dmul Dmul_int].
  f_equal.
  - destruct (Dtruthy (Rental.total_amount r)) eqn:E; cbn [negb].
    + now rewrite E.
    + destruct (negb _); reflexivity.
  - destruct (Deqb (Rental.deposit r) D0_00) eqn:E; [|now rewrite E].
    match goal with |- (if ?c then _ else _) = _ => destruct c; reflexivity end.
  - destruct (Rental.is_cross_location_return r); [|reflexivity].
    cbn [andb].
    destruct (Rental.return_location r) as [rs|].
    + destruct (String.eqb rs "") eqn:E; [|now rewrite E].
      match goal with |- (if ?c then _ else _) = _ => destruct c; reflexivity end.
    + match goal with |- (if ?c then _ else _) = _ => destruct c; reflexivity end.
  - destruct (Rental.is_cross_location_return r); [|reflexivity].
    cbn [andb].
    destruct (Deqb (Rental.cross_location_fee r) D0_00) eqn:E; [|now rewrite E].
    match goal with |- (if ?c then _ else _) = _ => destruct c; reflexivity end.
Qed.

Lemma RentalStatus_eqb_eq (a b : RentalStatus) :
  RentalStatus_eqb a b = true <-> a = b.
Proof. destruct a, b; simpl; split; congruence. Qed.

Lemma save_defaults_frame (v : Vehicle.t) (r : Rental.t) :
  let r' := save_defaults v r in
  Rental.id r' = Rental.id r /\ Rental.status r' = Rental.status r
  /\ Rental.start_date r' = Rental.start_date r
  /\ Rental.end_date r' = Rental.end_date r
  /\ Rental.vehicle r' = Rental.vehicle r
  /\ Rental.actual_return_date r' = Rental.actual_return_date r
  /\ Rental.settlement_status r' = Rental.settlement_status r
  /\ Rental.settled_at r' = Rental.settled_at r
  /\ Rental.amount_paid r' = Rental.amount_paid r
  /\ Rental.amount_refunded r' = Rental.amount_refunded r.
Proof. cbv zeta. rewrite save_defaults_fields. cbn. repeat split. Qed.

Lemma save_defaults_id (v : Vehicle.t) (r : Rental.t) :
  Rental.id (save_defaults v r) = Rental.id r.
Proof. apply save_defaults_frame. Qed.

Lemma save_defaults_status (v : Vehicle.t) (r : Rental.t) :
  Rental.status (save_defaults v r) = Rental.status r.
Proof. apply save_defaults_frame. Qed.

(** [Rental.save] in closed form. *)
Lemma Rental_save_present (v : Vehicle.t) (self : Rental.t) (w : World) :
  has_pk Rental.id (Rental.id self) (rentals w) = true ->
  Rental_save v self w
  = (save_defaults v self,
     with_rentals (save Rental.id (stored (save_defaults v self)) (rentals w))
       (auto_now w)).
Proof.
  intros H. unfold Rental_save. cbv zeta.
  cbn [rentals auto_now timezone_now snd]. now rewrite save_defaults_id, H.
Qed.

Lemma Rental_save_instance (v : Vehicle.t) (self : Rental.t) (w : World) :
  exists t,
    fst (Rental_save v self w) = Rental.set_created_at t (save_defaults v self).
Proof.
  unfold Rental_save. cbv zeta. destruct (has_pk _ _ _).
  - exists (Rental.created_at (save_defaults v self)). cbn [fst].
    now destruct (save_defaults v self).
  - eexists. reflexivity.
Qed.

Lemma Rental_save_frame (v : Vehicle.t) (self : Rental.t) (w : World) :
  let r := Rental_save v self w in
  rentals (snd r) = save Rental.id (stored (fst r)) (rentals w)
  /\ vehicles (snd r) = vehicles w /\ customers (snd r) = customers w
  /\ payments (snd r) = payments w /\ stdout (snd r) = stdout w
  /\ clock (snd r) = clock w.
Proof.
  cbv zeta. unfold Rental_save. cbv zeta.
  destruct (has_pk _ _ _); cbn; repeat split.
Qed.

Lemma Rental_save_id (v : Vehicle.t) (self : Rental.t) (w : World) :
  Rental.id (fst (Rental_save v self w)) = Rental.id self.
Proof.
  destruct (Rental_save_instance v self w) as [t ->]. apply save_defaults_id.
Qed.

Lemma Rental_save_status (v : Vehicle.t) (self : Rental.t) (w : World) :
  Rental.status (fst (Rental_save v self w)) = Rental.status self.
Proof.
  destruct (Rental_save_instance v self w) as [t ->]. apply save_defaults_status.
Qed.

(** The row stored under the key of the saved instance. *)
Lemma Rental_save_get (v : Vehicle.t) (self : Rental.t) (w : World) :
  get Rental.id (Rental.id self) (rentals (snd (Rental_save v self w)))
  = Some (stored (fst (Rental_save v self w))).
Proof.
  destruct (Rental_save_frame v self w) as (-> & _).
  rewrite <- (Rental_save_id v self w) at 1.
  apply (get_save_same Rental.id (stored (fst (Rental_save v self w)))).
Qed.

Lemma copy_financials_defaults (v : Vehicle.t) (x : Rental.t) :
  copy_financials (save_defaults v x) = copy_financials x.
Proof.
  unfold copy_financials.
  destruct (save_defaults_frame v x) as (_ & _ & _ & _ & _ & _ & H1 & H2 & H3 & H4).
  now rewrite H1, H2, H3, H4.
Qed.

Lemma refresh_financials_eq (save_ : bool) (v : Vehicle.t) (self : Rental.t) (w : World) :
  refresh_financials save_ v self w =
  if save_ then
    (save_defaults v (derived self w),
     with_rentals
       (update Rental.id (Rental.id self) (copy_financials (derived self w))
          (rentals (stamped self w))) (auto_now (stamped self w)))
  else (derived self w, stamped self w).
Proof.
  unfold refresh_financials, derived, stamped, covered.
  cbn -[paid_total refunded_total calculate_order_total Dleb Dltb save_defaults
        quantize2].
  change (calculate_order_total (Rental.set_financials _ _ _ _ self))
    with (calculate_order_total self).
  destruct (RentalStatus_eqb (Rental.status self) COMPLETED
            && Dleb (calculate_order_total self) (paid_total (Rental.id self) w));
    [destruct (Rental.settled_at self)
    |destruct (Dltb D0_00 (paid_total (Rental.id self) w))];
    destruct save_;
    cbn -[save_defaults paid_total refunded_total copy_financials];
    rewrite ?save_defaults_id, ?copy_financials_defaults; reflexivity.
Qed.

Lemma paid_total_payments (k : Z) (w1 w2 : World) :
  payments w1 = payments w2 -> paid_total k w1 = paid_total k w2.
Proof. unfold paid_total, payments_of. now intros ->. Qed.

Lemma refunded_total_payments (k : Z) (w1 w2 : World) :
  payments w1 = payments w2 -> refunded_total k w1 = refunded_total k w2.
Proof. unfold refunded_total, payments_of. now intros ->. Qed.

Lemma stamped_payments (self : Rental.t) (w : World) :
  payments (stamped self w) = payments w.
Proof.
  unfold stamped. destruct (covered self w); [|reflexivity].
  now destruct (Rental.settled_at self).
Qed.

Lemma stamped_rentals (self : Rental.t) (w : World) :
  rentals (stamped self w) = rentals w.
Proof.
  unfold stamped. destruct (covered self w); [|reflexivity].
  now destruct (Rental.settled_at self).
Qed.

Lemma stamped_vehicles (self : Rental.t) (w : World) :
  vehicles (stamped self w) = vehicles w.
Proof.
  unfold stamped. destruct (covered self w); [|reflexivity].
  now destruct (Rental.settled_at self).
Qed.

Lemma set_financials_same (r : Rental.t) :
  Rental.set_financials (Rental.amount_paid r) (Rental.amount_refunded r)
    (Rental.settlement_status r) (Rental.settled_at r) r = r.
Proof. now destruct r. Qed.

Lemma derived_status_cases (self : Rental.t) (w : World) :
  Rental.settlement_status (derived self w) = SETTLED <-> covered self w = true.
Proof.
  unfold derived. cbn -[paid_total refunded_total covered].
  destruct (covered self w); [tauto|].
  destruct (Dltb _ _); split; discriminate.
Qed.

Lemma derived_fields (self : Rental.t) (w : World) :
  Rental.id (derived self w) = Rental.id self
  /\ Rental.status (derived self w) = Rental.status self
  /\ Rental.amount_paid (derived self w) = paid_total (Rental.id self) w
  /\ Rental.amount_refunded (derived self w) = refunded_total (Rental.id self) w
  /\ calculate_order_total (derived self w) = calculate_order_total self.
Proof. repeat split. Qed.

Lemma stamped_ticks (self : Rental.t) (w : World) :
  ticks (stamped self w)
  = ((if covered self w
      then match Rental.settled_at self with Some _ => 0 | None => 1 end
      else 0) + ticks w)%nat.
Proof.
  unfold stamped. destruct (covered self w); [|reflexivity].
  now destruct (Rental.settled_at self).
Qed.

(** What one refresh derives: settled exactly for a completed order whose
    total the paid amount covers, [settled_at] kept or stamped with one
    reading of the clock; a refresh that saves reads the clock once more,
    for [updated_at]. *)
Lemma refresh_characterised (save_ : bool) (v : Vehicle.t) (self : Rental.t)
  (w : World) :
  let r1 := refresh_financials save_ v self w in
  (Rental.settlement_status (fst r1) = SETTLED <->
   Rental.status self = COMPLETED
   /\ Dleb (calculate_order_total self) (Rental.amount_paid (fst r1)) = true)
  /\ Rental.amount_paid (fst r1) = paid_total (Rental.id self) w
  /\ (Rental.settlement_status (fst r1) = SETTLED ->
      Rental.settled_at (fst r1) =
        Some match Rental.settled_at self with
             | Some t0 => t0
             | None => clock w (ticks w)
             end
      /\ ticks (snd r1) =
           (match Rental.settled_at self with Some _ => 0 | None => 1 end
            + (if save_ then 1 else 0) + ticks w)%nat).
Proof.
  cbv zeta. rewrite refresh_financials_eq.
  assert (Hfst : forall b : bool,
    fst (if b then
           (save_defaults v (derived self w),
            with_rentals
              (update Rental.id (Rental.id self) (copy_financials (derived self w))
                 (rentals (stamped self w))) (auto_now (stamped self w)))
         else (derived self w, stamped self w))
    = if b then save_defaults v (derived self w) else derived self w)
    by (now intros []).
  rewrite Hfst.
  destruct (save_defaults_frame v (derived self w))
    as (Fid & Fst & _ & _ & _ & _ & Fss & Fat & Fpaid & Fref).
  assert (Hss : Rental.settlement_status
                  (if save_ then save_defaults v (derived self w) else derived self w)
                = Rental.settlement_status (derived self w))
    by (destruct save_; [exact Fss | reflexivity]).
  assert (Hpaid : Rental.amount_paid
                  (if save_ then save_defaults v (derived self w) else derived self w)
                = paid_total (Rental.id self) w)
    by (destruct save_; [rewrite Fpaid|]; reflexivity).
  assert (Hat : Rental.settled_at
                  (if save_ then save_defaults v (derived self w) else derived self w)
                = Rental.settled_at (derived self w))
    by (destruct save_; [exact Fat | reflexivity]).
  rewrite Hss, Hpaid, Hat, derived_status_cases.
  split; [|split; [reflexivity|]].
  - unfold covered. rewrite andb_true_iff, RentalStatus_eqb_eq. tauto.
  - intros Hc. unfold derived. cbn -[paid_total refunded_total covered].
    rewrite Hc. split; [reflexivity|].
    destruct save_; cbn [snd auto_now timezone_now ticks with_rentals];
      rewrite stamped_ticks, Hc; destruct (Rental.settled_at self); lia.
Qed.


(** C10.  When the refresh classifies an order as partial (something was
    paid, but the order is not both completed and covered) it leaves
    [settled_at] as it was, on the instance and on the stored row; a
    refresh takes [settled_at] from a value to NULL only in the unsettled
    branch.  So an order settled once and partial now keeps its old
    timestamp next to the status PARTIAL. *)
Theorem refresh_partial_keeps_settled_at (save_ : bool) (v : Vehicle.t)
  (self : Rental.t) (w : World) :
  ~ (Rental.status self = COMPLETED
     /\ Dleb (calculate_order_total self) (paid_total (Rental.id self) w) = true) ->
  Dltb D0_00 (paid_total (Rental.id self) w) = true ->
  let r1 := refresh_financials save_ v self w in
  Rental.settlement_status (fst r1) = PARTIAL
  /\ Rental.settled_at (fst r1) = Rental.settled_at self
  /\ (save_ = true ->
      forall row, In row (rentals (snd r1)) -> Rental.id row = Rental.id self ->
        Rental.settlement_status row = PARTIAL
        /\ Rental.settled_at row = Rental.settled_at self)
  /\ (forall self' w',
        let r' := refresh_financials save_ v self' w' in
        Rental.settled_at (fst r') = None ->
        Rental.settled_at self' = None
        \/ Rental.settlement_status (fst r') = UNSETTLED).
Proof.
  intros Hnot Hpaid. cbv zeta.
  assert (Hc : covered self w = false).
  { destruct (covered self w) eqn:E; [|reflexivity]. exfalso. apply Hnot.
    unfold covered in E. apply andb_true_iff in E.
    now rewrite RentalStatus_eqb_eq in E. }
  assert (Hd : Rental.settlement_status (derived self w) = PARTIAL
               /\ Rental.settled_at (derived self w) = Rental.settled_at self).
  { unfold derived. cbn -[paid_total refunded_total covered].
    now rewrite Hc, Hpaid. }
  destruct Hd as [Hd1 Hd2].
  destruct (save_defaults_frame v (derived self w))
    as (_ & _ & _ & _ & _ & _ & Fss & Fat & _ & _).
  rewrite refresh_financials_eq.
  split; [|split; [|split]].
  - destruct save_; cbn [fst]; congruence.
  - destruct save_; cbn [fst]; congruence.
  - intros -> row Hin Hid. cbn [snd rentals with_rentals] in Hin.
    apply In_update in Hin. destruct Hin as [r0 [_ Hrow]].
    destruct (Rental.id r0 =? Rental.id self) eqn:E.
    + subst row. unfold copy_financials.
      cbn [Rental.set_financials Rental.settlement_status Rental.settled_at].
      split; assumption.
    + subst row. apply Z.eqb_neq in E. contradiction.
  - intros self' w'. rewrite refresh_financials_eq.
    destruct (save_defaults_frame v (derived self' w'))
      as (_ & _ & _ & _ & _ & _ & Gss & Gat & _ & _).
    assert (Hgen : Rental.settled_at (derived self' w') = None ->
                   Rental.settled_at self' = None
                   \/ Rental.settlement_status (derived self' w') = UNSETTLED).
    { unfold derived. cbn -[paid_total refunded_total covered].
      destruct (covered self' w'); [discriminate|].
      destruct (Dltb D0_00 (paid_total (Rental.id self') w')); auto. }
    destruct save_; cbn [fst]; [rewrite Gss, Gat|]; exact Hgen.
Qed.

(** An order settled at [midnight] whose total has since outgrown the
    payments: partial, with the old timestamp. *)
Lemma refresh_partial_keeps_settled_at_witness :
  let r1 := refresh_financials true Sample.car7 Sample.regrown Sample.w_regrown in
  Rental.settlement_status Sample.regrown = SETTLED
  /\ Rental.settlement_status (fst r1) = PARTIAL
  /\ Rental.settled_at (fst r1) = Some Sample.midnight
  /\ get Rental.id 1 (rentals (snd r1)) = Some (fst r1).
Proof.
  cbv zeta.
  destruct (refresh_partial_keeps_settled_at true Sample.car7 Sample.regrown
              Sample.w_regrown) as (H1 & H2 & _).
  - intros [_ H]. vm_compute in H. discriminate H.
  - reflexivity.
  - split; [reflexivity|]. split; [exact H1|]. split; [exact H2|]. reflexivity.
Defined.

(** ** The overdue surcharge *)

Lemma scale_to_pos (n : nat) (d : Decimal) : 0 < coef d -> 0 < scale_to n d.
Proof.
  intros H. unfold scale_to.
  apply Z.mul_pos_pos; [exact H|]. apply Z.pow_pos_nonneg; lia.
Qed.

Lemma scale_to_nonneg (n : nat) (d : Decimal) : 0 <= coef d -> 0 <= scale_to n d.
Proof.
  intros H. unfold scale_to.
  apply Z.mul_nonneg_nonneg; [exact H|]. apply Z.pow_nonneg; lia.
Qed.

Lemma Dadd_truthy (a b : Decimal) :
  0 < coef a -> 0 <= coef b -> Dtruthy (Dadd a b) = true.
Proof.
  intros Ha Hb. unfold Dtruthy, Dadd. cbn [coef].
  apply negb_true_iff, Z.eqb_neq.
  pose proof (scale_to_pos (Nat.max (places a) (places b)) a Ha).
  pose proof (scale_to_nonneg (Nat.max (places a) (places b)) b Hb).
  lia.
Qed.

(** C9.  For a rental with an actual return date the cost breakdown has
    no surcharge when the return is on or before the end date, and
    otherwise exactly the daily rate times the number of days past the end
    date, with the decimal places of the daily rate (no rounding), added
    to the total.  The manual return adds the same amount to
    [total_amount] of the order it stores as completed.  At 200.00 a day,
    end date 2024-01-10 and return on 2024-01-12, the surcharge is
    400.00. *)
Theorem overdue_surcharge :
  (forall (rental : Rental.t) (customer : Customer.t) (vehicle : Vehicle.t)
          (d : Date.t),
     Rental.actual_return_date rental = Some d ->
     let cost := calculate_rental_cost rental customer vehicle in
     (d <= Rental.end_date rental ->
      extra_amount cost = D0_00 /\ extra_days cost = 0
      /\ cost_total_amount cost = Dsub (base_amount cost) (discount cost))
     /\ (Rental.end_date rental < d ->
         extra_days cost = Date.days d (Rental.end_date rental)
         /\ extra_amount cost = Dmul_int (Vehicle.daily_rate vehicle) (extra_days cost)
         /\ coef (extra_amount cost)
            = coef (Vehicle.daily_rate vehicle) * (d - Rental.end_date rental)
         /\ places (extra_amount cost) = places (Vehicle.daily_rate vehicle)
         /\ cost_total_amount cost
            = Dadd (Dsub (base_amount cost) (discount cost)) (extra_amount cost)))
  /\ (forall (valid : Date.t -> bool) (pk : Z) (d : Date.t) (w : World)
             (rental : Rental.t) (vehicle : Vehicle.t),
        get Rental.id pk (rentals w) = Some rental ->
        get Vehicle.id (Rental.vehicle rental) (vehicles w) = Some vehicle ->
        valid d = true ->
        0 < coef (Rental.total_amount rental) ->
        0 <= coef (Vehicle.daily_rate vehicle) ->
        exists row,
          get Rental.id pk (rentals (snd (rental_return valid pk (Some d) w)))
          = Some row
          /\ Rental.status row = COMPLETED
          /\ Rental.actual_return_date row = Some d
          /\ Rental.total_amount row
             = quantize2
                 (if Rental.end_date rental <? d
                  then Dadd (Rental.total_amount rental)
                         (Dmul_int (Vehicle.daily_rate vehicle)
                            (Date.days d (Rental.end_date rental)))
                  else Rental.total_amount rental)
          /\ (places (Rental.total_amount rental) = 2%nat ->
              places (Vehicle.daily_rate vehicle) = 2%nat ->
              Rental.total_amount row
              = if Rental.end_date rental <? d
                then Dadd (Rental.total_amount rental)
                       (Dmul_int (Vehicle.daily_rate vehicle)
                          (Date.days d (Rental.end_date rental)))
                else Rental.total_amount rental))
  /\ (let rental :=
        Rental.set_actual_return_date (Some (Date._ymd2ord 2024 1 12))
          (Sample.orderA COMPLETED) in
      Rental.end_date rental = Date._ymd2ord 2024 1 10
      /\ Vehicle.daily_rate Sample.car7 = Dec 20000 2
      /\ extra_amount (calculate_rental_cost rental Sample.alice Sample.car7)
         = Dec 40000 2).
Proof.
  split; [|split].
  - intros rental customer vehicle d Hd. cbv zeta.
    unfold calculate_rental_cost. rewrite Hd. split.
    + intros Hle. assert ((Rental.end_date rental <? d) = false) as ->
        by (apply Z.ltb_ge; lia).
      cbn [extra_amount extra_days cost_total_amount base_amount discount].
      repeat split.
    + intros Hlt. assert ((Rental.end_date rental <? d) = true) as ->
        by (apply Z.ltb_lt; lia).
      cbn [extra_amount extra_days cost_total_amount base_amount discount].
      repeat split.
  - intros valid pk d w rental vehicle Hr Hv Hvalid Htot Hrate.
    unfold rental_return. rewrite Hr, Hvalid, Hv.
    destruct (get_Some_inv _ _ _ _ Hr) as [_ Hpk].
    set (r1 := Rental.set_status COMPLETED _).
    assert (Hid1 : Rental.id r1 = pk).
    { unfold r1. destruct (Rental.end_date _ <? d); exact Hpk. }
    rewrite Rental_save_present
      by (rewrite Hid1; exact (get_has_pk _ _ _ _ Hr)).
    unfold Vehicle_save.
    cbn [snd rentals with_rentals with_vehicles auto_now timezone_now].
    exists (stored (save_defaults vehicle r1)).
    destruct (save_defaults_frame vehicle r1) as (Fid & Fst & _ & _ & _ & Fard & _).
    split.
    { rewrite <- Hid1, <- Fid.
      apply (get_save_same Rental.id (stored (save_defaults vehicle r1))). }
    cbn [stored Rental.status Rental.actual_return_date Rental.total_amount].
    split. { rewrite Fst. reflexivity. }
    split. { rewrite Fard. unfold r1. now destruct (Rental.end_date _ <? d). }
    assert (Htotal : Rental.total_amount (save_defaults vehicle r1)
                     = if Rental.end_date rental <? d
                       then Dadd (Rental.total_amount rental)
                              (Dmul_int (Vehicle.daily_rate vehicle)
                                 (Date.days d (Rental.end_date rental)))
                       else Rental.total_amount rental).
    { rewrite save_defaults_fields. cbn [Rental.total_amount].
      assert (Ht : Dtruthy (Rental.total_amount r1) = true).
      { unfold r1. cbn [Rental.end_date Rental.set_actual_return_date].
        destruct (Rental.end_date rental <? d) eqn:E; cbn.
        - apply Dadd_truthy; [exact Htot|]. cbn [coef Dmul_int].
          apply Z.ltb_lt in E. unfold Date.days. nia.
        - apply negb_true_iff, Z.eqb_neq. lia. }
      rewrite Ht. cbn [negb]. unfold r1.
      cbn [Rental.end_date Rental.set_actual_return_date].
      now destruct (Rental.end_date rental <? d). }
    rewrite Htotal. split; [reflexivity|].
    intros P1 P2. apply quantize2_two_places.
    destruct (Rental.end_date rental <? d); [|exact P1].
    cbn [places Dadd Dmul_int]. rewrite P1, P2. reflexivity.
  - cbv zeta. repeat split.
Qed.

(** Returned two days late at 200.00 a day: 1200.00 becomes 1600.00. *)
Lemma overdue_surcharge_witness :
  exists row,
    get Rental.id 1
      (rentals (snd (rental_return Sample.not_in_future 1 (Some Sample.today)
                       Sample.w_paid))) = Some row
    /\ Rental.status row = COMPLETED
    /\ Rental.total_amount row = Dec 160000 2.
Proof.
  destruct (proj1 (proj2 overdue_surcharge) Sample.not_in_future 1 Sample.today
              Sample.w_paid (Sample.orderA ONGOING) Sample.car7)
    as (row & Hget & Hst & _ & _ & Htot).
  - reflexivity.
  - reflexivity.
  - reflexivity.
  - reflexivity.
  - discriminate.
  - exists row. split; [exact Hget|]. split; [exact Hst|].
    exact (Htot eq_refl eq_refl).
Defined.

(** ** The automatic deposit refund *)

Lemma refresh_frame (save_ : bool) (v : Vehicle.t) (self : Rental.t) (w : World) :
  let w1 := snd (refresh_financials save_ v self w) in
  payments w1 = payments w /\ stdout w1 = stdout w /\ vehicles w1 = vehicles w
  /\ customers w1 = customers w /\ clock w1 = clock w.
Proof.
  cbv zeta. rewrite refresh_financials_eq. unfold stamped.
  destruct save_, (covered self w), (Rental.settled_at self); cbn; repeat split.
Qed.


Lemma or_zero_cases (d : Decimal) :
  or_zero d = d \/ (or_zero d = D0_00 /\ Dltb D0_00 d = false).
Proof.
  unfold or_zero, Dtruthy. destruct (coef d =? 0) eqn:E; cbn [negb]; [right | now left].
  split; [reflexivity|]. apply Z.eqb_eq in E.
  unfold Dltb, scale_to. rewrite E. cbn [coef D0_00]. apply Z.ltb_ge. lia.
Qed.



(** ** The manual return *)

(** Whatever else is stored, an accepted manual return writes the order as
    completed with the settlement columns it had, and its vehicle as
    available. *)
Lemma rental_return_effect (valid : Date.t -> bool) (pk : Z) (d : Date.t)
  (w : World) (rental : Rental.t) (vehicle : Vehicle.t) :
  get Rental.id pk (rentals w) = Some rental ->
  get Vehicle.id (Rental.vehicle rental) (vehicles w) = Some vehicle ->
  valid d = true ->
  let w1 := snd (rental_return valid pk (Some d) w) in
  (exists row,
      get Rental.id pk (rentals w1) = Some row
      /\ Rental.status row = COMPLETED
      /\ Rental.actual_return_date row = Some d
      /\ Rental.settlement_status row = Rental.settlement_status rental
      /\ Rental.settled_at row = Rental.settled_at rental
      /\ Rental.amount_paid row = quantize2 (Rental.amount_paid rental)
      /\ Rental.amount_refunded row = quantize2 (Rental.amount_refunded rental))
  /\ option_map Vehicle.status
       (get Vehicle.id (Rental.vehicle rental) (vehicles w1))
     = Some "AVAILABLE"%string
  /\ payments w1 = payments w.
Proof.
  intros Hr Hv Hd. cbv zeta. unfold rental_return. rewrite Hr, Hd, Hv.
  destruct (get_Some_inv _ _ _ _ Hr) as [_ Hpk].
  destruct (get_Some_inv _ _ _ _ Hv) as [_ Hvid].
  set (r1 := Rental.set_status COMPLETED _).
  assert (Hr1 : Rental.id r1 = pk
                /\ Rental.actual_return_date r1 = Some d
                /\ Rental.settlement_status r1 = Rental.settlement_status rental
                /\ Rental.settled_at r1 = Rental.settled_at rental
                /\ Rental.amount_paid r1 = Rental.amount_paid rental
                /\ Rental.amount_refunded r1 = Rental.amount_refunded rental).
  { unfold r1. destruct (Rental.end_date _ <? d); cbn; repeat split; exact Hpk. }
  destruct Hr1 as (Hid & Hard & Hss & Hat & Hpaid & Href).
  rewrite Rental_save_present by (rewrite Hid; exact (get_has_pk _ _ _ _ Hr)).
  unfold Vehicle_save.
  cbn [snd rentals vehicles payments with_rentals with_vehicles auto_now
       timezone_now].
  destruct (save_defaults_frame vehicle r1)
    as (Fid & Fst & _ & _ & _ & Fard & Fss & Fat & Fpaid & Fref).
  split; [|split; [|reflexivity]].
  - exists (stored (save_defaults vehicle r1)). split.
    + rewrite <- Hid, <- Fid.
      apply (get_save_same Rental.id (stored (save_defaults vehicle r1))).
    + cbn [stored Rental.status Rental.actual_return_date
           Rental.settlement_status Rental.settled_at Rental.amount_paid
           Rental.amount_refunded].
      rewrite Fst, Fard, Fss, Fat, Fpaid, Fref, Hpaid, Href.
      repeat split; assumption.
  - rewrite <- Hvid.
    change (Vehicle.id vehicle)
      with (Vehicle.id (Vehicle.set_status "AVAILABLE" vehicle)).
    now rewrite get_save_same.
Qed.

(** ** The manual paths, evaluated *)

Ltac calc :=
  vm_compute;
  match goal with
  | |- _ = _ => reflexivity
  | |- _ => discriminate
  end.

(** Evaluate a closed statement, conjunct by conjunct, left to right. *)
Ltac crunch :=
  cbv zeta;
  lazymatch goal with
  | |- exists _, _ => eexists; crunch
  | |- _ /\ _ => split; [crunch | crunch]
  | |- _ => calc
  end.

(** C1.  An ongoing order paid in full is completed by the manual return
    and by the status form: the stored row is then COMPLETED with the
    settlement status PARTIAL it had before, where a refresh would derive
    SETTLED.  The sweep, which calls the refresh, stores SETTLED. *)
Theorem manual_completion_skips_refresh :
  let on_time := Date._ymd2ord 2024 1 10 in
  let w1 := snd (rental_return Sample.not_in_future 1 (Some on_time) Sample.w_paid) in
  let w2 := snd (rental_status_update Sample.any_status 1 (Some COMPLETED)
                   Sample.w_paid) in
  let w3 := snd (handle Sample.today Sample.w_paid) in
  (exists row,
      get Rental.id 1 (rentals w1) = Some row
      /\ Rental.status row = COMPLETED
      /\ Rental.settlement_status row = PARTIAL
      /\ Rental.settled_at row = None
      /\ Rental.settlement_status
           (fst (refresh_financials true Sample.car7 row w1)) = SETTLED)
  /\ (exists row,
      get Rental.id 1 (rentals w2) = Some row
      /\ Rental.status row = COMPLETED
      /\ Rental.settlement_status row = PARTIAL
      /\ Rental.settlement_status
           (fst (refresh_financials true Sample.car7 row w2)) = SETTLED)
  /\ (exists row,
      get Rental.id 1 (rentals w3) = Some row
      /\ Rental.status row = COMPLETED
      /\ Rental.settlement_status row = SETTLED
      /\ Rental.settled_at row <> None).
Proof. crunch. Qed.

(** C2.  Car 7 carries two ongoing orders.  The manual return of the first
    stores the car as AVAILABLE while the second is still ongoing; the
    sweep, completing one of the two, leaves the car RENTED. *)
Theorem manual_return_releases_shared_vehicle :
  let on_time := Date._ymd2ord 2024 1 10 in
  let w1 := snd (rental_return Sample.not_in_future 1 (Some on_time)
                   Sample.w_shared) in
  let swept := handle on_time Sample.w_shared in
  (exists other,
      get Rental.id 2 (rentals w1) = Some other
      /\ Rental.vehicle other = 7 /\ Rental.status other = ONGOING)
  /\ option_map Vehicle.status (get Vehicle.id 7 (vehicles w1))
     = Some "AVAILABLE"%string
  /\ fst swept = mkSummary 0 0 1 0
  /\ option_map Rental.status (get Rental.id 2 (rentals (snd swept)))
     = Some COMPLETED
  /\ option_map Rental.status (get Rental.id 1 (rentals (snd swept)))
     = Some ONGOING
  /\ option_map Vehicle.status (get Vehicle.id 7 (vehicles (snd swept)))
     = Some "RENTED"%string.
Proof. crunch. Qed.

(** C8.  A manual return dated 2024-01-01 for an order that starts on
    2024-01-05 is redirected as a success: the order is stored COMPLETED
    with that return date and the car released, although [Rental.clean]
    rejects the stored row. *)
Theorem manual_return_accepts_date_before_start :
  let early := Date._ymd2ord 2024 1 1 in
  let r := rental_return Sample.not_in_future 1 (Some early) Sample.w_paid in
  option_map Rental.start_date (get Rental.id 1 (rentals Sample.w_paid))
  = Some (Date._ymd2ord 2024 1 5)
  /\ fst r = redirect_detail 1
  /\ (exists row,
      get Rental.id 1 (rentals (snd r)) = Some row
      /\ Rental.status row = COMPLETED
      /\ Rental.actual_return_date row = Some early
      /\ Rental_clean Sample.today row = inl return_before_start)
  /\ option_map Vehicle.status (get Vehicle.id 7 (vehicles (snd r)))
     = Some "AVAILABLE"%string.
Proof. crunch. Qed.

(** C6.  One sweep refunds the deposits of two orders within the same
    second, the newer order first: the two refund records carry the same
    transaction reference. *)
Theorem sweep_refund_references_collide :
  let w1 := snd (handle Sample.today Sample.w_two) in
  exists p1 p2,
    payments w1 = payments Sample.w_two ++ [p1; p2]
    /\ Payment.rental p1 = 2 /\ Payment.rental p2 = 1
    /\ Payment.transaction_type p1 = "REFUND"%string
    /\ Payment.transaction_type p2 = "REFUND"%string
    /\ Payment.created_at p1 < Payment.created_at p2
    /\ Payment.transaction_id p1 = "REF1705017600"%string
    /\ Payment.transaction_id p2 = "REF1705017600"%string.
Proof. crunch. Qed.

(** C3, as stated, fails: cancelling a completed order stores it as
    CANCELLED. *)
Lemma cancel_rewrites_completed_order :
  let r := rental_cancel Sample.non_empty 1 (Some "changed plans"%string)
             Sample.w_done in
  exists before after,
    get Rental.id 1 (rentals Sample.w_done) = Some before
    /\ Rental.status before = COMPLETED
    /\ fst r = redirect_detail 1
    /\ get Rental.id 1 (rentals (snd r)) = Some after
    /\ Rental.status after = CANCELLED.
Proof. crunch. Qed.

(** ** The sweep *)

Lemma In_insert_by_created_at (r x : Rental.t) (l : list Rental.t) :
  In x (insert_by_created_at r l) <-> x = r \/ In x l.
Proof.
  induction l as [|r0 l IH]; cbn [insert_by_created_at In]; [intuition|].
  destruct (_ <? _); cbn [In]; [|intuition]. rewrite IH. intuition.
Qed.

Lemma In_newest_first (x : Rental.t) (l : list Rental.t) :
  In x (newest_first l) <-> In x l.
Proof.
  induction l as [|r l IH]; cbn [newest_first fold_right In]; [tauto|].
  rewrite In_insert_by_created_at. fold (newest_first l). rewrite IH.
  intuition.
Qed.

Lemma length_insert_by_created_at (r : Rental.t) (l : list Rental.t) :
  List.length (insert_by_created_at r l) = S (List.length l).
Proof.
  induction l as [|r0 l IH]; cbn [insert_by_created_at List.length];
    [reflexivity|].
  destruct (_ <? _); cbn [List.length]; [now rewrite IH | reflexivity].
Qed.

Lemma length_newest_first (l : list Rental.t) :
  List.length (newest_first l) = List.length l.
Proof.
  induction l as [|r l IH]; cbn [newest_first fold_right List.length];
    [reflexivity|].
  rewrite length_insert_by_created_at. fold (newest_first l). now rewrite IH.
Qed.

Lemma In_select_related (qs : list Rental.t) (w : World) (r : Rental.t)
  (v : Vehicle.t) :
  In (r, v) (select_related_vehicle qs w) <->
  In r qs /\ get Vehicle.id (Rental.vehicle r) (vehicles w) = Some v.
Proof.
  unfold select_related_vehicle. rewrite in_flat_map. split.
  - intros [r0 [Hin H]]. apply (proj1 (In_newest_first r0 qs)) in Hin.
    destruct (get Vehicle.id (Rental.vehicle r0) (vehicles w)) as [v0|] eqn:E;
      [|destruct H].
    destruct H as [H | []]. inversion H; subst. split; assumption.
  - intros [Hin Hv]. exists r. split; [now apply In_newest_first|].
    rewrite Hv. now left.
Qed.

Lemma idle_no_rows (sel : Rental.t -> bool) (w : World) :
  idle sel w -> select_related_vehicle (filter sel (rentals w)) w = [].
Proof.
  intros Hidle.
  destruct (select_related_vehicle (filter sel (rentals w)) w) as [|[r v] rest] eqn:E;
    [reflexivity|].
  assert (Hin : In (r, v) (select_related_vehicle (filter sel (rentals w)) w))
    by (rewrite E; now left).
  apply In_select_related in Hin. destruct Hin as [Hf Hv].
  apply filter_In in Hf. destruct Hf as [Hr Hs].
  specialize (Hidle r Hr Hs). apply get_None_has_pk in Hidle. congruence.
Qed.

Lemma pending_in_join (sel : Rental.t -> bool) (w : World) :
  pending_in sel (select_related_vehicle (filter sel (rentals w)) w) w.
Proof.
  intros r Hr Hs.
  destruct (get Vehicle.id (Rental.vehicle r) (vehicles w)) as [v|] eqn:E.
  - right. apply in_map_iff. exists (r, v). split; [reflexivity|].
    apply In_select_related. split; [|exact E]. apply filter_In. auto.
  - left. now apply get_None_has_pk.
Qed.

Lemma join_vehicles_present (qs : list Rental.t) (w : World)
  (rv : Rental.t * Vehicle.t) :
  In rv (select_related_vehicle qs w) ->
  has_pk Vehicle.id (Vehicle.id (snd rv)) (vehicles w) = true.
Proof.
  destruct rv as [r v]. intros H. apply In_select_related in H.
  destruct H as [_ Hv]. destruct (get_Some_inv _ _ _ _ Hv) as [Hin Hid].
  apply has_pk_true. exists v. auto.
Qed.

Lemma pending_due_active (today : Date.t) (r : Rental.t) :
  Rental.status r <> PENDING -> pending_due today r = false.
Proof. unfold pending_due. destruct (Rental.status r); simpl; congruence. Qed.

Lemma ongoing_expired_active (today : Date.t) (r : Rental.t) :
  Rental.status r <> ONGOING -> ongoing_expired today r = false.
Proof. unfold ongoing_expired. destruct (Rental.status r); simpl; congruence. Qed.

(** *** Phase 1 *)

Lemma activate_loop_idle (today : Date.t) (rows : list (Rental.t * Vehicle.t)) :
  forall (ar : list Rental.t) (av : list Vehicle.t) (w : World),
    pending_in (pending_due today) rows w ->
    (forall rv, In rv rows ->
       has_pk Vehicle.id (Vehicle.id (snd rv)) (vehicles w) = true) ->
    idle (pending_due today) (snd (activate_loop rows ar av w)).
Proof.
  induction rows as [|[r v] rows IH]; intros ar av w Hpend Hveh.
  - simpl. intros r Hr Hs. destruct (Hpend r Hr Hs) as [H | []]. exact H.
  - cbn [activate_loop].
    pose proof (Rental_save_frame v (Rental.set_status ONGOING r) w) as F.
    pose proof (Rental_save_id v (Rental.set_status ONGOING r) w) as Hid1.
    pose proof (Rental_save_status v (Rental.set_status ONGOING r) w) as Hst1.
    cbv zeta in F.
    destruct (Rental_save v (Rental.set_status ONGOING r) w) as [r1 w1].
    cbn [fst snd] in F, Hid1, Hst1. destruct F as (Hrent1 & Hveh1 & _).
    cbn [Rental.id Rental.status Rental.set_status] in Hid1, Hst1.
    assert (Hr1 : pending_due today (stored r1) = false).
    { apply pending_due_active. cbn [stored Rental.status]. rewrite Hst1.
      discriminate. }
    assert (Hv : has_pk Vehicle.id (Vehicle.id v) (vehicles w) = true)
      by (apply (Hveh (r, v)); now left).
    assert (Hstep : forall w2 : World,
              rentals w2 = rentals w1 ->
              (forall k, has_pk Vehicle.id k (vehicles w2)
                         = has_pk Vehicle.id k (vehicles w)) ->
              pending_in (pending_due today) rows w2
              /\ (forall rv, In rv rows ->
                    has_pk Vehicle.id (Vehicle.id (snd rv)) (vehicles w2) = true)).
    { intros w2 Hrent Hdom. split.
      - intros r' Hr' Hs'. rewrite Hrent, Hrent1 in Hr'.
        apply In_save in Hr'. destruct Hr' as [-> | [Hr' Hne]]; [congruence|].
        cbn [stored Rental.id] in Hne.
        rewrite Hdom. destruct (Hpend r' Hr' Hs') as [H | H]; [now left|].
        right. cbn [map fst] in H. destruct H as [H | H]; [|exact H].
        exfalso. apply Hne. congruence.
      - intros rv Hrv. rewrite Hdom. apply Hveh. now right. }
    destruct (Vehicle.status v =? "AVAILABLE")%string.
    + destruct (Hstep (Vehicle_save (Vehicle.set_status "RENTED" v) w1)) as [H1 H2].
      * reflexivity.
      * intros k. unfold Vehicle_save. cbn [vehicles with_vehicles].
        rewrite Hveh1, has_pk_save. cbn [Vehicle.id Vehicle.set_status].
        destruct (Vehicle.id v =? k) eqn:E; [|now rewrite orb_false_r].
        apply Z.eqb_eq in E. subst k. now rewrite Hv.
      * exact (IH _ _ _ H1 H2).
    + destruct (Hstep w1) as [H1 H2];
        [reflexivity | intros k; now rewrite Hveh1 |].
      exact (IH _ _ _ H1 H2).
Qed.

Lemma filter_length_0 {A : Type} (f : A -> bool) (l : list A) :
  Nat.eqb (List.length (filter f l)) 0 = true ->
  forall x, In x l -> f x = false.
Proof.
  intros H x Hin. apply Nat.eqb_eq in H. apply length_zero_iff_nil in H.
  destruct (f x) eqn:E; [|reflexivity].
  assert (In x (filter f l)) by (apply filter_In; auto).
  rewrite H in *. contradiction.
Qed.

Lemma activate_makes_idle (today : Date.t) (w : World) :
  idle (pending_due today) (snd (_activate_pending_rentals today w)).
Proof.
  unfold _activate_pending_rentals.
  destruct (Nat.eqb _ 0) eqn:E.
  - intros r Hr Hs. cbn [snd] in Hr.
    rewrite (filter_length_0 _ _ E r Hr) in Hs. discriminate.
  - apply activate_loop_idle.
    + apply pending_in_join.
    + intros rv. apply join_vehicles_present.
Qed.

Lemma activate_when_idle (today : Date.t) (w : World) :
  idle (pending_due today) w ->
  _activate_pending_rentals today w = (([], []), w).
Proof.
  intros H. unfold _activate_pending_rentals.
  rewrite (idle_no_rows _ _ H). now destruct (Nat.eqb _ 0).
Qed.

(** *** Phase 2 *)

Lemma settle_as_refresh (rental : Rental.t) (vehicle : Vehicle.t) (w : World) :
  exists w0,
    _settle_completed_rental rental vehicle w
    = refresh_financials true vehicle rental w0
    /\ rentals w0 = rentals w /\ vehicles w0 = vehicles w.
Proof.
  unfold _settle_completed_rental.
  destruct (_ && _ && _); [|now exists w].
  destruct (refund_user_of rental w); eexists; repeat split.
Qed.

Lemma settle_rentals (rental : Rental.t) (vehicle : Vehicle.t) (w : World) :
  exists x,
    rentals (snd (_settle_completed_rental rental vehicle w))
    = update Rental.id (Rental.id rental) (copy_financials x) (rentals w)
    /\ vehicles (snd (_settle_completed_rental rental vehicle w)) = vehicles w.
Proof.
  destruct (settle_as_refresh rental vehicle w) as (w0 & -> & Hr & Hv).
  rewrite refresh_financials_eq.
  cbn [snd rentals vehicles with_rentals auto_now timezone_now].
  rewrite stamped_rentals, stamped_vehicles, Hr, Hv. eauto.
Qed.

(** One turn of the completion loop: the save and the settlement. *)
Lemma complete_step (r : Rental.t) (v : Vehicle.t) (w : World) :
  let s :=
    Rental_save v
      match Rental.actual_return_date (Rental.set_status COMPLETED r) with
      | None =>
          Rental.set_actual_return_date
            (Some (Rental.end_date (Rental.set_status COMPLETED r)))
            (Rental.set_status COMPLETED r)
      | Some _ => Rental.set_status COMPLETED r
      end w in
  let t := _settle_completed_rental (fst s) v (snd s) in
  Rental.id (fst s) = Rental.id r /\ Rental.status (fst s) = COMPLETED
  /\ vehicles (snd t) = vehicles w
  /\ exists x,
       rentals (snd t)
       = update Rental.id (Rental.id r) (copy_financials x)
           (save Rental.id (stored (fst s)) (rentals w)).
Proof.
  cbv zeta.
  match goal with
  | |- context [Rental_save v ?r0 w] =>
      pose proof (Rental_save_frame v r0 w) as F;
      pose proof (Rental_save_id v r0 w) as Hid;
      pose proof (Rental_save_status v r0 w) as Hst;
      destruct (Rental_save v r0 w) as [r1 w1]
  end.
  cbv zeta in F. cbn [fst snd] in *. destruct F as (Hrent & Hveh & _).
  assert (Hid1 : Rental.id r1 = Rental.id r)
    by (rewrite Hid; now destruct (Rental.actual_return_date _)).
  assert (Hst1 : Rental.status r1 = COMPLETED)
    by (rewrite Hst; now destruct (Rental.actual_return_date _)).
  destruct (settle_rentals r1 v w1) as (x & Hrent2 & Hveh2).
  split; [exact Hid1|]. split; [exact Hst1|]. split; [congruence|].
  exists x. now rewrite Hrent2, Hid1, Hrent.
Qed.

Section Selection.

(** A selection of the sweep: it reads neither the settlement columns nor
    a completed order. *)
Variable sel : Rental.t -> bool.
Hypothesis sel_completed : forall r, Rental.status r = COMPLETED -> sel r = false.
Hypothesis sel_financials : forall x r, sel (copy_financials x r) = sel r.

Lemma complete_loop_idle (rows : list (Rental.t * Vehicle.t)) :
  forall (ids : set Z) (cr : list Rental.t) (w : World),
    pending_in sel rows w ->
    idle sel (snd (complete_loop rows ids cr w))
    /\ vehicles (snd (complete_loop rows ids cr w)) = vehicles w.
Proof.
  induction rows as [|[r v] rows IH]; intros ids cr w Hpend.
  - simpl. split; [|reflexivity].
    intros r Hr Hs. destruct (Hpend r Hr Hs) as [H | []]. exact H.
  - cbn [complete_loop].
    pose proof (complete_step r v w) as S. cbv zeta in S.
    destruct (Rental_save v _ w) as [r1 w1]. cbn [fst snd] in S.
    destruct (_settle_completed_rental r1 v w1) as [r2 w2]. cbn [snd] in S.
    destruct S as (Hid1 & Hst1 & Hveh & x & Hrent).
    assert (Hpend2 : pending_in sel rows w2).
    { intros r' Hr' Hs'. rewrite Hrent in Hr'.
      apply In_update in Hr'. destruct Hr' as (r'' & Hr'' & Heq).
      assert (Hsame : sel r'' = true /\ Rental.vehicle r' = Rental.vehicle r''
                      /\ Rental.id r' = Rental.id r'').
      { destruct (Rental.id r'' =? Rental.id r); subst r'.
        - rewrite sel_financials in Hs'. now split.
        - now split. }
      destruct Hsame as (Hs'' & Hv'' & Hi''). rewrite Hveh, Hv'', Hi''.
      apply In_save in Hr''. destruct Hr'' as [-> | [Hr'' Hne]].
      - rewrite (sel_completed (stored r1)) in Hs''; [discriminate | exact Hst1].
      - cbn [stored Rental.id] in Hne.
        destruct (Hpend r'' Hr'' Hs'') as [H | H]; [now left|].
        right. cbn [map fst] in H. destruct H as [H | H]; [|exact H].
        exfalso. apply Hne. congruence. }
    destruct (IH (set_add Z.eq_dec (Vehicle.id v) ids) (cr ++ [r2]) w2 Hpend2)
      as [H1 H2].
    split; [exact H1|]. rewrite H2, Hveh. reflexivity.
Qed.

Lemma release_loop_frame (ids : list Z) :
  forall (released_vehicles : list Vehicle.t) (w : World),
    rentals (snd (release_loop ids released_vehicles w)) = rentals w
    /\ forall k, has_pk Vehicle.id k
                   (vehicles (snd (release_loop ids released_vehicles w)))
                 = has_pk Vehicle.id k (vehicles w).
Proof.
  induction ids as [|vid ids IH]; intros rel w.
  - simpl. auto.
  - cbn [release_loop]. destruct (Nat.eqb _ 0); [|apply IH].
    destruct (get Vehicle.id vid (vehicles w)) as [v|] eqn:E; [|apply IH].
    destruct (Vehicle.status v =? "RENTED")%string; [|apply IH].
    destruct (IH (rel ++ [Vehicle.set_status "AVAILABLE" v])
                (Vehicle_save (Vehicle.set_status "AVAILABLE" v) w)) as [H1 H2].
    split; [exact H1|]. intros k. rewrite H2.
    unfold Vehicle_save. cbn [vehicles with_vehicles].
    rewrite has_pk_save. cbn [Vehicle.id Vehicle.set_status].
    destruct (get_Some_inv _ _ _ _ E) as [Hin Hid].
    destruct (Vehicle.id v =? k) eqn:Ek; [|now rewrite orb_false_r].
    apply Z.eqb_eq in Ek. subst k.
    assert (has_pk Vehicle.id (Vehicle.id v) (vehicles w) = true) as ->
      by (apply has_pk_true; eauto).
    reflexivity.
Qed.

Lemma complete_from (today : Date.t) (w : World) :
  pending_in sel
    (select_related_vehicle (filter (ongoing_expired today) (rentals w)) w) w ->
  (Nat.eqb (List.length (filter (ongoing_expired today) (rentals w))) 0 = true ->
   idle sel w) ->
  idle sel (snd (_complete_expired_rentals today w)).
Proof.
  intros Hpend Hidle. unfold _complete_expired_rentals.
  destruct (Nat.eqb _ 0); [exact (Hidle eq_refl)|].
  destruct (complete_loop_idle _ (empty_set Z) [] w Hpend) as [H1 H2].
  destruct (complete_loop _ _ _ w) as [[ids cr] w1]. cbn [snd] in H1, H2.
  destruct (release_loop_frame ids [] w1) as [H3 H4].
  destruct (release_loop ids [] w1) as [rel w2]. cbn [snd] in *.
  intros r Hr Hs. rewrite H3 in Hr. rewrite H4. exact (H1 r Hr Hs).
Qed.

End Selection.

Lemma complete_makes_idle (today : Date.t) (w : World) :
  idle (ongoing_expired today) (snd (_complete_expired_rentals today w)).
Proof.
  apply complete_from.
  - intros r Hr. apply ongoing_expired_active. congruence.
  - reflexivity.
  - apply pending_in_join.
  - intros E r Hr Hs. rewrite (filter_length_0 _ _ E r Hr) in Hs. discriminate.
Qed.

Lemma complete_keeps_idle (today : Date.t) (w : World) :
  idle (pending_due today) w ->
  idle (pending_due today) (snd (_complete_expired_rentals today w)).
Proof.
  intros H. apply complete_from.
  - intros r Hr. apply pending_due_active. congruence.
  - reflexivity.
  - intros r Hr Hs. left. exact (H r Hr Hs).
  - intros _. exact H.
Qed.

Lemma complete_when_idle (today : Date.t) (w : World) :
  idle (ongoing_expired today) w ->
  _complete_expired_rentals today w = (([], []), w).
Proof.
  intros H. unfold _complete_expired_rentals.
  rewrite (idle_no_rows _ _ H). now destruct (Nat.eqb _ 0).
Qed.

(** C7.  Whatever the starting state, a second run of the sweep on the
    same day, right after the first, activates no order, marks no vehicle
    rented, completes no order and releases no vehicle; it leaves the
    world as the first run left it. *)
Theorem sweep_twice_counts_nothing (today : Date.t) (w : World) :
  fst (handle today (snd (handle today w))) = mkSummary 0 0 0 0
  /\ snd (handle today (snd (handle today w))) = snd (handle today w).
Proof.
  assert (H : idle (pending_due today) (snd (handle today w))
              /\ idle (ongoing_expired today) (snd (handle today w))).
  { unfold handle.
    pose proof (activate_makes_idle today w) as H1.
    destruct (_activate_pending_rentals today w) as [[ar av] w1]. cbn [snd] in H1.
    pose proof (complete_keeps_idle today w1 H1) as H2.
    pose proof (complete_makes_idle today w1) as H3.
    destruct (_complete_expired_rentals today w1) as [[cr rv] w2].
    cbn [snd] in *. auto. }
  destruct H as [H1 H2].
  unfold handle at 1 3.
  rewrite (activate_when_idle _ _ H1), (complete_when_idle _ _ H2).
  split; reflexivity.
Qed.

(** *** Orders the sweep does not select *)

Lemma activate_loop_rows_at (pk : Z) (rows : list (Rental.t * Vehicle.t)) :
  forall (ar : list Rental.t) (av : list Vehicle.t) (w : World),
    (forall rv, In rv rows -> Rental.id (fst rv) <> pk) ->
    rows_at Rental.id pk (rentals (snd (activate_loop rows ar av w)))
    = rows_at Rental.id pk (rentals w).
Proof.
  induction rows as [|[r v] rows IH]; intros ar av w Hne; [reflexivity|].
  cbn [activate_loop].
  pose proof (Rental_save_frame v (Rental.set_status ONGOING r) w) as F.
  pose proof (Rental_save_id v (Rental.set_status ONGOING r) w) as Hid1.
  cbv zeta in F.
  destruct (Rental_save v (Rental.set_status ONGOING r) w) as [r1 w1].
  cbn [fst snd] in F, Hid1. destruct F as (Hrent1 & _).
  cbn [Rental.id Rental.set_status] in Hid1.
  assert (Hr : Rental.id (stored r1) <> pk).
  { cbn [stored Rental.id]. rewrite Hid1. apply (Hne (r, v)). now left. }
  assert (Hrest : forall rv, In rv rows -> Rental.id (fst rv) <> pk)
    by (intros rv Hrv; apply Hne; now right).
  destruct (Vehicle.status v =? "AVAILABLE")%string; rewrite (IH _ _ _ Hrest);
    cbn [rentals Vehicle_save with_vehicles]; rewrite Hrent1;
    now apply rows_at_save_other.
Qed.

Lemma complete_loop_rows_at (pk : Z) (rows : list (Rental.t * Vehicle.t)) :
  forall (ids : set Z) (cr : list Rental.t) (w : World),
    (forall rv, In rv rows -> Rental.id (fst rv) <> pk) ->
    rows_at Rental.id pk (rentals (snd (complete_loop rows ids cr w)))
    = rows_at Rental.id pk (rentals w).
Proof.
  induction rows as [|[r v] rows IH]; intros ids cr w Hne; [reflexivity|].
  cbn [complete_loop].
  pose proof (complete_step r v w) as S. cbv zeta in S.
  destruct (Rental_save v _ w) as [r1 w1]. cbn [fst snd] in S.
  destruct (_settle_completed_rental r1 v w1) as [r2 w2]. cbn [snd] in S.
  destruct S as (Hid1 & _ & _ & x & Hrent).
  assert (Hr : Rental.id r <> pk) by (apply (Hne (r, v)); now left).
  rewrite IH by (intros rv Hrv; apply Hne; now right).
  rewrite Hrent, rows_at_update_other by (auto; intros; reflexivity).
  apply rows_at_save_other. cbn [stored Rental.id]. congruence.
Qed.

Lemma In_rows_at {Row : Type} (pk : Row -> Z) (k : Z) (r : Row) (tbl : list Row) :
  In r (rows_at pk k tbl) <-> In r tbl /\ pk r = k.
Proof. unfold rows_at. rewrite filter_In, Z.eqb_eq. tauto. Qed.

Lemma handle_rows_at (today : Date.t) (pk : Z) (w : World) :
  (forall r, In r (rentals w) -> Rental.id r = pk -> terminal (Rental.status r)) ->
  rows_at Rental.id pk (rentals (snd (handle today w)))
  = rows_at Rental.id pk (rentals w).
Proof.
  intros Hterm. unfold handle.
  assert (H1 : rows_at Rental.id pk
                 (rentals (snd (_activate_pending_rentals today w)))
               = rows_at Rental.id pk (rentals w)).
  { unfold _activate_pending_rentals. destruct (Nat.eqb _ 0); [reflexivity|].
    apply activate_loop_rows_at. intros [r v] Hrv Hid. cbn [fst] in Hid.
    apply In_select_related in Hrv. destruct Hrv as [Hf _].
    apply filter_In in Hf. destruct Hf as [Hr Hs].
    unfold pending_due in Hs. apply andb_true_iff in Hs. destruct Hs as [Hs _].
    destruct (Hterm r Hr Hid) as [E | E]; rewrite E in Hs; discriminate. }
  destruct (_activate_pending_rentals today w) as [[ar av] w1]. cbn [snd] in H1.
  assert (H2 : rows_at Rental.id pk
                 (rentals (snd (_complete_expired_rentals today w1)))
               = rows_at Rental.id pk (rentals w1)).
  { unfold _complete_expired_rentals. destruct (Nat.eqb _ 0); [reflexivity|].
    pose proof (complete_loop_rows_at pk
                  (select_related_vehicle
                     (filter (ongoing_expired today) (rentals w1)) w1)
                  (empty_set Z) [] w1) as Hc.
    destruct (complete_loop _ _ _ w1) as [[ids cr] w2]. cbn [snd] in Hc.
    pose proof (release_loop_frame ids [] w2) as [Hrel _].
    destruct (release_loop ids [] w2) as [rel w3]. cbn [snd] in *.
    rewrite Hrel. apply Hc. intros [r v] Hrv Hid. cbn [fst] in Hid.
    apply In_select_related in Hrv. destruct Hrv as [Hf _].
    apply filter_In in Hf. destruct Hf as [Hr Hs].
    unfold ongoing_expired in Hs. apply andb_true_iff in Hs. destruct Hs as [Hs _].
    assert (Hin : In r (rows_at Rental.id pk (rentals w1)))
      by (apply In_rows_at; auto).
    rewrite H1 in Hin. apply In_rows_at in Hin. destruct Hin as [Hr0 _].
    destruct (Hterm r Hr0 Hid) as [E | E]; rewrite E in Hs; discriminate. }
  destruct (_complete_expired_rentals today w1) as [[cr rv] w2]. cbn [snd] in *.
  congruence.
Qed.

Lemma NoDup_pk_unique {Row : Type} (pk : Row -> Z) (tbl : list Row) (r1 r2 : Row) :
  NoDup (map pk tbl) -> In r1 tbl -> In r2 tbl -> pk r1 = pk r2 -> r1 = r2.
Proof.
  induction tbl as [|r tbl IH]; simpl; intros Hnd H1 H2 Hpk; [destruct H1|].
  inversion Hnd as [|? ? Hnotin Hnd']; subst.
  destruct H1 as [-> | H1], H2 as [-> | H2].
  - reflexivity.
  - exfalso. apply Hnotin. rewrite Hpk. now apply in_map.
  - exfalso. apply Hnotin. rewrite <- Hpk. now apply in_map.
  - now apply IH.
Qed.

Section Forms.

Variable ReturnForm_is_valid : Date.t -> bool.
Variable CancelForm_is_valid : string -> bool.
Variable RentalStatusForm_is_valid : Rental.t -> RentalStatus -> bool.

(** C3, amended.  The sweep leaves an order that is completed or cancelled
    exactly as stored.  The manual operations have no guard on the current
    status: for an order in any status, a return the form accepts stores
    it as COMPLETED, a cancellation the form accepts stores it as
    CANCELLED, and the status form stores the status it accepted. *)
Theorem terminal_orders_by_operation (pk : Z) (w : World) (row : Rental.t)
  (vehicle : Vehicle.t) :
  get Rental.id pk (rentals w) = Some row ->
  get Vehicle.id (Rental.vehicle row) (vehicles w) = Some vehicle ->
  (forall today, NoDup (map Rental.id (rentals w)) ->
     terminal (Rental.status row) ->
     get Rental.id pk (rentals (snd (handle today w))) = Some row)
  /\ (forall d, ReturnForm_is_valid d = true ->
      option_map Rental.status
        (get Rental.id pk
           (rentals (snd (rental_return ReturnForm_is_valid pk (Some d) w))))
      = Some COMPLETED)
  /\ (forall reason, CancelForm_is_valid reason = true ->
      option_map Rental.status
        (get Rental.id pk
           (rentals (snd (rental_cancel CancelForm_is_valid pk (Some reason) w))))
      = Some CANCELLED)
  /\ (forall new_status, RentalStatusForm_is_valid row new_status = true ->
      option_map Rental.status
        (get Rental.id pk
           (rentals (snd (rental_status_update RentalStatusForm_is_valid pk
                            (Some new_status) w))))
      = Some new_status).
Proof.
  intros Hrow Hveh. destruct (get_Some_inv _ _ _ _ Hrow) as [Hin Hpk].
  split; [|split; [|split]].
  - intros today Hnd Hterm. rewrite !get_is_head_of_rows in *.
    rewrite handle_rows_at; [exact Hrow|].
    intros r Hr Hid.
    now rewrite (NoDup_pk_unique Rental.id _ r row Hnd Hr Hin) by congruence.
  - intros d Hd. unfold rental_return. rewrite Hrow, Hd, Hveh.
    set (r0 := Rental.set_status COMPLETED _).
    assert (Rental.id r0 = pk /\ Rental.status r0 = COMPLETED) as [Hid Hst]
      by (unfold r0; destruct (_ <? _); auto).
    pose proof (Rental_save_get vehicle r0 w) as G.
    pose proof (Rental_save_status vehicle r0 w) as S.
    destruct (Rental_save vehicle r0 w) as [r1 w1]. cbn [fst snd] in G, S.
    unfold Vehicle_save. cbn [snd rentals with_vehicles].
    rewrite Hid in G. rewrite G. cbn [option_map stored Rental.status].
    now rewrite S, Hst.
  - intros reason Hd. unfold rental_cancel. rewrite Hrow, Hd, Hveh.
    set (r0 := Rental.set_notes _ _).
    assert (Rental.id r0 = pk /\ Rental.status r0 = CANCELLED) as [Hid Hst]
      by (unfold r0; auto).
    pose proof (Rental_save_get vehicle r0 w) as G.
    pose proof (Rental_save_status vehicle r0 w) as S.
    destruct (Rental_save vehicle r0 w) as [r1 w1]. cbn [fst snd] in G, S.
    rewrite Hid in G.
    destruct (Vehicle.status vehicle =? "RENTED")%string;
      cbn [snd rentals with_vehicles Vehicle_save];
      rewrite G; cbn [option_map stored Rental.status]; now rewrite S, Hst.
  - intros new_status Hd. unfold rental_status_update. rewrite Hrow, Hd, Hveh.
    cbv zeta. set (r0 := Rental.set_status new_status row).
    assert (Rental.id r0 = pk /\ Rental.status r0 = new_status) as [Hid Hst]
      by (unfold r0; auto).
    pose proof (Rental_save_get vehicle r0 w) as G.
    pose proof (Rental_save_status vehicle r0 w) as S.
    destruct (Rental_save vehicle r0 w) as [r1 w1]. cbn [fst snd] in G, S.
    rewrite Hid in G.
    repeat match goal with
           | |- context [if ?c then _ else _] => destruct c
           end;
      cbn [snd rentals with_vehicles Vehicle_save];
      rewrite G; cbn [option_map stored Rental.status]; now rewrite S, Hst.
Qed.

End Forms.

(** A completed order: kept by the sweep, overwritten by a cancellation. *)
Lemma terminal_orders_by_operation_witness :
  get Rental.id 1 (rentals (snd (handle Sample.today Sample.w_done)))
  = Some (Sample.orderA COMPLETED)
  /\ option_map Rental.status
       (get Rental.id 1
          (rentals (snd (rental_cancel Sample.non_empty 1
                           (Some "changed plans"%string) Sample.w_done))))
     = Some CANCELLED.
Proof.
  destruct (terminal_orders_by_operation Sample.not_in_future Sample.non_empty
              Sample.any_status 1 Sample.w_done (Sample.orderA COMPLETED)
              (Vehicle.set_status "AVAILABLE" Sample.car7) eq_refl eq_refl)
    as (H1 & _ & H3 & _).
  split.
  - apply H1.
    + repeat constructor. simpl. tauto.
    + now left.
  - now apply H3.
Defined.

(** * Further properties of the model, the views and the sweep *)

(** ** The outstanding amount *)

Lemma outstanding_amount_eq (self : Rental.t) :
  outstanding_amount self
  = if 0 <? coef (Dsub (calculate_order_total self) (Rental.amount_paid self))
    then Dsub (calculate_order_total self) (Rental.amount_paid self)
    else D0_00.
Proof. unfold outstanding_amount. cbv zeta. now rewrite Dltb_zero. Qed.

Lemma Dleb_coef_Dsub (a b : Decimal) : Dleb a b = (coef (Dsub a b) <=? 0).
Proof.
  unfold Dleb, Dsub. cbn [coef].
  destruct (Z.leb_spec (scale_to (Nat.max (places a) (places b)) a)
                       (scale_to (Nat.max (places a) (places b)) b));
    symmetry; [apply Z.leb_le | apply Z.leb_gt]; lia.
Qed.

Lemma outstanding_zero_iff (self : Rental.t) :
  Dtruthy (outstanding_amount self) = false <->
  Dleb (calculate_order_total self) (Rental.amount_paid self) = true.
Proof.
  rewrite outstanding_amount_eq, Dleb_coef_Dsub, Z.leb_le.
  destruct (0 <? coef _) eqn:E.
  - apply Z.ltb_lt in E. unfold Dtruthy. rewrite negb_false_iff, Z.eqb_eq. lia.
  - apply Z.ltb_ge in E. split; [intros _; exact E | reflexivity].
Qed.

(** X1.  The outstanding amount of an order is never negative. It is zero
    exactly when the amount paid covers the order total, and otherwise it is
    the order total minus the amount paid. *)
Theorem outstanding_amount_never_negative (self : Rental.t) :
  Dltb (outstanding_amount self) D0_00 = false
  /\ (Dtruthy (outstanding_amount self) = false <->
      Dleb (calculate_order_total self) (Rental.amount_paid self) = true)
  /\ (Dtruthy (outstanding_amount self) = true ->
      outstanding_amount self
      = Dsub (calculate_order_total self) (Rental.amount_paid self)).
Proof.
  split; [|split; [apply outstanding_zero_iff|]];
    rewrite outstanding_amount_eq; destruct (0 <? coef _) eqn:E.
  - apply Z.ltb_lt in E. rewrite Dltb_zero_r. apply Z.ltb_ge. lia.
  - reflexivity.
  - reflexivity.
  - discriminate.
Qed.

Lemma fold_Dadd_places (rest : list Decimal) (a : Decimal) :
  (places a <= 2)%nat -> (forall d, In d rest -> (places d <= 2)%nat) ->
  (places (fold_left Dadd rest a) <= 2)%nat.
Proof.
  revert a. induction rest as [|b rest IH]; intros a Ha Hrest; [exact Ha|].
  cbn [fold_left]. apply IH.
  - cbn [Dadd places]. pose proof (Hrest b (or_introl eq_refl)). lia.
  - intros d Hd. apply Hrest. now right.
Qed.

Lemma paid_total_places (k : Z) (w : World) :
  (forall p, In p (payments w) -> (places (Payment.amount p) <= 2)%nat) ->
  (places (paid_total k w) <= 2)%nat.
Proof.
  intros H. unfold paid_total, payments_of.
  set (l := filter paid_charge _).
  assert (Hl : forall d, In d (map Payment.amount l) -> (places d <= 2)%nat).
  { intros d Hd. apply in_map_iff in Hd as (p & <- & Hp). apply H.
    unfold l in Hp. now apply filter_In in Hp as [Hp%filter_In _]. }
  destruct (map Payment.amount l) as [|a rest]; cbn [Sum total_or_zero];
    [cbn; lia|].
  pose proof (places_or_zero (fold_left Dadd rest a)).
  pose proof (fold_Dadd_places rest a (Hl a (or_introl eq_refl))
                (fun d Hd => Hl d (or_intror Hd))).
  lia.
Qed.

(** X2.  After a refresh of a stored order the row carries the paid total of
    the payment records, as its two-place column holds it.  When the
    payment amounts have at most two places, the row is marked settled
    exactly when it is completed and nothing is outstanding on it. *)
Theorem settled_iff_nothing_outstanding (v : Vehicle.t) (self : Rental.t)
  (w : World) :
  get Rental.id (Rental.id self) (rentals w) = Some self ->
  (forall p, In p (payments w) -> (places (Payment.amount p) <= 2)%nat) ->
  exists row,
    get Rental.id (Rental.id self)
      (rentals (snd (refresh_financials true v self w))) = Some row
    /\ Rental.amount_paid row = quantize2 (paid_total (Rental.id self) w)
    /\ (Rental.settlement_status row = SETTLED <->
        Rental.status row = COMPLETED
        /\ Dtruthy (outstanding_amount row) = false).
Proof.
  intros Hget Hpl. rewrite refresh_financials_eq.
  cbn [snd rentals with_rentals].
  rewrite stamped_rentals, get_update, Hget by reflexivity. cbn [option_map].
  exists (copy_financials (derived self w) self).
  split; [reflexivity|]. split; [reflexivity|].
  rewrite (outstanding_zero_iff (copy_financials (derived self w) self)).
  change (Rental.settlement_status (copy_financials (derived self w) self))
    with (Rental.settlement_status (derived self w)).
  change (Rental.status (copy_financials (derived self w) self))
    with (Rental.status self).
  change (calculate_order_total (copy_financials (derived self w) self))
    with (calculate_order_total self).
  change (Rental.amount_paid (copy_financials (derived self w) self))
    with (quantize2 (paid_total (Rental.id self) w)).
  rewrite Dleb_quantize2_r by (apply paid_total_places, Hpl).
  rewrite derived_status_cases. unfold covered.
  rewrite andb_true_iff, RentalStatus_eqb_eq.
  reflexivity.
Qed.

Lemma settled_iff_nothing_outstanding_witness :
  exists row,
    get Rental.id 1
      (rentals (snd (refresh_financials true Sample.car7 (Sample.orderA COMPLETED)
                       Sample.w_done))) = Some row
    /\ Rental.amount_paid row = Sample.yuan 3200
    /\ Rental.settlement_status row = SETTLED.
Proof.
  assert (Hpl : forall p, In p (payments Sample.w_done) ->
                  (places (Payment.amount p) <= 2)%nat).
  { intros p Hp. vm_compute in Hp.
    repeat (destruct Hp as [<-|Hp]; [vm_compute; lia|]). destruct Hp. }
  destruct (settled_iff_nothing_outstanding Sample.car7 (Sample.orderA COMPLETED)
              Sample.w_done eq_refl Hpl) as (row & Hget & Hpaid & Hiff).
  exists row. split; [exact Hget|]. split; [exact Hpaid|].
  apply Hiff. vm_compute in Hget. injection Hget as <-.
  split; reflexivity.
Defined.

(** ** The rental amount and the cost breakdown *)

Lemma Deqb_refl (d : Decimal) : Deqb d d = true.
Proof. unfold Deqb. apply Z.eqb_refl. Qed.

Lemma Deqb_Dsub_zero (d : Decimal) : Deqb (Dsub d D0_00) d = true.
Proof.
  set (N := Nat.max 2 (places d)).
  rewrite (Deqb_scale N) by (unfold N; cbn [places Dsub D0_00]; lia).
  rewrite scale_to_Dsub by (unfold N; cbn [places D0_00]; lia).
  unfold scale_to at 2. cbn [coef D0_00]. apply Z.eqb_eq. ring.
Qed.

Lemma Deqb_Dadd_zero (d : Decimal) : Deqb d (Dadd d D0_00) = true.
Proof.
  set (N := Nat.max 2 (places d)).
  rewrite (Deqb_scale N) by (unfold N; cbn [places Dadd D0_00]; lia).
  rewrite scale_to_Dadd by (unfold N; cbn [places D0_00]; lia).
  unfold scale_to at 3. cbn [coef D0_00]. apply Z.eqb_eq. ring.
Qed.

Lemma Deqb_Dadd_congr (a b x : Decimal) :
  Deqb a b = true -> Deqb (Dadd a x) (Dadd b x) = true.
Proof.
  set (N := Nat.max (Nat.max (places a) (places b)) (places x)).
  rewrite (Deqb_scale N a b) by (unfold N; lia).
  rewrite (Deqb_scale N) by (unfold N; cbn [places Dadd]; lia).
  rewrite !scale_to_Dadd by (unfold N; lia).
  rewrite !Z.eqb_eq. lia.
Qed.

(** X3.  The total of the cost breakdown is, in value, the amount of
    [calculate_rental_amount] plus the overdue surcharge. The base amount is
    the daily rate times the rental days; a customer who is not VIP pays the
    base amount with a discount of 0.00; a VIP customer gets one tenth of
    the base amount as discount and pays nine tenths. *)
Theorem cost_total_is_amount_plus_surcharge (rental : Rental.t)
  (customer : Customer.t) (vehicle : Vehicle.t) :
  let cost := calculate_rental_cost rental customer vehicle in
  let amount :=
    calculate_rental_amount customer vehicle (Rental.start_date rental)
      (Rental.end_date rental) in
  Deqb (cost_total_amount cost) (Dadd amount (extra_amount cost)) = true
  /\ base_amount cost = Dmul_int (Vehicle.daily_rate vehicle) (rental_days rental)
  /\ (Customer.member_level customer <> "VIP"%string ->
      amount = base_amount cost /\ discount cost = D0_00)
  /\ (Customer.member_level customer = "VIP"%string ->
      Deqb (Dmul_int (discount cost) 10) (base_amount cost) = true
      /\ Deqb (Dmul_int amount 10) (Dmul_int (base_amount cost) 9) = true).
Proof.
  cbv zeta. unfold calculate_rental_cost, calculate_rental_amount, rental_days.
  set (base := Dmul_int (Vehicle.daily_rate vehicle) _).
  destruct (Customer.member_level customer =? "VIP")%string eqn:Evip.
  - apply String.eqb_eq in Evip.
    assert (Hvip : Deqb (Dmul_int (Dsub base (Dmul base (Dec 10 2))) 10)
                     (Dmul_int base 9) = true).
    { clearbody base. set (N := (places base + 2)%nat).
      rewrite (Deqb_scale N) by (unfold N; cbn [places Dmul_int Dsub Dmul]; lia).
      unfold scale_to. cbn [coef places Dmul_int Dsub Dmul].
      unfold scale_to. cbn [coef places Dmul].
      replace (Nat.max (places base) (places base + 2)) with N by (unfold N; lia).
      replace (N - (places base + 2))%nat with 0%nat by (unfold N; lia).
      replace (N - N)%nat with 0%nat by lia.
      replace (N - places base)%nat with 2%nat by (unfold N; lia).
      apply Z.eqb_eq. change (10 ^ Z.of_nat 0) with 1.
      change (10 ^ Z.of_nat 2) with 100. ring. }
    assert (Hdisc : Deqb (Dmul_int (Dmul base (Dec 10 2)) 10) base = true).
    { clearbody base. set (N := (places base + 2)%nat).
      rewrite (Deqb_scale N) by (unfold N; cbn [places Dmul_int Dmul]; lia).
      unfold scale_to. cbn [coef places Dmul_int Dmul].
      replace (N - (places base + 2))%nat with 0%nat by (unfold N; lia).
      replace (N - places base)%nat with 2%nat by (unfold N; lia).
      apply Z.eqb_eq. change (10 ^ Z.of_nat 0) with 1.
      change (10 ^ Z.of_nat 2) with 100. ring. }
    destruct (Rental.actual_return_date rental) as [d|];
      [destruct (Rental.end_date rental <? d)|];
      cbn [cost_total_amount extra_amount base_amount discount];
      (split; [first [apply Deqb_refl | apply Deqb_Dadd_zero]|]);
      (split; [reflexivity|]); (split; [congruence|]); intros _;
      (split; [exact Hdisc | exact Hvip]).
  - apply String.eqb_neq in Evip.
    destruct (Rental.actual_return_date rental) as [d|];
      [destruct (Rental.end_date rental <? d)|];
      cbn [cost_total_amount extra_amount base_amount discount];
      (split; [|split; [reflexivity|split; [auto|congruence]]]).
    + apply Deqb_Dadd_congr, Deqb_Dsub_zero.
    + set (N := Nat.max 2 (places base)).
      rewrite (Deqb_scale N) by (unfold N; cbn [places Dadd Dsub D0_00]; lia).
      rewrite scale_to_Dadd, scale_to_Dsub by (unfold N; cbn [places D0_00]; lia).
      change (scale_to N D0_00) with (0 * 10 ^ Z.of_nat (N - 2)).
      apply Z.eqb_eq. ring.
    + set (N := Nat.max 2 (places base)).
      rewrite (Deqb_scale N) by (unfold N; cbn [places Dadd Dsub D0_00]; lia).
      rewrite scale_to_Dadd, scale_to_Dsub by (unfold N; cbn [places D0_00]; lia).
      change (scale_to N D0_00) with (0 * 10 ^ Z.of_nat (N - 2)).
      apply Z.eqb_eq. ring.
Qed.

(** ** Validation and saving of an order *)

(** X4.  [Rental.clean] accepts an order exactly when the start date is not
    after the end date and the return date, if there is one, lies between
    the start date and today. An end date before the start date raises the
    first error, and an order that is valid today is valid on every later
    day. *)
Theorem clean_accepts_exactly (today : Date.t) (self : Rental.t) :
  (Rental_clean today self = inr tt <->
   Rental.start_date self <= Rental.end_date self
   /\ forall d, Rental.actual_return_date self = Some d ->
        Rental.start_date self <= d <= today)
  /\ (Rental.end_date self < Rental.start_date self ->
      Rental_clean today self = inl end_before_start)
  /\ (forall later, today <= later ->
        Rental_clean today self = inr tt -> Rental_clean later self = inr tt).
Proof.
  assert (Hiff : forall t,
    Rental_clean t self = inr tt <->
    Rental.start_date self <= Rental.end_date self
    /\ forall d, Rental.actual_return_date self = Some d ->
         Rental.start_date self <= d <= t).
  { intros t. unfold Rental_clean.
    destruct (Rental.end_date self <? Rental.start_date self) eqn:E1.
    - apply Z.ltb_lt in E1. split; [discriminate | lia].
    - apply Z.ltb_ge in E1.
      destruct (Rental.actual_return_date self) as [d|].
      + destruct (d <? Rental.start_date self) eqn:E2.
        * apply Z.ltb_lt in E2. split; [discriminate|].
          intros [_ H]. specialize (H d eq_refl). lia.
        * apply Z.ltb_ge in E2. destruct (t <? d) eqn:E3.
          -- apply Z.ltb_lt in E3. split; [discriminate|].
             intros [_ H]. specialize (H d eq_refl). lia.
          -- apply Z.ltb_ge in E3. split; [|reflexivity].
             intros _. split; [lia|]. intros d' H. inversion H; subst. lia.
      + split; [|reflexivity]. intros _. split; [lia | discriminate]. }
  split; [apply Hiff|]. split.
  - intros H. unfold Rental_clean.
    now apply Z.ltb_lt in H as ->.
  - intros later Hle H. apply Hiff. apply Hiff in H. destruct H as [H1 H2].
    split; [exact H1|]. intros d Hd. specialize (H2 d Hd). lia.
Qed.

Section MoreTables.

Context {Row : Type} (pk : Row -> Z).

Lemma get_save_other (k : Z) (r : Row) (tbl : list Row) :
  pk r <> k -> get pk k (save pk r tbl) = get pk k tbl.
Proof.
  intros H. rewrite !get_is_head_of_rows. now rewrite rows_at_save_other.
Qed.

Lemma has_pk_ids (k : Z) (tbl : list Row) :
  has_pk pk k tbl = existsb (fun i => i =? k) (map pk tbl).
Proof.
  unfold has_pk. induction tbl as [|r tbl IH]; simpl; [reflexivity|].
  now rewrite IH.
Qed.

Lemma ids_save (r : Row) (tbl : list Row) :
  has_pk pk (pk r) tbl = true -> map pk (save pk r tbl) = map pk tbl.
Proof.
  intros H. unfold save. rewrite H. rewrite map_map. apply map_ext_in.
  intros r0 _. destruct (pk r0 =? pk r) eqn:E; [|reflexivity].
  apply Z.eqb_eq in E. congruence.
Qed.

Lemma ids_update (k : Z) (f : Row -> Row) (tbl : list Row) :
  (forall r, pk (f r) = pk r) -> map pk (update pk k f tbl) = map pk tbl.
Proof.
  intros Hf. unfold update. rewrite map_map. apply map_ext.
  intros r0. now destruct (pk r0 =? k).
Qed.

End MoreTables.

(** X6.  The defaults of [Rental.save]. With a non-zero daily rate the
    deposit is non-zero after saving; a non-zero deposit and a non-zero
    total are kept. A cross-location return gets a return location (not
    empty when the pick-up location is not) and, with a non-zero rate, a
    non-zero fee; an order that is not returned elsewhere keeps location and
    fee. *)
Theorem save_defaults_fill_in (vehicle : Vehicle.t) (self : Rental.t) :
  let saved := save_defaults vehicle self in
  (coef (Vehicle.daily_rate vehicle) <> 0 ->
   Deqb (Rental.deposit saved) D0_00 = false)
  /\ (Deqb (Rental.deposit self) D0_00 = false ->
      Rental.deposit saved = Rental.deposit self)
  /\ (Dtruthy (Rental.total_amount self) = true ->
      Rental.total_amount saved = Rental.total_amount self)
  /\ (Rental.is_cross_location_return self = true ->
      (exists place, Rental.return_location saved = Some place
                     /\ (Rental.pickup_location self <> ""%string ->
                         place <> ""%string))
      /\ (coef (Vehicle.daily_rate vehicle) <> 0 ->
          Deqb (Rental.cross_location_fee saved) D0_00 = false))
  /\ (Rental.is_cross_location_return self = false ->
      Rental.return_location saved = Rental.return_location self
      /\ Rental.cross_location_fee saved = Rental.cross_location_fee self).
Proof.
  cbv zeta. rewrite save_defaults_fields.
  cbn [Rental.deposit Rental.total_amount Rental.return_location
       Rental.cross_location_fee].
  split; [|split; [|split; [|split]]].
  - intros Hrate. destruct (Deqb (Rental.deposit self) D0_00) eqn:E; [|exact E].
    rewrite Deqb_zero. cbn [coef Dmul]. apply Z.eqb_neq. lia.
  - now intros ->.
  - now intros ->.
  - intros ->. cbn [andb]. split.
    + destruct (Rental.return_location self) as [s|].
      * destruct (s =? "")%string eqn:E.
        -- eexists. split; [reflexivity|]. auto.
        -- exists s. split; [reflexivity|]. intros _. now apply String.eqb_neq.
      * eexists. split; [reflexivity|]. auto.
    + intros Hrate.
      destruct (Deqb (Rental.cross_location_fee self) D0_00) eqn:E; [|exact E].
      rewrite Deqb_zero. cbn [coef Dmul]. apply Z.eqb_neq. lia.
  - intros ->. cbn [andb]. split; reflexivity.
Qed.

(** ** The views *)

Section ViewFacts.

Variable ReturnForm_is_valid : Date.t -> bool.
Variable CancelForm_is_valid : string -> bool.
Variable RentalStatusForm_is_valid : Rental.t -> RentalStatus -> bool.
Variable POST : Type.
Variable RentalForm_is_valid : option Rental.t -> POST -> bool.
Variable RentalForm_save : option Rental.t -> POST -> Rental.t.

(** X7.  The five writing views change the database only when they answer a
    POST with the redirect to the order. For a key with no order the four
    views that take a key answer 404 and change nothing, and the detail page
    has nothing to show. *)
Theorem views_commit_only_with_redirect (pk : Z) (w : World) :
  (forall request,
     let r := rental_return ReturnForm_is_valid pk request w in
     (fst r = redirect_detail pk /\ request <> None) \/ snd r = w)
  /\ (forall request,
        let r := rental_cancel CancelForm_is_valid pk request w in
        (fst r = redirect_detail pk /\ request <> None) \/ snd r = w)
  /\ (forall request,
        let r := rental_status_update RentalStatusForm_is_valid pk request w in
        (fst r = redirect_detail pk /\ request <> None) \/ snd r = w)
  /\ (forall request,
        let r := rental_update POST RentalForm_is_valid RentalForm_save pk request w in
        (exists k, fst r = redirect_detail k /\ request <> None) \/ snd r = w)
  /\ (forall request,
        let r := rental_create POST RentalForm_is_valid RentalForm_save pk request w in
        (fst r = redirect_detail pk /\ request <> None) \/ snd r = w)
  /\ (get Rental.id pk (rentals w) = None ->
      forall r1 r2 r3 r4,
        rental_return ReturnForm_is_valid pk r1 w = (Http404, w)
        /\ rental_cancel CancelForm_is_valid pk r2 w = (Http404, w)
        /\ rental_status_update RentalStatusForm_is_valid pk r3 w = (Http404, w)
        /\ rental_update POST RentalForm_is_valid RentalForm_save pk r4 w
           = (Http404, w)
        /\ rental_detail pk w = None).
Proof.
  repeat split.
  - intros request. cbv zeta. unfold rental_return.
    destruct (get Rental.id pk (rentals w)); [|now right].
    destruct request as [d|]; [|now right].
    destruct (ReturnForm_is_valid d); [|now right].
    destruct (get Vehicle.id _ _); [|now right].
    destruct (Rental_save _ _ _).
    left. split; [reflexivity | discriminate].
  - intros request. cbv zeta. unfold rental_cancel.
    destruct (get Rental.id pk (rentals w)); [|now right].
    destruct request as [d|]; [|now right].
    destruct (CancelForm_is_valid d); [|now right].
    destruct (get Vehicle.id _ _); [|now right].
    destruct (Rental_save _ _ _).
    left. split; [reflexivity | discriminate].
  - intros request. cbv zeta. unfold rental_status_update.
    destruct (get Rental.id pk (rentals w)); [|now right].
    destruct request as [d|]; [|now right].
    destruct (RentalStatusForm_is_valid _ d); [|now right].
    destruct (get Vehicle.id _ _); [|now right].
    destruct (Rental_save _ _ _).
    left. split; [reflexivity | discriminate].
  - intros request. cbv zeta. unfold rental_update.
    destruct (get Rental.id pk (rentals w)); [|now right].
    destruct request as [d|]; [|now right].
    destruct (RentalForm_is_valid _ d); [|now right].
    destruct (get Customer.id _ _); [|now right].
    destruct (get Vehicle.id _ _); [|now right].
    destruct (Rental_save _ _ _).
    left. eexists. split; [reflexivity | discriminate].
  - intros request. cbv zeta. unfold rental_create.
    destruct request as [d|]; [|now right].
    destruct (RentalForm_is_valid _ d); [|now right].
    destruct (get Customer.id _ _); [|now right].
    destruct (get Vehicle.id _ _); [|now right].
    left. split; [reflexivity | discriminate].
  - unfold rental_return. now rewrite H.
  - unfold rental_cancel. now rewrite H.
  - unfold rental_status_update. now rewrite H.
  - unfold rental_update. now rewrite H.
  - unfold rental_detail. now rewrite H.
Qed.

End ViewFacts.

Lemma get_app {Row : Type} (pk : Row -> Z) (k : Z) (l1 l2 : list Row) :
  get pk k (l1 ++ l2)
  = match get pk k l1 with
    | Some r => Some r
    | None => get pk k l2
    end.
Proof.
  unfold get. induction l1 as [|r l1 IH]; simpl; [reflexivity|].
  now destruct (pk r =? k).
Qed.

Section ViewEffects.

Variable CancelForm_is_valid : string -> bool.
Variable RentalStatusForm_is_valid : Rental.t -> RentalStatus -> bool.
Variable POST : Type.
Variable RentalForm_is_valid : option Rental.t -> POST -> bool.
Variable RentalForm_save : option Rental.t -> POST -> Rental.t.

(** X8.  An accepted cancellation stores the order as cancelled, with its
    return date and its settlement columns as they were (the two amounts
    as the two-place columns hold them, so unchanged when they have two
    places), makes the vehicle available when it was rented and leaves it
    otherwise, and creates no payment record: nothing is refunded. *)
Theorem rental_cancel_effect (pk : Z) (reason : string) (w : World)
  (rental : Rental.t) (vehicle : Vehicle.t) :
  get Rental.id pk (rentals w) = Some rental ->
  get Vehicle.id (Rental.vehicle rental) (vehicles w) = Some vehicle ->
  CancelForm_is_valid reason = true ->
  let w1 := snd (rental_cancel CancelForm_is_valid pk (Some reason) w) in
  (exists row,
      get Rental.id pk (rentals w1) = Some row
      /\ Rental.status row = CANCELLED
      /\ Rental.actual_return_date row = Rental.actual_return_date rental
      /\ Rental.settlement_status row = Rental.settlement_status rental
      /\ Rental.settled_at row = Rental.settled_at rental
      /\ Rental.amount_paid row = quantize2 (Rental.amount_paid rental)
      /\ Rental.amount_refunded row = quantize2 (Rental.amount_refunded rental)
      /\ (places (Rental.amount_paid rental) = 2%nat ->
          Rental.amount_paid row = Rental.amount_paid rental)
      /\ (places (Rental.amount_refunded rental) = 2%nat ->
          Rental.amount_refunded row = Rental.amount_refunded rental))
  /\ get Vehicle.id (Rental.vehicle rental) (vehicles w1)
     = Some (if (Vehicle.status vehicle =? "RENTED")%string
             then Vehicle.set_status "AVAILABLE" vehicle
             else vehicle)
  /\ payments w1 = payments w.
Proof.
  intros Hr Hv Hd. cbv zeta. unfold rental_cancel. rewrite Hr, Hd, Hv.
  destruct (get_Some_inv _ _ _ _ Hr) as [_ Hpk].
  destruct (get_Some_inv _ _ _ _ Hv) as [_ Hvid].
  set (r1 := Rental.set_notes _ (Rental.set_status CANCELLED rental)).
  rewrite Rental_save_present
    by (change (Rental.id r1) with (Rental.id rental); rewrite Hpk;
        exact (get_has_pk _ _ _ _ Hr)).
  destruct (save_defaults_frame vehicle r1)
    as (Fid & Fst & _ & _ & _ & Fard & Fss & Fat & Fpaid & Fref).
  assert (Hrow : get Rental.id pk
                   (save Rental.id (stored (save_defaults vehicle r1)) (rentals w))
                 = Some (stored (save_defaults vehicle r1))).
  { rewrite <- Hpk.
    change (Rental.id rental) with (Rental.id r1). rewrite <- Fid.
    apply (get_save_same Rental.id (stored (save_defaults vehicle r1))). }
  assert (Hfields :
    exists row,
      get Rental.id pk
        (save Rental.id (stored (save_defaults vehicle r1)) (rentals w)) = Some row
      /\ Rental.status row = CANCELLED
      /\ Rental.actual_return_date row = Rental.actual_return_date rental
      /\ Rental.settlement_status row = Rental.settlement_status rental
      /\ Rental.settled_at row = Rental.settled_at rental
      /\ Rental.amount_paid row = quantize2 (Rental.amount_paid rental)
      /\ Rental.amount_refunded row = quantize2 (Rental.amount_refunded rental)
      /\ (places (Rental.amount_paid rental) = 2%nat ->
          Rental.amount_paid row = Rental.amount_paid rental)
      /\ (places (Rental.amount_refunded rental) = 2%nat ->
          Rental.amount_refunded row = Rental.amount_refunded rental)).
  { exists (stored (save_defaults vehicle r1)). split; [exact Hrow|].
    cbn [stored Rental.status Rental.actual_return_date Rental.settlement_status
         Rental.settled_at Rental.amount_paid Rental.amount_refunded].
    rewrite Fst, Fard, Fss, Fat, Fpaid, Fref.
    change (Rental.amount_paid r1) with (Rental.amount_paid rental).
    change (Rental.amount_refunded r1) with (Rental.amount_refunded rental).
    repeat split; intros H; now apply quantize2_two_places. }
  destruct (Vehicle.status vehicle =? "RENTED")%string;
    cbn [snd rentals vehicles payments with_rentals with_vehicles Vehicle_save
         auto_now timezone_now];
    (split; [exact Hfields|split; [|reflexivity]]).
  - rewrite <- Hvid.
    change (Vehicle.id vehicle)
      with (Vehicle.id (Vehicle.set_status "AVAILABLE" vehicle)).
    apply get_save_same.
  - exact Hv.
Qed.

(** X9.  An accepted status transition stores the posted status and
    records no payment.  The view reads the old status from the instance
    the form has already bound to the posted one, so neither the branch
    for PENDING to ONGOING nor the one for a completion is ever taken: the
    vehicle is written only by a transition to CANCELLED, which makes a
    rented vehicle available, and every other transition leaves the
    vehicle row as it was. *)
Theorem rental_status_update_effect (pk : Z) (new_status : RentalStatus)
  (w : World) (rental : Rental.t) (vehicle : Vehicle.t) :
  get Rental.id pk (rentals w) = Some rental ->
  get Vehicle.id (Rental.vehicle rental) (vehicles w) = Some vehicle ->
  RentalStatusForm_is_valid rental new_status = true ->
  let w1 := snd (rental_status_update RentalStatusForm_is_valid pk
                   (Some new_status) w) in
  (exists row,
      get Rental.id pk (rentals w1) = Some row
      /\ Rental.status row = new_status)
  /\ vehicles w1
     = (if RentalStatus_eqb new_status CANCELLED
           && (Vehicle.status vehicle =? "RENTED")%string
        then save Vehicle.id (Vehicle.set_status "AVAILABLE" vehicle) (vehicles w)
        else vehicles w)
  /\ get Vehicle.id (Rental.vehicle rental) (vehicles w1)
     = Some (if RentalStatus_eqb new_status CANCELLED
                && (Vehicle.status vehicle =? "RENTED")%string
             then Vehicle.set_status "AVAILABLE" vehicle
             else vehicle)
  /\ payments w1 = payments w.
Proof.
  intros Hr Hv Hd. cbv zeta. unfold rental_status_update. rewrite Hr, Hd, Hv.
  destruct (get_Some_inv _ _ _ _ Hr) as [_ Hpk].
  destruct (get_Some_inv _ _ _ _ Hv) as [_ Hvid].
  set (r1 := Rental.set_status new_status rental).
  rewrite Rental_save_present
    by (change (Rental.id r1) with (Rental.id rental); rewrite Hpk;
        exact (get_has_pk _ _ _ _ Hr)).
  assert (Hrow : get Rental.id pk
                   (save Rental.id (stored (save_defaults vehicle r1)) (rentals w))
                 = Some (stored (save_defaults vehicle r1))).
  { rewrite <- Hpk.
    change (Rental.id rental) with (Rental.id r1).
    rewrite <- (save_defaults_id vehicle r1).
    apply (get_save_same Rental.id (stored (save_defaults vehicle r1))). }
  assert (Hst : Rental.status (stored (save_defaults vehicle r1)) = new_status).
  { cbn [stored Rental.status]. now rewrite save_defaults_status. }
  rewrite save_defaults_status. change (Rental.status r1) with new_status.
  assert (Hsaved :
            get Vehicle.id (Rental.vehicle rental)
              (save Vehicle.id (Vehicle.set_status "AVAILABLE" vehicle) (vehicles w))
            = Some (Vehicle.set_status "AVAILABLE" vehicle)).
  { rewrite <- Hvid.
    change (Vehicle.id vehicle)
      with (Vehicle.id (Vehicle.set_status "AVAILABLE" vehicle)).
    apply get_save_same. }
  destruct new_status; cbn [RentalStatus_eqb andb orb];
    try destruct (Vehicle.status vehicle =? "RENTED")%string;
    cbn [snd rentals vehicles payments with_rentals with_vehicles Vehicle_save
         auto_now timezone_now];
    (split; [eexists; split; [exact Hrow | exact Hst]|]);
    (split; [reflexivity|]);
    (split; [first [exact Hsaved | exact Hv] | reflexivity]).
Qed.

(** X10.  An accepted creation appends one row under the key the database
    gives, with the posted status and, when it is not zero, the computed
    rental amount rounded to two places as total; the other orders and the
    payments stay, and the vehicle is stored as rented exactly when the
    order is created as PENDING. *)
Theorem rental_create_effect (new_pk : Z) (post : POST) (w : World)
  (customer : Customer.t) (vehicle : Vehicle.t) :
  let posted := RentalForm_save None post in
  RentalForm_is_valid None post = true ->
  get Customer.id (Rental.customer posted) (customers w) = Some customer ->
  get Vehicle.id (Rental.vehicle posted) (vehicles w) = Some vehicle ->
  has_pk Rental.id new_pk (rentals w) = false ->
  let r := rental_create POST RentalForm_is_valid RentalForm_save new_pk
             (Some post) w in
  let amount :=
    calculate_rental_amount customer vehicle (Rental.start_date posted)
      (Rental.end_date posted) in
  fst r = redirect_detail new_pk
  /\ (exists row,
        rentals (snd r) = rentals w ++ [row]
        /\ get Rental.id new_pk (rentals (snd r)) = Some row
        /\ Rental.id row = new_pk
        /\ Rental.status row = Rental.status posted
        /\ (Dtruthy amount = true -> Rental.total_amount row = quantize2 amount))
  /\ (forall k, k <> new_pk ->
        get Rental.id k (rentals (snd r)) = get Rental.id k (rentals w))
  /\ get Vehicle.id (Rental.vehicle posted) (vehicles (snd r))
     = Some (if RentalStatus_eqb (Rental.status posted) PENDING
             then Vehicle.set_status "RENTED" vehicle
             else vehicle)
  /\ payments (snd r) = payments w.
Proof.
  intros posted Hvalid Hc Hv Hfresh. cbv zeta. unfold rental_create.
  rewrite Hvalid. fold posted. rewrite Hc, Hv.
  destruct (get_Some_inv _ _ _ _ Hv) as [_ Hvid].
  set (amount := calculate_rental_amount _ _ _ _).
  set (r1 := Rental.set_total_amount amount posted).
  cbn [timezone_now auto_now snd rentals].
  set (row := stored (assign_pk new_pk
                (Rental.set_created_at (clock w (ticks w))
                   (save_defaults vehicle r1)))).
  assert (Hst : Rental.status row = Rental.status posted).
  { unfold row. cbn [stored assign_pk Rental.set_created_at Rental.status].
    now rewrite save_defaults_status. }
  assert (Hget : forall k, get Rental.id k (rentals w ++ [row])
                 = if k =? new_pk then Some row else get Rental.id k (rentals w)).
  { intros k. rewrite get_app.
    destruct (get Rental.id k (rentals w)) as [r0|] eqn:E.
    - destruct (k =? new_pk) eqn:Ek; [|reflexivity].
      apply Z.eqb_eq in Ek. subst k. destruct (get_Some_inv _ _ _ _ E) as [Hin Hid].
      exfalso. exact (proj1 (has_pk_false Rental.id _ _) Hfresh r0 Hin Hid).
    - unfold get. cbn [find]. change (Rental.id row) with new_pk.
      rewrite (Z.eqb_sym new_pk k). now destruct (k =? new_pk). }
  assert (Htot : Dtruthy amount = true ->
                 Rental.total_amount row = quantize2 amount).
  { intros Ht. unfold row.
    cbn [stored assign_pk Rental.set_created_at Rental.total_amount].
    rewrite save_defaults_fields. cbn [Rental.total_amount].
    unfold r1. cbn [Rental.set_total_amount Rental.total_amount]. now rewrite Ht. }
  change (Rental.status (assign_pk new_pk
            (Rental.set_created_at (clock w (ticks w))
               (save_defaults vehicle r1))))
    with (Rental.status (save_defaults vehicle r1)).
  rewrite save_defaults_status.
  change (Rental.status r1) with (Rental.status posted).
  destruct (RentalStatus_eqb (Rental.status posted) PENDING);
    cbn [fst snd rentals vehicles payments Vehicle_save with_vehicles with_rentals];
    (split; [reflexivity|]);
    (split; [exists row; rewrite Hget, Z.eqb_refl; auto 6|]);
    (split; [intros k Hk; rewrite Hget; now apply Z.eqb_neq in Hk as ->|]);
    (split; [|reflexivity]).
  - rewrite <- Hvid.
    change (Vehicle.id vehicle)
      with (Vehicle.id (Vehicle.set_status "RENTED" vehicle)).
    apply get_save_same.
  - exact Hv.
Qed.

(** X11.  An accepted edit replaces the total of the stored order by the
    rental amount computed from the edited dates, customer and vehicle,
    rounded to two places, and rents the vehicle only when the edited order
    is PENDING and the vehicle available. *)
Theorem rental_update_recomputes_total (pk : Z) (post : POST) (w : World)
  (current : Rental.t) (customer : Customer.t) (vehicle : Vehicle.t) :
  get Rental.id pk (rentals w) = Some current ->
  let edited := RentalForm_save (Some current) post in
  RentalForm_is_valid (Some current) post = true ->
  Rental.id edited = pk ->
  get Customer.id (Rental.customer edited) (customers w) = Some customer ->
  get Vehicle.id (Rental.vehicle edited) (vehicles w) = Some vehicle ->
  let amount :=
    calculate_rental_amount customer vehicle (Rental.start_date edited)
      (Rental.end_date edited) in
  Dtruthy amount = true ->
  let w1 := snd (rental_update POST RentalForm_is_valid RentalForm_save pk
                   (Some post) w) in
  (exists row,
      get Rental.id pk (rentals w1) = Some row
      /\ Rental.total_amount row = quantize2 amount
      /\ Rental.status row = Rental.status edited
      /\ Rental.actual_return_date row = Rental.actual_return_date edited)
  /\ get Vehicle.id (Rental.vehicle edited) (vehicles w1)
     = Some (if RentalStatus_eqb (Rental.status edited) PENDING
                && (Vehicle.status vehicle =? "AVAILABLE")%string
             then Vehicle.set_status "RENTED" vehicle
             else vehicle)
  /\ payments w1 = payments w.
Proof.
  intros Hs edited Hvalid Hid Hc Hv amount Ht. cbv zeta. unfold rental_update.
  rewrite Hs, Hvalid. fold edited. rewrite Hc, Hv. fold amount.
  destruct (get_Some_inv _ _ _ _ Hv) as [_ Hvid].
  set (r1 := Rental.set_total_amount amount edited).
  rewrite Rental_save_present
    by (change (Rental.id r1) with (Rental.id edited); rewrite Hid;
        exact (get_has_pk _ _ _ _ Hs)).
  destruct (save_defaults_frame vehicle r1)
    as (Fid & Fst & _ & _ & _ & Fard & _).
  rewrite Fst. change (Rental.status r1) with (Rental.status edited).
  assert (Hrow : get Rental.id pk
                   (save Rental.id (stored (save_defaults vehicle r1)) (rentals w))
                 = Some (stored (save_defaults vehicle r1))).
  { rewrite <- Hid. change (Rental.id edited) with (Rental.id r1).
    rewrite <- Fid.
    apply (get_save_same Rental.id (stored (save_defaults vehicle r1))). }
  assert (Htot : Rental.total_amount (stored (save_defaults vehicle r1))
                 = quantize2 amount).
  { cbn [stored Rental.total_amount].
    rewrite save_defaults_fields. cbn [Rental.total_amount].
    unfold r1. cbn [Rental.set_total_amount Rental.total_amount]. now rewrite Ht. }
  assert (Hfields :
    exists row,
      get Rental.id pk
        (save Rental.id (stored (save_defaults vehicle r1)) (rentals w)) = Some row
      /\ Rental.total_amount row = quantize2 amount
      /\ Rental.status row = Rental.status edited
      /\ Rental.actual_return_date row = Rental.actual_return_date edited).
  { exists (stored (save_defaults vehicle r1)).
    split; [exact Hrow|]. split; [exact Htot|].
    cbn [stored Rental.status Rental.actual_return_date].
    rewrite Fst, Fard. split; reflexivity. }
  destruct (RentalStatus_eqb (Rental.status edited) PENDING
            && (Vehicle.status vehicle =? "AVAILABLE")%string);
    cbn [snd rentals vehicles payments with_rentals with_vehicles Vehicle_save
         auto_now timezone_now];
    (split; [exact Hfields|split; [|reflexivity]]).
  - rewrite <- Hvid.
    change (Vehicle.id vehicle)
      with (Vehicle.id (Vehicle.set_status "RENTED" vehicle)).
    apply get_save_same.
  - exact Hv.
Qed.

End ViewEffects.

Lemma rental_cancel_effect_witness :
  let w1 := snd (rental_cancel Sample.non_empty 1 (Some "changed plans"%string)
                   Sample.w_paid) in
  get Vehicle.id 7 (vehicles w1) = Some (Vehicle.set_status "AVAILABLE" Sample.car7)
  /\ payments w1 = payments Sample.w_paid.
Proof.
  cbv zeta.
  destruct (rental_cancel_effect Sample.non_empty 1 "changed plans" Sample.w_paid
              (Sample.orderA ONGOING) Sample.car7 eq_refl eq_refl eq_refl)
    as (_ & Hv & Hp).
  split; [exact Hv | exact Hp].
Defined.

Lemma rental_status_update_effect_witness :
  let w1 := snd (rental_status_update Sample.any_status 1 (Some COMPLETED)
                   Sample.w_paid) in
  get Vehicle.id 7 (vehicles w1) = Some Sample.car7
  /\ payments w1 = payments Sample.w_paid.
Proof.
  cbv zeta.
  destruct (rental_status_update_effect Sample.any_status 1 COMPLETED Sample.w_paid
              (Sample.orderA ONGOING) Sample.car7 eq_refl eq_refl eq_refl)
    as (_ & _ & Hv & Hp).
  split; [exact Hv | exact Hp].
Defined.

Lemma rental_create_effect_witness :
  let r := rental_create Rental.t Sample.form_valid Sample.form_save 7
             (Some (Sample.orderV 0 (Date._ymd2ord 2024 2 3) D0_00))
             Sample.w_vip in
  fst r = redirect_detail 7
  /\ exists row,
       get Rental.id 7 (rentals (snd r)) = Some row
       /\ Rental.total_amount row = Dec 26997 2.
Proof.
  cbv zeta.
  destruct (rental_create_effect Rental.t Sample.form_valid Sample.form_save 7
              (Sample.orderV 0 (Date._ymd2ord 2024 2 3) D0_00) Sample.w_vip
              Sample.bob Sample.car9 eq_refl eq_refl eq_refl eq_refl)
    as (H1 & (row & _ & Hget & _ & _ & Ht) & _).
  split; [exact H1|]. exists row. split; [exact Hget | exact (Ht eq_refl)].
Defined.

Lemma rental_update_recomputes_total_witness :
  exists row,
    get Rental.id 6
      (rentals (snd (rental_update Rental.t Sample.form_valid Sample.form_save 6
                       (Some (Sample.orderV 6 (Date._ymd2ord 2024 2 4)
                                (Dec 26997 2)))
                       Sample.w_vip))) = Some row
    /\ Rental.total_amount row = Dec 35996 2.
Proof.
  destruct (rental_update_recomputes_total Rental.t Sample.form_valid
              Sample.form_save 6
              (Sample.orderV 6 (Date._ymd2ord 2024 2 4) (Dec 26997 2))
              Sample.w_vip
              (Sample.orderV 6 (Date._ymd2ord 2024 2 3) (Dec 26997 2))
              Sample.bob Sample.car9
              eq_refl eq_refl eq_refl eq_refl eq_refl eq_refl)
    as ((row & Hget & Ht & _) & _).
  exists row. split; [exact Hget | exact Ht].
Defined.

(** ** The sweep: what it keeps *)

Lemma settle_frame (rental : Rental.t) (vehicle : Vehicle.t) (w : World) :
  let w1 := snd (_settle_completed_rental rental vehicle w) in
  vehicles w1 = vehicles w /\ customers w1 = customers w
  /\ map Rental.id (rentals w1) = map Rental.id (rentals w)
  /\ exists new,
       payments w1 = payments w ++ new /\ (List.length new <= 1)%nat
       /\ Forall (is_refund_of (Rental.id rental)) new.
Proof.
  cbv zeta. destruct (settle_rentals rental vehicle w) as (x & Hr & Hv).
  split; [exact Hv|]. rewrite Hr, ids_update by reflexivity.
  unfold _settle_completed_rental.
  match goal with
  | |- context [refresh_financials true vehicle rental ?w0] =>
      destruct (refresh_frame true vehicle rental w0) as (Hp & _ & _ & Hc & _);
      rewrite Hp, Hc
  end.
  destruct (_ && _ && _).
  - destruct (refund_user_of rental w) as [u|].
    + split; [reflexivity|]. split; [reflexivity|]. eexists.
      split; [reflexivity|]. split; [simpl; lia|].
      constructor; [|constructor]. unfold is_refund_of. cbn. repeat split.
    + split; [reflexivity|]. split; [reflexivity|]. exists [].
      cbn. rewrite app_nil_r. split; [reflexivity|]. split; [lia | constructor].
  - split; [reflexivity|]. split; [reflexivity|]. exists [].
    rewrite app_nil_r. split; [reflexivity|]. split; [cbn; lia | constructor].
Qed.

Lemma same_keys_refl (w : World) : same_keys w w.
Proof. repeat split. Qed.

Lemma same_keys_trans (w w1 w2 : World) :
  same_keys w w1 -> same_keys w1 w2 -> same_keys w w2.
Proof. unfold same_keys. intros (A & B & C) (D & E & F). repeat split; congruence. Qed.

Lemma same_keys_has_rental (w w1 : World) (k : Z) :
  same_keys w w1 ->
  has_pk Rental.id k (rentals w1) = has_pk Rental.id k (rentals w).
Proof. intros (H & _). now rewrite !has_pk_ids, H. Qed.

Lemma same_keys_has_vehicle (w w1 : World) (k : Z) :
  same_keys w w1 ->
  has_pk Vehicle.id k (vehicles w1) = has_pk Vehicle.id k (vehicles w).
Proof. intros (_ & H & _). now rewrite !has_pk_ids, H. Qed.

Lemma join_rows_present (qs : list Rental.t) (w : World)
  (rv : Rental.t * Vehicle.t) :
  (forall r, In r qs -> In r (rentals w)) ->
  In rv (select_related_vehicle qs w) -> row_present w rv.
Proof.
  intros Hqs Hin. split; [|exact (join_vehicles_present _ _ _ Hin)].
  destruct rv as [r v]. apply In_select_related in Hin. destruct Hin as [Hr _].
  apply has_pk_true. exists r. split; [now apply Hqs | reflexivity].
Qed.

Lemma row_present_same_keys (w w1 : World) (rv : Rental.t * Vehicle.t) :
  same_keys w w1 -> row_present w rv -> row_present w1 rv.
Proof.
  intros Hk [H1 H2]. split.
  - now rewrite (same_keys_has_rental _ _ _ Hk).
  - now rewrite (same_keys_has_vehicle _ _ _ Hk).
Qed.

Lemma Rental_save_keys (v : Vehicle.t) (self : Rental.t) (w : World) :
  has_pk Rental.id (Rental.id self) (rentals w) = true ->
  same_keys w (snd (Rental_save v self w)).
Proof.
  intros H. rewrite Rental_save_present by exact H.
  cbn [snd rentals vehicles customers with_rentals auto_now timezone_now].
  split; [|split; reflexivity].
  apply (ids_save Rental.id (stored (save_defaults v self))).
  cbn [stored Rental.id]. now rewrite save_defaults_id.
Qed.

Lemma activate_loop_keeps (rows : list (Rental.t * Vehicle.t)) :
  forall (ar : list Rental.t) (av : list Vehicle.t) (w : World),
    (forall rv, In rv rows -> row_present w rv) ->
    let r := activate_loop rows ar av w in
    same_keys w (snd r) /\ payments (snd r) = payments w
    /\ List.length (fst (fst r)) = (List.length ar + List.length rows)%nat
    /\ (List.length (snd (fst r)) <= List.length av + List.length rows)%nat.
Proof.
  induction rows as [|[r v] rows IH]; intros ar av w Hrows; cbv zeta.
  - cbn. split; [apply same_keys_refl|]. split; [reflexivity|]. split; lia.
  - cbn [activate_loop].
    destruct (Hrows (r, v) (or_introl eq_refl)) as [Hr Hv]. cbn [fst snd] in Hr, Hv.
    pose proof (Rental_save_keys v (Rental.set_status ONGOING r) w Hr) as Hk1.
    destruct (Rental_save_frame v (Rental.set_status ONGOING r) w)
      as (_ & _ & _ & Hp1 & _).
    destruct (Rental_save v (Rental.set_status ONGOING r) w) as [r1 w1].
    cbn [snd] in Hk1, Hp1.
    assert (Hk2 : same_keys w (Vehicle_save (Vehicle.set_status "RENTED" v) w1)).
    { apply (same_keys_trans _ w1); [exact Hk1|].
      split; [reflexivity|]. split; [|reflexivity].
      unfold Vehicle_save. cbn [vehicles with_vehicles].
      apply ids_save. cbn [Vehicle.id Vehicle.set_status].
      now rewrite (same_keys_has_vehicle _ _ _ Hk1). }
    destruct (Vehicle.status v =? "AVAILABLE")%string.
    + specialize (IH (ar ++ [r1]) (av ++ [Vehicle.set_status "RENTED" v])
                    (Vehicle_save (Vehicle.set_status "RENTED" v) w1)).
      cbv zeta in IH. destruct IH as (A & B & C & D).
      { intros rv Hrv. apply (row_present_same_keys w); [exact Hk2|].
        apply Hrows. now right. }
      split; [exact (same_keys_trans _ _ _ Hk2 A)|].
      split; [rewrite B; exact Hp1|].
      rewrite C, !length_app in *. cbn [List.length] in *. split; lia.
    + specialize (IH (ar ++ [r1]) av w1).
      cbv zeta in IH. destruct IH as (A & B & C & D).
      { intros rv Hrv. apply (row_present_same_keys w); [exact Hk1|].
        apply Hrows. now right. }
      split; [exact (same_keys_trans _ _ _ Hk1 A)|].
      split; [rewrite B; exact Hp1|].
      rewrite C, !length_app in *. cbn [List.length] in *. split; lia.
Qed.

Lemma set_add_length (x : Z) (s : set Z) :
  (List.length (set_add Z.eq_dec x s) <= S (List.length s))%nat.
Proof.
  induction s as [|y s IH]; simpl; [lia|].
  destruct (Z.eq_dec x y); simpl; lia.
Qed.

Lemma complete_loop_keeps (rows : list (Rental.t * Vehicle.t)) :
  forall (ids : set Z) (cr : list Rental.t) (w : World),
    (forall rv, In rv rows -> row_present w rv) ->
    let r := complete_loop rows ids cr w in
    same_keys w (snd r) /\ vehicles (snd r) = vehicles w
    /\ (exists new,
          payments (snd r) = payments w ++ new
          /\ (List.length new <= List.length rows)%nat
          /\ Forall (fun p => exists k, is_refund_of k p) new)
    /\ List.length (snd (fst r)) = (List.length cr + List.length rows)%nat
    /\ (List.length (fst (fst r)) <= List.length ids + List.length rows)%nat.
Proof.
  induction rows as [|[r v] rows IH]; intros ids cr w Hrows; cbv zeta.
  - cbn. split; [apply same_keys_refl|]. split; [reflexivity|].
    split; [|split; lia]. exists []. rewrite app_nil_r.
    split; [reflexivity|]. split; [cbn; lia | constructor].
  - cbn [complete_loop].
    destruct (Hrows (r, v) (or_introl eq_refl)) as [Hr Hv]. cbn [fst snd] in Hr, Hv.
    set (r0 := match Rental.actual_return_date (Rental.set_status COMPLETED r) with
               | Some _ => _
               | None => _
               end).
    assert (Hid0 : Rental.id r0 = Rental.id r)
      by (unfold r0; now destruct (Rental.actual_return_date _)).
    rewrite <- Hid0 in Hr.
    pose proof (Rental_save_keys v r0 w Hr) as Hk1.
    destruct (Rental_save_frame v r0 w) as (_ & Hv1 & _ & Hp1 & _).
    destruct (Rental_save v r0 w) as [r1 w1]. cbn [snd] in Hk1, Hv1, Hp1.
    destruct (settle_frame r1 v w1) as (Sv & Sc & Sr & new1 & Sp & Sl & Sf).
    destruct (_settle_completed_rental r1 v w1) as [r2 w2]. cbn [snd] in *.
    assert (Hk2 : same_keys w w2).
    { apply (same_keys_trans _ w1); [exact Hk1|].
      split; [exact Sr|]. split; [now rewrite Sv | exact Sc]. }
    specialize (IH (set_add Z.eq_dec (Vehicle.id v) ids) (cr ++ [r2]) w2).
    cbv zeta in IH. destruct IH as (A & B & (new & C1 & C2 & C3) & D & E).
    { intros rv Hrv. apply (row_present_same_keys w); [exact Hk2|].
      apply Hrows. now right. }
    split; [exact (same_keys_trans _ _ _ Hk2 A)|].
    split; [rewrite B, Sv; exact Hv1|].
    split.
    { exists (new1 ++ new). rewrite C1, Sp, Hp1, app_assoc. split; [reflexivity|].
      rewrite length_app. cbn [List.length]. split; [lia|].
      apply Forall_app. split; [|exact C3].
      eapply Forall_impl; [|exact Sf]. intros p Hp. eauto. }
    rewrite D, length_app. cbn [List.length].
    pose proof (set_add_length (Vehicle.id v) ids). split; lia.
Qed.

Lemma release_loop_keeps (ids : list Z) :
  forall (rel : list Vehicle.t) (w : World),
    let r := release_loop ids rel w in
    same_keys w (snd r) /\ rentals (snd r) = rentals w
    /\ payments (snd r) = payments w
    /\ (List.length (fst r) <= List.length rel + List.length ids)%nat.
Proof.
  induction ids as [|vid ids IH]; intros rel w; cbv zeta.
  - cbn. split; [apply same_keys_refl|]. repeat split. lia.
  - cbn [release_loop List.length].
    assert (Hskip : let r := release_loop ids rel w in
                    same_keys w (snd r) /\ rentals (snd r) = rentals w
                    /\ payments (snd r) = payments w
                    /\ (List.length (fst r) <= List.length rel + S (List.length ids))%nat).
    { cbv zeta. pose proof (IH rel w) as H. cbv zeta in H.
      destruct H as (A & B & C & D).
      split; [exact A|]. split; [exact B|]. split; [exact C|]. lia. }
    destruct (Nat.eqb _ 0); [|exact Hskip].
    destruct (get Vehicle.id vid (vehicles w)) as [v|] eqn:E; [|exact Hskip].
    destruct (Vehicle.status v =? "RENTED")%string; [|exact Hskip].
    destruct (get_Some_inv _ _ _ _ E) as [Hin Hid].
    set (w1 := Vehicle_save (Vehicle.set_status "AVAILABLE" v) w).
    assert (Hk : same_keys w w1).
    { split; [reflexivity|]. split; [|reflexivity].
      unfold w1, Vehicle_save. cbn [vehicles with_vehicles].
      apply ids_save. apply has_pk_true. exists v. auto. }
    pose proof (IH (rel ++ [Vehicle.set_status "AVAILABLE" v]) w1) as H.
    cbv zeta in H. destruct H as (A & B & C & D).
    split; [exact (same_keys_trans _ _ _ Hk A)|].
    split; [rewrite B; reflexivity|]. split; [rewrite C; reflexivity|].
    rewrite length_app in D. cbn [List.length] in D. lia.
Qed.

Lemma join_length (qs : list Rental.t) (w : World) :
  (List.length (select_related_vehicle qs w) <= List.length qs)%nat
  /\ ((forall r, In r qs ->
         has_pk Vehicle.id (Rental.vehicle r) (vehicles w) = true) ->
      List.length (select_related_vehicle qs w) = List.length qs).
Proof.
  unfold select_related_vehicle. rewrite <- (length_newest_first qs).
  assert (H : forall r, In r (newest_first qs) <-> In r qs)
    by (intros r; apply In_newest_first).
  revert H. generalize (newest_first qs) as l.
  induction l as [|r l IH]; intros Hl; cbn [flat_map].
  - split; reflexivity.
  - assert (Hl1 : forall r0, In r0 l -> In r0 qs)
      by (intros r0 Hr0; apply Hl; now right).
    rewrite length_app. cbn [List.length]. split.
    + assert (IH1 : (List.length
                       (flat_map
                          (fun r0 =>
                             match get Vehicle.id (Rental.vehicle r0) (vehicles w)
                             with
                             | Some v => [(r0, v)]
                             | None => []
                             end) l) <= List.length l)%nat).
      { clear -l. induction l as [|r0 l IHl]; cbn [flat_map List.length]; [lia|].
        rewrite length_app.
        destruct (get Vehicle.id _ _); cbn [List.length]; lia. }
      destruct (get Vehicle.id _ _); cbn [List.length]; lia.
    + intros H.
      assert (IH2 : List.length
                      (flat_map
                         (fun r0 =>
                            match get Vehicle.id (Rental.vehicle r0) (vehicles w)
                            with
                            | Some v => [(r0, v)]
                            | None => []
                            end) l) = List.length l).
      { clear IH Hl. induction l as [|r0 l IHl]; cbn [flat_map List.length];
          [reflexivity|].
        rewrite length_app, IHl by (intros r1 Hr1; apply Hl1; now right).
        destruct (get Vehicle.id (Rental.vehicle r0) (vehicles w)) eqn:E;
          [reflexivity|].
        apply get_None_has_pk in E.
        rewrite (H r0 (Hl1 r0 (or_introl eq_refl))) in E. discriminate. }
      rewrite IH2.
      destruct (get Vehicle.id (Rental.vehicle r) (vehicles w)) eqn:E;
        [reflexivity|].
      apply get_None_has_pk in E.
      rewrite (H r (proj1 (Hl r) (or_introl eq_refl))) in E. discriminate.
Qed.

Lemma filter_length_0_nil {A : Type} (f : A -> bool) (l : list A) :
  Nat.eqb (List.length (filter f l)) 0 = true -> filter f l = [].
Proof. intros H. apply Nat.eqb_eq in H. now apply length_zero_iff_nil. Qed.

Lemma activate_keeps (today : Date.t) (w : World) :
  let r := _activate_pending_rentals today w in
  same_keys w (snd r) /\ payments (snd r) = payments w
  /\ List.length (fst (fst r))
     = List.length (select_related_vehicle
                      (filter (pending_due today) (rentals w)) w)
  /\ (List.length (snd (fst r)) <= List.length (fst (fst r)))%nat.
Proof.
  cbv zeta. unfold _activate_pending_rentals.
  destruct (Nat.eqb _ 0) eqn:E.
  - rewrite (filter_length_0_nil _ _ E). cbn.
    split; [apply same_keys_refl|]. repeat split. lia.
  - pose proof (activate_loop_keeps
                  (select_related_vehicle (filter (pending_due today) (rentals w)) w)
                  [] [] w) as H.
    cbv zeta in H. destruct H as (A & B & C & D).
    { intros rv. apply join_rows_present. intros r Hr.
      now apply filter_In in Hr. }
    cbn [List.length] in C, D. rewrite C. repeat split; try apply A; try exact B; lia.
Qed.

Lemma complete_keeps (today : Date.t) (w : World) :
  let r := _complete_expired_rentals today w in
  same_keys w (snd r)
  /\ (exists new,
        payments (snd r) = payments w ++ new
        /\ (List.length new <= List.length (fst (fst r)))%nat
        /\ Forall (fun p => exists k, is_refund_of k p) new)
  /\ (List.length (snd (fst r)) <= List.length (fst (fst r)))%nat.
Proof.
  cbv zeta. unfold _complete_expired_rentals.
  destruct (Nat.eqb _ 0) eqn:E.
  - cbn. split; [apply same_keys_refl|]. split; [|lia].
    exists []. rewrite app_nil_r. split; [reflexivity|]. split; [cbn; lia|constructor].
  - pose proof (complete_loop_keeps
                  (select_related_vehicle (filter (ongoing_expired today) (rentals w)) w)
                  (empty_set Z) [] w) as H.
    cbv zeta in H. destruct H as (A & B & (new & C1 & C2 & C3) & D & F).
    { intros rv. apply join_rows_present. intros r Hr.
      now apply filter_In in Hr. }
    destruct (complete_loop _ _ _ w) as [[ids cr] w1]. cbn [fst snd] in *.
    pose proof (release_loop_keeps ids [] w1) as H. cbv zeta in H.
    destruct H as (G & _ & I & J).
    destruct (release_loop ids [] w1) as [rel w2]. cbn [fst snd List.length] in *.
    split; [exact (same_keys_trans _ _ _ A G)|]. split.
    + exists new. rewrite I, C1. split; [reflexivity|]. split; [lia | exact C3].
    + unfold empty_set in F. cbn [List.length] in F. lia.
Qed.

Lemma sweep_keys (today : Date.t) (w : World) :
  same_keys w (snd (handle today w)).
Proof.
  unfold handle.
  pose proof (activate_keeps today w) as H1. cbv zeta in H1.
  destruct (_activate_pending_rentals today w) as [[ar av] w1].
  destruct H1 as (A & _). cbn [snd] in A.
  pose proof (complete_keeps today w1) as H2. cbv zeta in H2.
  destruct (_complete_expired_rentals today w1) as [[cr rv] w2].
  destruct H2 as (C & _). cbn [snd] in *.
  exact (same_keys_trans _ _ _ A C).
Qed.

(** X12.  The sweep neither adds nor removes nor reorders an order or a
    vehicle row, leaves the customers untouched and only appends payments:
    at most one for each completed order, each of them a REFUND in status
    REFUNDED. *)
Theorem sweep_reshapes_no_table (today : Date.t) (w : World) :
  let r := handle today w in
  map Rental.id (rentals (snd r)) = map Rental.id (rentals w)
  /\ map Vehicle.id (vehicles (snd r)) = map Vehicle.id (vehicles w)
  /\ customers (snd r) = customers w
  /\ exists new,
       payments (snd r) = payments w ++ new
       /\ (List.length new <= completed_orders (fst r))%nat
       /\ Forall (fun p => Payment.transaction_type p = "REFUND"%string
                           /\ Payment.status p = "REFUNDED"%string) new.
Proof.
  cbv zeta. unfold handle.
  pose proof (activate_keeps today w) as H1. cbv zeta in H1.
  destruct (_activate_pending_rentals today w) as [[ar av] w1].
  destruct H1 as (A & B & _). cbn [snd] in A, B.
  pose proof (complete_keeps today w1) as H2. cbv zeta in H2.
  destruct (_complete_expired_rentals today w1) as [[cr rv] w2].
  destruct H2 as (C & (new & D1 & D2 & D3) & _). cbn [fst snd] in *.
  destruct (same_keys_trans _ _ _ A C) as (K1 & K2 & K3).
  split; [exact K1|]. split; [exact K2|]. split; [exact K3|].
  exists new. rewrite D1, B. split; [reflexivity|]. split; [exact D2|].
  eapply Forall_impl; [|exact D3]. intros p [k (_ & Ht & Hs)]. auto.
Qed.

(** X13.  The counts of the summary. No more vehicles are rented than orders
    are activated, and no more orders are activated than there are PENDING
    orders due; when every order has its vehicle row, all of them are
    activated. No more vehicles are released than orders are completed, and
    no more orders are completed than there are orders. *)
Theorem sweep_summary_bounds (today : Date.t) (w : World) :
  let s := fst (handle today w) in
  (rented_vehicles s <= activated_orders s)%nat
  /\ (activated_orders s
      <= List.length (filter (pending_due today) (rentals w)))%nat
  /\ ((forall r, In r (rentals w) ->
         has_pk Vehicle.id (Rental.vehicle r) (vehicles w) = true) ->
      activated_orders s = List.length (filter (pending_due today) (rentals w)))
  /\ (released s <= completed_orders s)%nat
  /\ (completed_orders s <= List.length (rentals w))%nat.
Proof.
  cbv zeta. unfold handle.
  pose proof (activate_keeps today w) as H1. cbv zeta in H1.
  destruct (_activate_pending_rentals today w) as [[ar av] w1].
  destruct H1 as (A & _ & B1 & B2). cbn [fst snd] in *.
  pose proof (complete_keeps today w1) as H2. cbv zeta in H2.
  assert (Hc : (List.length (fst (fst (_complete_expired_rentals today w1)))
                <= List.length (rentals w1))%nat).
  { unfold _complete_expired_rentals. destruct (Nat.eqb _ 0); [cbn; lia|].
    pose proof (complete_loop_keeps
                  (select_related_vehicle
                     (filter (ongoing_expired today) (rentals w1)) w1)
                  (empty_set Z) [] w1) as H.
    cbv zeta in H. destruct H as (_ & _ & _ & D & _).
    { intros rv. apply join_rows_present. intros r Hr.
      now apply filter_In in Hr. }
    destruct (complete_loop _ _ _ w1) as [[ids cr] w2].
    destruct (release_loop ids [] w2) as [rel w3]. cbn [fst snd List.length] in *.
    rewrite D.
    pose proof (proj1 (join_length (filter (ongoing_expired today) (rentals w1)) w1)).
    pose proof (filter_length_le (ongoing_expired today) (rentals w1)). lia. }
  destruct (_complete_expired_rentals today w1) as [[cr rv] w2].
  destruct H2 as (_ & _ & C). cbn [fst snd] in *.
  cbn [rented_vehicles activated_orders released completed_orders].
  destruct (join_length (filter (pending_due today) (rentals w)) w) as [J1 J2].
  split; [exact B2|]. split; [lia|]. split.
  - intros Hfk. rewrite B1. apply J2. intros r Hr. apply Hfk.
    now apply filter_In in Hr.
  - split; [exact C|].
    destruct A as (A & _). apply (f_equal (@List.length Z)) in A.
    rewrite !length_map in A. lia.
Qed.




Lemma handle_makes_idle (today : Date.t) (w : World) :
  idle (pending_due today) (snd (handle today w))
  /\ idle (ongoing_expired today) (snd (handle today w)).
Proof.
  unfold handle.
  pose proof (activate_makes_idle today w) as H1.
  destruct (_activate_pending_rentals today w) as [[ar av] w1]. cbn [snd] in H1.
  pose proof (complete_keeps_idle today w1 H1) as H2.
  pose proof (complete_makes_idle today w1) as H3.
  destruct (_complete_expired_rentals today w1) as [[cr rv] w2].
  cbn [snd] in *. auto.
Qed.

(** X15.  After the sweep no order whose vehicle exists is left behind: a
    PENDING order starts after today, an ONGOING order ends today or later.
    *)
Theorem sweep_leaves_nothing_due (today : Date.t) (w : World) (o : Rental.t) :
  In o (rentals (snd (handle today w))) ->
  has_pk Vehicle.id (Rental.vehicle o) (vehicles w) = true ->
  (Rental.status o = PENDING -> today < Rental.start_date o)
  /\ (Rental.status o = ONGOING -> today <= Rental.end_date o).
Proof.
  intros Ho Hv. destruct (handle_makes_idle today w) as [H1 H2].
  pose proof (sweep_keys today w) as Hk.
  rewrite <- (same_keys_has_vehicle _ _ _ Hk) in Hv.
  split; intros Hs.
  - destruct (Rental.start_date o <=? today) eqn:Hd; [|now apply Z.leb_gt].
    assert (E : pending_due today o = true).
    { unfold pending_due. now rewrite Hs, Hd. }
    rewrite (H1 o Ho E) in Hv. discriminate.
  - destruct (Rental.end_date o <? today) eqn:Hd; [|now apply Z.ltb_ge].
    assert (E : ongoing_expired today o = true).
    { unfold ongoing_expired. now rewrite Hs, Hd. }
    rewrite (H2 o Ho E) in Hv. discriminate.
Qed.

Lemma sweep_leaves_nothing_due_witness :
  exists o,
    In o (rentals (snd (handle Sample.today Sample.w_booked)))
    /\ Rental.status o = ONGOING
    /\ Sample.today <= Rental.end_date o.
Proof.
  eexists. split; [left; vm_compute; reflexivity|].
  split; [reflexivity|].
  match goal with
  | |- _ <= Rental.end_date ?o =>
      apply (proj2 (sweep_leaves_nothing_due Sample.today Sample.w_booked o
                      (or_introl eq_refl) eq_refl) eq_refl)
  end.
Defined.

(** ** Availability of a vehicle *)

Lemma In_busy_loop (fuel : nat) :
  forall (c e d : Date.t),
    e - c + 1 <= Z.of_nat fuel ->
    In d (busy_loop fuel c e) <-> c <= d <= e.
Proof.
  induction fuel as [|fuel IH]; intros c e d Hf; cbn [busy_loop].
  - split; [intros [] | lia].
  - destruct (c <=? e) eqn:E.
    + apply Z.leb_le in E. cbn [In]. rewrite IH by lia. lia.
    + apply Z.leb_gt in E. split; [intros [] | lia].
Qed.

Lemma In_busy_dates_of (r : Rental.t) (d : Date.t) :
  In d (busy_dates_of r) <-> Rental.start_date r <= d <= Rental.end_date r.
Proof. unfold busy_dates_of. apply In_busy_loop. lia. Qed.

Lemma In_insert_by_start_date (r x : Rental.t) (l : list Rental.t) :
  In x (insert_by_start_date r l) <-> x = r \/ In x l.
Proof.
  induction l as [|r0 l IH]; cbn [insert_by_start_date In]; [intuition|].
  destruct (_ <? _); cbn [In]; [intuition|]. rewrite IH. intuition.
Qed.

Lemma In_order_by_start_date (x : Rental.t) (l : list Rental.t) :
  In x (order_by_start_date l) <-> In x l.
Proof.
  induction l as [|r l IH]; cbn [order_by_start_date fold_right In]; [tauto|].
  rewrite In_insert_by_start_date. fold (order_by_start_date l). rewrite IH.
  intuition.
Qed.

Lemma blocks_spec (vid : Z) (r : Rental.t) :
  blocks vid r = true <->
  Rental.vehicle r = vid /\ (Rental.status r = PENDING \/ Rental.status r = ONGOING).
Proof.
  unfold blocks. rewrite andb_true_iff, orb_true_iff, Z.eqb_eq.
  destruct (Rental.status r); cbn; intuition discriminate.
Qed.

Lemma In_busy_dates (vid : Z) (rs : list Rental.t) (d : Date.t) :
  In d (flat_map busy_dates_of (order_by_start_date (filter (blocks vid) rs)))
  <-> exists r, In r rs /\ Rental.vehicle r = vid
        /\ (Rental.status r = PENDING \/ Rental.status r = ONGOING)
        /\ Rental.start_date r <= d <= Rental.end_date r.
Proof.
  rewrite in_flat_map. split.
  - intros (r & Hr & Hd). exists r.
    apply In_order_by_start_date, filter_In in Hr. destruct Hr as [Hr Hb].
    apply blocks_spec in Hb. apply In_busy_dates_of in Hd. tauto.
  - intros (r & Hr & Hv & Hs & Hd). exists r. split.
    + apply In_order_by_start_date, filter_In. split; [exact Hr|].
      apply blocks_spec. tauto.
    + now apply In_busy_dates_of.
Qed.

Lemma available_dates_found (vid : Z) (v : Vehicle.t) (w : World) :
  get Vehicle.id vid (vehicles w) = Some v ->
  get_vehicle_available_dates (Some vid) w
  = json_ok vid
      (flat_map busy_dates_of (order_by_start_date (filter (blocks vid) (rentals w))))
      (Vehicle.status v =? "AVAILABLE")%string.
Proof.
  intros E. cbn [get_vehicle_available_dates]. rewrite E.
  destruct (get_Some_inv _ _ _ _ E) as [_ Hid]. cbv zeta. now rewrite Hid.
Qed.

(** X16.  [get_vehicle_available_dates] answers 400 without a vehicle id and
    404 for a numeric id with no vehicle.  For the id of a stored vehicle
    it answers with that id, with busy dates that are exactly the days
    within a PENDING or ONGOING order of the vehicle, and with
    [is_available] true exactly when the vehicle row is AVAILABLE. *)
Theorem busy_dates_are_the_booked_days (w : World) :
  get_vehicle_available_dates None w = json_error 400
  /\ (forall vid,
        has_pk Vehicle.id vid (vehicles w) = false ->
        get_vehicle_available_dates (Some vid) w = json_error 404)
  /\ (forall vid v,
        get Vehicle.id vid (vehicles w) = Some v ->
        exists busy_dates is_available,
          get_vehicle_available_dates (Some vid) w
          = json_ok vid busy_dates is_available
          /\ (forall d, In d busy_dates <->
                exists r, In r (rentals w) /\ Rental.vehicle r = vid
                  /\ (Rental.status r = PENDING \/ Rental.status r = ONGOING)
                  /\ Rental.start_date r <= d <= Rental.end_date r)
          /\ (is_available = true <-> Vehicle.status v = "AVAILABLE"%string)).
Proof.
  split; [reflexivity|]. split.
  - intros vid H. cbn [get_vehicle_available_dates].
    destruct (get Vehicle.id vid (vehicles w)) as [v|] eqn:E; [|reflexivity].
    apply get_has_pk in E. congruence.
  - intros vid v E. rewrite (available_dates_found vid v w E).
    eexists. eexists. split; [reflexivity|].
    split; [intros d; apply In_busy_dates | apply String.eqb_eq].
Qed.

Lemma In_save_present {Row : Type} (pk : Row -> Z) (r r' : Row) (tbl : list Row) :
  has_pk pk (pk r) tbl = true ->
  In r' (save pk r tbl) <-> r' = r \/ (In r' tbl /\ pk r' <> pk r).
Proof.
  intros H. split; [apply In_save|].
  unfold save. rewrite H. rewrite in_map_iff. intros [-> | [Hin Hne]].
  - apply has_pk_true in H. destruct H as (r0 & Hin & Hk). exists r0.
    split; [|exact Hin]. now apply Z.eqb_eq in Hk as ->.
  - exists r'. split; [|exact Hin]. now apply Z.eqb_neq in Hne as ->.
Qed.

Section Bookings.

Variable CancelForm_is_valid : string -> bool.
Variable POST : Type.
Variable RentalForm_is_valid : option Rental.t -> POST -> bool.
Variable RentalForm_save : option Rental.t -> POST -> Rental.t.

(** X17.  A booking created as PENDING or ONGOING blocks its days:
    afterwards the busy dates of its vehicle are those of before together
    with the days from its start date to its end date, and a PENDING booking
    makes the vehicle unavailable. *)
Theorem created_booking_blocks_its_days (new_pk : Z) (post : POST) (w : World)
  (customer : Customer.t) (vehicle : Vehicle.t) :
  let posted := RentalForm_save None post in
  RentalForm_is_valid None post = true ->
  get Customer.id (Rental.customer posted) (customers w) = Some customer ->
  get Vehicle.id (Rental.vehicle posted) (vehicles w) = Some vehicle ->
  Rental.status posted = PENDING \/ Rental.status posted = ONGOING ->
  let w1 := snd (rental_create POST RentalForm_is_valid RentalForm_save new_pk
                   (Some post) w) in
  exists busy0 busy1 available0,
    get_vehicle_available_dates (Some (Rental.vehicle posted)) w
    = json_ok (Rental.vehicle posted) busy0 available0
    /\ get_vehicle_available_dates (Some (Rental.vehicle posted)) w1
       = json_ok (Rental.vehicle posted) busy1
           (if RentalStatus_eqb (Rental.status posted) PENDING then false
            else available0)
    /\ forall d, In d busy1 <->
         In d busy0 \/ Rental.start_date posted <= d <= Rental.end_date posted.
Proof.
  intros posted Hvalid Hc Hv Hst. cbv zeta. unfold rental_create.
  rewrite Hvalid. fold posted. rewrite Hc, Hv.
  destruct (get_Some_inv _ _ _ _ Hv) as [_ Hvid].
  set (amount := calculate_rental_amount _ _ _ _).
  cbn [timezone_now auto_now snd rentals].
  set (inst := assign_pk new_pk
                 (Rental.set_created_at (clock w (ticks w))
                    (save_defaults vehicle
                       (Rental.set_total_amount amount posted)))).
  set (row := stored inst).
  assert (Hrow : Rental.vehicle row = Rental.vehicle posted
                 /\ Rental.status row = Rental.status posted
                 /\ Rental.start_date row = Rental.start_date posted
                 /\ Rental.end_date row = Rental.end_date posted).
  { unfold row, inst. rewrite save_defaults_fields. cbn. repeat split. }
  destruct Hrow as (R1 & R2 & R3 & R4).
  change (Rental.status inst) with (Rental.status row). rewrite R2.
  rewrite (available_dates_found _ _ _ Hv).
  set (w1 := if RentalStatus_eqb (Rental.status posted) PENDING then _ else _).
  assert (Hr1 : rentals w1 = rentals w ++ [row]).
  { unfold w1. now destruct (RentalStatus_eqb (Rental.status posted) PENDING). }
  assert (Hv1 : exists v1,
            get Vehicle.id (Rental.vehicle posted) (vehicles w1) = Some v1
            /\ (Vehicle.status v1 =? "AVAILABLE")%string
               = if RentalStatus_eqb (Rental.status posted) PENDING then false
                 else (Vehicle.status vehicle =? "AVAILABLE")%string).
  { unfold w1. destruct (RentalStatus_eqb (Rental.status posted) PENDING).
    - exists (Vehicle.set_status "RENTED" vehicle). split; [|reflexivity].
      unfold Vehicle_save. cbn [vehicles with_vehicles with_rentals].
      rewrite <- Hvid.
      apply (get_save_same Vehicle.id (Vehicle.set_status "RENTED" vehicle)).
    - exists vehicle. split; [exact Hv | reflexivity]. }
  destruct Hv1 as (v1 & Hg1 & Ha1).
  rewrite (available_dates_found _ _ _ Hg1), Ha1, Hr1.
  eexists _, _, _. split; [reflexivity|]. split; [reflexivity|].
  intros d. rewrite !In_busy_dates. split.
  - intros (r & Hr & Hrv & Hrs & Hd). apply in_app_or in Hr.
    destruct Hr as [Hr | [<- | []]].
    + left. exists r. tauto.
    + right. now rewrite <- R3, <- R4.
  - intros [(r & Hr & H) | Hd].
    + exists r. split; [apply in_or_app; now left | exact H].
    + exists row. split; [apply in_or_app; right; now left|].
      rewrite R1, R2, R3, R4. tauto.
Qed.

(** X18.  A cancelled order frees its days: afterwards the busy dates of its
    vehicle are exactly the days of the other PENDING or ONGOING orders of
    the vehicle, and a vehicle that was rented or available is reported as
    available, whether or not such orders remain. *)
Theorem cancelled_order_frees_its_days (pk : Z) (reason : string) (w : World)
  (rental : Rental.t) (vehicle : Vehicle.t) :
  get Rental.id pk (rentals w) = Some rental ->
  get Vehicle.id (Rental.vehicle rental) (vehicles w) = Some vehicle ->
  CancelForm_is_valid reason = true ->
  let w1 := snd (rental_cancel CancelForm_is_valid pk (Some reason) w) in
  exists busy1 available1,
    get_vehicle_available_dates (Some (Rental.vehicle rental)) w1
    = json_ok (Rental.vehicle rental) busy1 available1
    /\ (forall d, In d busy1 <->
          exists r, In r (rentals w) /\ Rental.id r <> pk
            /\ Rental.vehicle r = Rental.vehicle rental
            /\ (Rental.status r = PENDING \/ Rental.status r = ONGOING)
            /\ Rental.start_date r <= d <= Rental.end_date r)
    /\ (Vehicle.status vehicle = "RENTED"%string
        \/ Vehicle.status vehicle = "AVAILABLE"%string -> available1 = true).
Proof.
  intros Hr Hv Hd. cbv zeta. unfold rental_cancel. rewrite Hr, Hd, Hv.
  destruct (get_Some_inv _ _ _ _ Hr) as [Hin Hpk].
  destruct (get_Some_inv _ _ _ _ Hv) as [_ Hvid].
  set (r1 := Rental.set_notes _ (Rental.set_status CANCELLED rental)).
  rewrite Rental_save_present
    by (change (Rental.id r1) with (Rental.id rental); rewrite Hpk;
        exact (get_has_pk _ _ _ _ Hr)).
  destruct (save_defaults_frame vehicle r1)
    as (Fid & Fst & _ & _ & _ & _).
  set (row := stored (save_defaults vehicle r1)) in *.
  assert (Hid : Rental.id row = pk)
    by (unfold row; cbn [stored Rental.id]; rewrite Fid; exact Hpk).
  assert (Hst : Rental.status row = CANCELLED)
    by (unfold row; cbn [stored Rental.status]; rewrite Fst; reflexivity).
  cbn [snd].
  set (w1 := if (Vehicle.status vehicle =? "RENTED")%string then _ else _).
  assert (Hr1 : rentals w1 = save Rental.id row (rentals w)).
  { unfold w1. now destruct (Vehicle.status vehicle =? "RENTED")%string. }
  assert (Hv1 : exists v1,
            get Vehicle.id (Rental.vehicle rental) (vehicles w1) = Some v1
            /\ (Vehicle.status vehicle = "RENTED"%string
                \/ Vehicle.status vehicle = "AVAILABLE"%string ->
                (Vehicle.status v1 =? "AVAILABLE")%string = true)).
  { unfold w1. destruct (Vehicle.status vehicle =? "RENTED")%string eqn:E.
    - exists (Vehicle.set_status "AVAILABLE" vehicle). split; [|reflexivity].
      unfold Vehicle_save. cbn [vehicles with_vehicles with_rentals].
      rewrite <- Hvid.
      apply (get_save_same Vehicle.id (Vehicle.set_status "AVAILABLE" vehicle)).
    - exists vehicle. split; [exact Hv|]. apply String.eqb_neq in E.
      intros [H | H]; [contradiction | now apply String.eqb_eq]. }
  destruct Hv1 as (v1 & Hg1 & Ha1).
  rewrite (available_dates_found _ _ _ Hg1), Hr1.
  eexists _, _. split; [reflexivity|]. split; [|exact Ha1].
  assert (Hhas : has_pk Rental.id (Rental.id row) (rentals w) = true).
  { apply has_pk_true. exists rental. split; [exact Hin | congruence]. }
  intros d. rewrite In_busy_dates. split.
  - intros (r & Hr' & Hrest). apply (In_save_present _ _ _ _ Hhas) in Hr'.
    destruct Hr' as [-> | [Hr' Hne]].
    + rewrite Hst in Hrest. destruct Hrest as (_ & [H | H] & _); discriminate.
    + exists r. split; [exact Hr'|]. split; [congruence | exact Hrest].
  - intros (r & Hr' & Hne & Hrest). exists r. split; [|exact Hrest].
    apply (In_save_present _ _ _ _ Hhas). right. split; [exact Hr' | congruence].
Qed.

End Bookings.

Lemma created_booking_blocks_its_days_witness :
  exists busy1,
    get_vehicle_available_dates (Some 7)
      (snd (rental_create Rental.t Sample.form_valid Sample.form_save 5
              (Some Sample.booking) Sample.w_paid))
    = json_ok 7 busy1 false
    /\ In (Date._ymd2ord 2024 2 2) busy1.
Proof.
  destruct (created_booking_blocks_its_days Rental.t Sample.form_valid
              Sample.form_save 5 Sample.booking Sample.w_paid Sample.alice
              Sample.car7 eq_refl eq_refl eq_refl (or_introl eq_refl))
    as (busy0 & busy1 & a0 & _ & H1 & H2).
  exists busy1. split; [exact H1|]. apply H2. right. vm_compute.
  split; discriminate.
Defined.

Lemma cancelled_order_frees_its_days_witness :
  exists busy1,
    get_vehicle_available_dates (Some 7)
      (snd (rental_cancel Sample.non_empty 1 (Some "changed plans"%string)
              Sample.w_shared))
    = json_ok 7 busy1 true
    /\ In (Date._ymd2ord 2024 1 8) busy1.
Proof.
  destruct (cancelled_order_frees_its_days Sample.non_empty 1 "changed plans"
              Sample.w_shared (Sample.orderA ONGOING) Sample.car7
              eq_refl eq_refl eq_refl) as (busy1 & a1 & H1 & H2 & H3).
  exists busy1. rewrite (H3 (or_introl eq_refl)) in H1. split; [exact H1|].
  apply H2. exists (Sample.orderB 7). split; [right; left; reflexivity|].
  split; [discriminate|]. split; [reflexivity|]. split; [now right|].
  vm_compute. split; discriminate.
Defined.

(** ** What the sweep stores for a completed order *)

Lemma settle_instance (rental : Rental.t) (vehicle : Vehicle.t) (w : World) :
  exists w0,
    fst (_settle_completed_rental rental vehicle w)
    = save_defaults vehicle (derived rental w0).
Proof.
  destruct (settle_as_refresh rental vehicle w) as (w0 & -> & _).
  exists w0. now rewrite refresh_financials_eq.
Qed.

Lemma settled_instance_fields (v : Vehicle.t) (x : Rental.t) (t : datetime)
  (w0 : World) :
  let r :=
    save_defaults v (derived (Rental.set_created_at t (save_defaults v x)) w0) in
  Rental.id r = Rental.id x
  /\ Rental.customer r = Rental.customer x
  /\ Rental.vehicle r = Rental.vehicle x
  /\ Rental.start_date r = Rental.start_date x
  /\ Rental.end_date r = Rental.end_date x
  /\ Rental.status r = Rental.status x
  /\ Rental.actual_return_date r = Rental.actual_return_date x
  /\ Rental.total_amount r
     = if Dtruthy (Rental.total_amount x) then Rental.total_amount x
       else Dmul_int (Vehicle.daily_rate v) (rental_days x).
Proof.
  cbv zeta. rewrite (save_defaults_fields v (derived _ _)).
  unfold derived. rewrite (save_defaults_fields v x).
  unfold rental_days.
  cbn -[Deqb Dtruthy String.eqb Dmul Dmul_int paid_total refunded_total covered Dltb].
  repeat (split; [reflexivity|]).
  destruct (Dtruthy (Rental.total_amount x)) eqn:E; cbn [negb].
  - now rewrite E.
  - match goal with |- (if ?c then _ else _) = _ => destruct c; reflexivity end.
Qed.

Lemma completed_as_step (r0 : Rental.t) (v : Vehicle.t) (t : datetime)
  (w0 : World) :
  completed_as r0 v
    (save_defaults v
       (derived
          (Rental.set_created_at t
             (save_defaults v
                match Rental.actual_return_date (Rental.set_status COMPLETED r0)
                with
                | None =>
                    Rental.set_actual_return_date
                      (Some (Rental.end_date (Rental.set_status COMPLETED r0)))
                      (Rental.set_status COMPLETED r0)
                | Some _ => Rental.set_status COMPLETED r0
                end)) w0)).
Proof.
  unfold completed_as.
  match goal with
  | |- context [save_defaults v
                  (derived (Rental.set_created_at t (save_defaults v ?x)) w0)] =>
      destruct (settled_instance_fields v x t w0)
        as (F1 & F2 & F3 & F4 & F5 & F6 & F7 & F8)
  end.
  rewrite F1, F2, F3, F4, F5, F6, F7, F8. clear.
  unfold rental_days.
  destruct r0 as [id cu ve sd ed [d|] ta de pl rl cr cf st no ca ss sa ap ar];
    cbn -[Dtruthy Dmul_int]; repeat split.
Qed.

Lemma complete_loop_completed (rows : list (Rental.t * Vehicle.t)) :
  forall (ids : set Z) (cr : list Rental.t) (w : World) (r : Rental.t),
    In r (snd (fst (complete_loop rows ids cr w))) ->
    In r cr \/ exists r0 v, In (r0, v) rows /\ completed_as r0 v r.
Proof.
  induction rows as [|[r0 v] rows IH]; intros ids cr w r; cbn [complete_loop].
  - cbn. now left.
  - match goal with
    | |- context [Rental_save v ?x w] =>
        destruct (Rental_save_instance v x w) as [t Ht];
        destruct (Rental_save v x w) as [r1 w1]
    end.
    cbn [fst] in Ht. subst r1.
    match goal with
    | |- context [_settle_completed_rental ?a v ?b] =>
        destruct (settle_instance a v b) as (w0 & Hi);
        destruct (_settle_completed_rental a v b) as [r2 w2]
    end.
    cbn [fst] in Hi. intros Hin. apply IH in Hin.
    destruct Hin as [Hin | (r1 & v1 & Hin & Hc)].
    + apply in_app_or in Hin. destruct Hin as [Hin | [<- | []]]; [now left|].
      right. exists r0, v. split; [now left|]. rewrite Hi. apply completed_as_step.
    + right. exists r1, v1. split; [now right | exact Hc].
Qed.

(** X19.  Every order the sweep reports as completed comes from a stored
    ONGOING order past its end date whose vehicle exists. It keeps key,
    customer, vehicle and dates, is COMPLETED, keeps a return date already
    recorded and otherwise gets the end date, and keeps its non-zero total:
    the sweep charges no overdue surcharge. *)
Theorem sweep_completion_details (today : Date.t) (w : World) (r : Rental.t) :
  In r (fst (fst (_complete_expired_rentals today w))) ->
  exists r0 v,
    In r0 (rentals w)
    /\ get Vehicle.id (Rental.vehicle r0) (vehicles w) = Some v
    /\ Rental.status r0 = ONGOING /\ Rental.end_date r0 < today
    /\ completed_as r0 v r.
Proof.
  unfold _complete_expired_rentals. destruct (Nat.eqb _ 0); [intros []|].
  pose proof (complete_loop_completed
                (select_related_vehicle (filter (ongoing_expired today) (rentals w)) w)
                (empty_set Z) [] w r) as H.
  destruct (complete_loop _ _ _ w) as [[ids cr] w1].
  destruct (release_loop ids [] w1) as [rel w2]. cbn [fst snd] in *.
  intros Hin. destruct (H Hin) as [[] | (r0 & v & Hrow & Hc)].
  apply In_select_related in Hrow. destruct Hrow as [Hr0 Hv].
  apply filter_In in Hr0. destruct Hr0 as [Hr0 Hsel].
  unfold ongoing_expired in Hsel. apply andb_true_iff in Hsel.
  destruct Hsel as [Hs Hd]. apply Z.ltb_lt in Hd.
  exists r0, v. repeat (split; [assumption|]).
  split; [now destruct (Rental.status r0)|]. split; [exact Hd | exact Hc].
Qed.

Lemma sweep_completion_details_witness :
  exists r,
    In r (fst (fst (_complete_expired_rentals Sample.today Sample.w_paid)))
    /\ Rental.status r = COMPLETED
    /\ Rental.actual_return_date r = Some (Date._ymd2ord 2024 1 10)
    /\ Rental.total_amount r = Sample.yuan 1200.
Proof.
  assert (Hin : In (hd (Sample.orderA ONGOING)
                      (fst (fst (_complete_expired_rentals Sample.today
                                   Sample.w_paid))))
                   (fst (fst (_complete_expired_rentals Sample.today Sample.w_paid))))
    by (vm_compute; left; reflexivity).
  eexists. split; [exact Hin|].
  destruct (sweep_completion_details Sample.today Sample.w_paid _ Hin)
    as (r0 & v & _ & _ & _ & _ & Hc).
  vm_compute. repeat split.
Defined.

Lemma Rental_clean_dates (today : Date.t) (r r0 : Rental.t) :
  Rental.start_date r = Rental.start_date r0 ->
  Rental.end_date r = Rental.end_date r0 ->
  Rental.actual_return_date r = Rental.actual_return_date r0 ->
  Rental_clean today r = Rental_clean today r0.
Proof. unfold Rental_clean. now intros -> -> ->. Qed.

(** X20.  The return date the sweep fills in never breaks [Rental.clean]: an
    order without return date whose start date is not after its end date
    passes the validation once the sweep has completed it; an order with a
    return date validates as it did before. *)
Theorem swept_order_against_clean (today : Date.t) (w : World) (r : Rental.t) :
  In r (fst (fst (_complete_expired_rentals today w))) ->
  exists r0,
    In r0 (rentals w) /\ Rental.id r0 = Rental.id r
    /\ (Rental.actual_return_date r0 = None ->
        Rental.start_date r0 <= Rental.end_date r0 ->
        Rental_clean today r = inr tt)
    /\ (forall d, Rental.actual_return_date r0 = Some d ->
          Rental_clean today r = Rental_clean today r0).
Proof.
  unfold _complete_expired_rentals. destruct (Nat.eqb _ 0); [intros []|].
  pose proof (complete_loop_completed
                (select_related_vehicle (filter (ongoing_expired today) (rentals w)) w)
                (empty_set Z) [] w r) as H.
  destruct (complete_loop _ _ _ w) as [[ids cr] w1].
  destruct (release_loop ids [] w1) as [rel w2]. cbn [fst snd] in *.
  intros Hin. destruct (H Hin) as [[] | (r0 & v & Hrow & Hc)].
  apply In_select_related in Hrow. destruct Hrow as [Hr0 _].
  apply filter_In in Hr0. destruct Hr0 as [Hr0 Hsel].
  unfold ongoing_expired in Hsel. apply andb_true_iff in Hsel.
  destruct Hsel as [_ Hd]. apply Z.ltb_lt in Hd.
  destruct Hc as (Cid & _ & _ & Cs & Ce & _ & Ca & _).
  exists r0. split; [exact Hr0|]. split; [now rewrite Cid|]. split.
  - intros Hnone Hle. rewrite Hnone in Ca. unfold Rental_clean.
    rewrite Cs, Ce, Ca.
    assert ((Rental.end_date r0 <? Rental.start_date r0) = false) as ->
      by (apply Z.ltb_ge; lia).
    assert ((today <? Rental.end_date r0) = false) as -> by (apply Z.ltb_ge; lia).
    reflexivity.
  - intros d Hsome. apply Rental_clean_dates; [exact Cs | exact Ce|].
    now rewrite Ca, Hsome.
Qed.

Lemma swept_order_against_clean_witness :
  exists r,
    In r (fst (fst (_complete_expired_rentals Sample.today Sample.w_paid)))
    /\ Rental_clean Sample.today r = inr tt.
Proof.
  assert (Hin : In (hd (Sample.orderA ONGOING)
                      (fst (fst (_complete_expired_rentals Sample.today
                                   Sample.w_paid))))
                   (fst (fst (_complete_expired_rentals Sample.today Sample.w_paid))))
    by (vm_compute; left; reflexivity).
  eexists. split; [exact Hin|].
  destruct (swept_order_against_clean Sample.today Sample.w_paid _ Hin)
    as (r0 & Hr0 & _ & H & _).
  destruct Hr0 as [<- | []]. apply H; [reflexivity | vm_compute; discriminate].
Defined.

(** ** The deposit is refunded once *)

Lemma settle_payments (rental : Rental.t) (vehicle : Vehicle.t) (w : World) :
  payments (snd (_settle_completed_rental rental vehicle w))
  = payments w ++ refund_records rental w.
Proof.
  unfold _settle_completed_rental, refund_records, refund_due.
  match goal with
  | |- context [refresh_financials true vehicle rental ?w0] =>
      destruct (refresh_frame true vehicle rental w0) as (Hp & _); rewrite Hp
  end.
  destruct (_ && _ && _); [|now rewrite app_nil_r].
  destruct (refund_user_of rental w); [reflexivity | cbn; now rewrite app_nil_r].
Qed.

Lemma Sum_snoc (l : list Decimal) (a : Decimal) :
  Sum (l ++ [a])
  = Some match Sum l with Some s => Dadd s a | None => a end.
Proof.
  destruct l as [|b l]; [reflexivity|]. cbn [Sum app]. now rewrite fold_left_app.
Qed.

Lemma total_snoc_value (l : list Decimal) (a : Decimal) :
  exists n, forall N, (n <= N)%nat ->
    scale_to N (total_or_zero (Sum (l ++ [a])))
    = scale_to N (total_or_zero (Sum l)) + scale_to N a.
Proof.
  rewrite Sum_snoc. destruct (Sum l) as [s|]; cbn [total_or_zero].
  - exists (Nat.max (places s) (places a)). intros N HN.
    rewrite !scale_to_or_zero, scale_to_Dadd by lia. reflexivity.
  - exists 0%nat. intros N _. rewrite scale_to_or_zero.
    unfold scale_to at 2. cbn [coef D0_00]. lia.
Qed.

Lemma Dltb_zero_scale (N : nat) (d : Decimal) :
  (places d <= N)%nat -> Dltb D0_00 d = (0 <? scale_to N d).
Proof.
  intros H. rewrite Dltb_zero. unfold scale_to.
  pose proof (pow10_pos (N - places d)) as Hp.
  destruct (0 <? coef d) eqn:E; symmetry.
  - apply Z.ltb_lt in E. apply Z.ltb_lt. nia.
  - apply Z.ltb_ge in E. apply Z.ltb_ge. nia.
Qed.

Lemma refund_due_refundable (rental : Rental.t) (w : World) :
  refund_due rental w = true ->
  or_zero (Rental.deposit rental) = Rental.deposit rental.
Proof.
  unfold refund_due. intros H. apply andb_true_iff in H. destruct H as [H _].
  apply andb_true_iff in H. destruct H as [H _].
  destruct (or_zero_cases (Rental.deposit rental)) as [E | [E _]]; [exact E|].
  rewrite E in H. vm_compute in H. discriminate.
Qed.

Lemma filter_snoc {A : Type} (f : A -> bool) (l : list A) (a : A) :
  filter f (l ++ [a]) = filter f l ++ (if f a then [a] else []).
Proof. now rewrite filter_app. Qed.

Section AfterTheRefund.

Variable rental : Rental.t.
Variable w w1 : World.
Variable p : Payment.t.
Hypothesis Hp : payments w1 = payments w ++ [p].
Hypothesis Hrental : Payment.rental p = Rental.id rental.
Hypothesis Htype : Payment.transaction_type p = "REFUND"%string.
Hypothesis Hstatus : Payment.status p = "REFUNDED"%string.

Lemma refunded_total_grows :
  exists n, forall N, (n <= N)%nat ->
    scale_to N (refunded_total (Rental.id rental) w1)
    = scale_to N (refunded_total (Rental.id rental) w) + scale_to N (Payment.amount p).
Proof.
  assert (E : refunded_refund p = true).
  { unfold refunded_refund. now rewrite Htype, Hstatus. }
  unfold refunded_total, payments_of.
  rewrite Hp, filter_snoc, Hrental, Z.eqb_refl, filter_snoc, E, map_app.
  cbn [map]. apply total_snoc_value.
Qed.

Lemma paid_total_after_refund :
  paid_total (Rental.id rental) w1 = paid_total (Rental.id rental) w.
Proof.
  assert (E : paid_charge p = false).
  { unfold paid_charge. now rewrite Htype. }
  unfold paid_total, payments_of.
  now rewrite Hp, filter_snoc, Hrental, Z.eqb_refl, filter_snoc, E, app_nil_r.
Qed.

End AfterTheRefund.

Lemma refund_user_of_same (rental rental' : Rental.t) (w w1 : World) :
  Rental.id rental' = Rental.id rental ->
  Rental.customer rental' = Rental.customer rental ->
  payments w1 = payments w -> customers w1 = customers w ->
  refund_user_of rental' w1 = refund_user_of rental w.
Proof.
  intros Hi Hc Hp Hcu. unfold refund_user_of, linked_account, payments_of.
  now rewrite Hi, Hc, Hp, Hcu.
Qed.

Lemma refund_due_same (rental rental' : Rental.t) (w w1 : World) :
  Rental.id rental' = Rental.id rental ->
  Rental.deposit rental' = Rental.deposit rental ->
  payments w1 = payments w ->
  refund_due rental' w1 = refund_due rental w.
Proof.
  intros Hi Hd Hp. unfold refund_due.
  now rewrite Hi, Hd, (paid_total_payments _ _ _ Hp), (refunded_total_payments _ _ _ Hp).
Qed.

Lemma refund_closes_the_deposit (rental rental' : Rental.t) (w w1 : World)
  (p : Payment.t) :
  refund_due rental w = true ->
  payments w1 = payments w ++ [p] ->
  Payment.rental p = Rental.id rental ->
  Payment.transaction_type p = "REFUND"%string ->
  Payment.status p = "REFUNDED"%string ->
  Payment.amount p
  = Dsub (or_zero (Rental.deposit rental)) (refunded_total (Rental.id rental) w) ->
  Rental.id rental' = Rental.id rental ->
  Rental.deposit rental' = Rental.deposit rental ->
  Deqb (refunded_total (Rental.id rental) w1) (Rental.deposit rental) = true
  /\ refund_due rental' w1 = false.
Proof.
  intros Hdue Hp Hr Ht Hs Ha Hi Hd.
  destruct (refunded_total_grows rental w w1 p Hp Hr Ht Hs) as (n & Hn).
  pose proof (refund_due_refundable _ _ Hdue) as Hoz. rewrite Hoz in Ha.
  set (dep := Rental.deposit rental) in *.
  set (old := refunded_total (Rental.id rental) w) in *.
  set (new := refunded_total (Rental.id rental) w1) in *.
  set (N := Nat.max n (Nat.max (places dep) (Nat.max (places old) (places new)))).
  assert (Hval : scale_to N new = scale_to N dep).
  { rewrite (Hn N) by (unfold N; lia). rewrite Ha, scale_to_Dsub by (unfold N; lia).
    ring. }
  split.
  - rewrite (Deqb_scale N) by (unfold N; lia). now apply Z.eqb_eq.
  - unfold refund_due. rewrite Hi, Hd. fold dep new. rewrite Hoz.
    assert (Dltb D0_00 (Dsub dep new) = false) as ->;
      [|now rewrite andb_false_r].
    rewrite (Dltb_zero_scale N) by (cbn [places Dsub]; unfold N; lia).
    rewrite scale_to_Dsub, Hval by (unfold N; lia). apply Z.ltb_ge. lia.
Qed.

(** X21.  Settling an order again, from any instance with the same key,
    customer and deposit, adds no payment record. When the first settlement
    did add a refund, the refunded total of the order equals its deposit
    from then on, and its paid total is unchanged. *)
Theorem deposit_is_refunded_once (rental rental' : Rental.t)
  (vehicle vehicle' : Vehicle.t) (w : World) :
  Rental.id rental' = Rental.id rental ->
  Rental.customer rental' = Rental.customer rental ->
  Rental.deposit rental' = Rental.deposit rental ->
  let w1 := snd (_settle_completed_rental rental vehicle w) in
  payments (snd (_settle_completed_rental rental' vehicle' w1)) = payments w1
  /\ (forall p, payments w1 = payments w ++ [p] ->
        Deqb (refunded_total (Rental.id rental) w1) (Rental.deposit rental) = true
        /\ paid_total (Rental.id rental) w1 = paid_total (Rental.id rental) w).
Proof.
  intros Hi Hc Hd. cbv zeta.
  pose proof (settle_payments rental vehicle w) as Hp.
  destruct (settle_frame rental vehicle w) as (_ & Hcu & _). 
  set (w1 := snd (_settle_completed_rental rental vehicle w)) in *.
  rewrite (settle_payments rental' vehicle' w1).
  unfold refund_records in Hp.
  destruct (refund_due rental w) eqn:Hdue;
    [destruct (refund_user_of rental w) as [u|] eqn:Hu|].
  - match type of Hp with _ = _ ++ [?q] =>
      destruct (refund_closes_the_deposit rental rental' w w1 q Hdue Hp
                  eq_refl eq_refl eq_refl eq_refl Hi Hd) as [Heq Hno];
      pose proof (paid_total_after_refund rental w w1 q Hp eq_refl eq_refl) as Hpaid
    end.
    split.
    + unfold refund_records. rewrite Hno. apply app_nil_r.
    + intros p _. split; [exact Heq | exact Hpaid].
  - rewrite app_nil_r in Hp. split.
    + unfold refund_records.
      rewrite (refund_due_same rental rental' w w1 Hi Hd Hp), Hdue,
        (refund_user_of_same rental rental' w w1 Hi Hc Hp Hcu), Hu.
      apply app_nil_r.
    + intros p Hp'. rewrite Hp in Hp'. exfalso.
      apply (f_equal (@List.length _)) in Hp'. rewrite length_app in Hp'.
      cbn in Hp'. lia.
  - rewrite app_nil_r in Hp. split.
    + unfold refund_records.
      rewrite (refund_due_same rental rental' w w1 Hi Hd Hp), Hdue.
      apply app_nil_r.
    + intros p Hp'. rewrite Hp in Hp'. exfalso.
      apply (f_equal (@List.length _)) in Hp'. rewrite length_app in Hp'.
      cbn in Hp'. lia.
Qed.

Lemma deposit_is_refunded_once_witness :
  let w1 := snd (_settle_completed_rental (Sample.orderA COMPLETED) Sample.car7
                   Sample.w_done) in
  List.length (payments w1) = 2%nat
  /\ payments (snd (_settle_completed_rental (Sample.orderA COMPLETED) Sample.car7 w1))
     = payments w1.
Proof.
  cbv zeta. split; [vm_compute; reflexivity|].
  exact (proj1 (deposit_is_refunded_once (Sample.orderA COMPLETED)
                  (Sample.orderA COMPLETED) Sample.car7 Sample.car7 Sample.w_done
                  eq_refl eq_refl eq_refl)).
Defined.

(** X22.  The row a settlement leaves agrees with the payment records as
    they are after it, the refund just created included: paid and refunded
    amounts are the totals of the records as the two-place columns hold
    them (the totals themselves when they have two places), and the row is
    settled exactly when the instance passed in is completed and the paid
    total covers its order total. Status, return date, total and deposit of
    the row are not written. *)
Theorem settlement_stores_the_ledger (rental : Rental.t) (vehicle : Vehicle.t)
  (w : World) (row : Rental.t) :
  let r1 := _settle_completed_rental rental vehicle w in
  get Rental.id (Rental.id rental) (rentals (snd r1)) = Some row ->
  Rental.amount_paid row = quantize2 (paid_total (Rental.id rental) (snd r1))
  /\ Rental.amount_refunded row
     = quantize2 (refunded_total (Rental.id rental) (snd r1))
  /\ (places (paid_total (Rental.id rental) (snd r1)) = 2%nat ->
      Rental.amount_paid row = paid_total (Rental.id rental) (snd r1))
  /\ (places (refunded_total (Rental.id rental) (snd r1)) = 2%nat ->
      Rental.amount_refunded row = refunded_total (Rental.id rental) (snd r1))
  /\ (Rental.settlement_status row = SETTLED <->
      Rental.status rental = COMPLETED
      /\ Dleb (calculate_order_total rental) (paid_total (Rental.id rental) (snd r1))
         = true)
  /\ Rental.settlement_status row = Rental.settlement_status (fst r1)
  /\ Rental.settled_at row = Rental.settled_at (fst r1)
  /\ exists row0,
       get Rental.id (Rental.id rental) (rentals w) = Some row0
       /\ Rental.status row = Rental.status row0
       /\ Rental.actual_return_date row = Rental.actual_return_date row0
       /\ Rental.total_amount row = Rental.total_amount row0
       /\ Rental.deposit row = Rental.deposit row0.
Proof.
  cbv zeta. destruct (settle_as_refresh rental vehicle w) as (w0 & -> & Hr & _).
  destruct (refresh_frame true vehicle rental w0) as (Hp & _).
  rewrite (paid_total_payments _ _ _ Hp), (refunded_total_payments _ _ _ Hp).
  rewrite refresh_financials_eq. cbn [fst snd rentals with_rentals].
  rewrite stamped_rentals, Hr, get_update by reflexivity.
  destruct (get Rental.id (Rental.id rental) (rentals w)) as [row0|];
    [|discriminate].
  intros [= <-].
  destruct (save_defaults_frame vehicle (derived rental w0))
    as (_ & _ & _ & _ & _ & _ & Fss & Fat & _ & _).
  rewrite Fss, Fat.
  split; [reflexivity|]. split; [reflexivity|].
  split; [intros H; exact (quantize2_two_places _ H)|].
  split; [intros H; exact (quantize2_two_places _ H)|]. split.
  - change (Rental.settlement_status (copy_financials (derived rental w0) row0))
      with (Rental.settlement_status (derived rental w0)).
    rewrite derived_status_cases. unfold covered.
    rewrite andb_true_iff. split; intros [H1 H2]; (split; [|exact H2]).
    + now destruct (Rental.status rental).
    + now rewrite H1.
  - split; [reflexivity|]. split; [reflexivity|]. exists row0.
    split; [reflexivity|]. now destruct row0.
Qed.

Lemma settlement_stores_the_ledger_witness :
  exists row,
    get Rental.id 1
      (rentals (snd (_settle_completed_rental (Sample.orderA COMPLETED) Sample.car7
                       Sample.w_done))) = Some row
    /\ Rental.amount_refunded row = Sample.yuan 2000
    /\ Rental.settlement_status row = SETTLED.
Proof.
  eexists. split; [vm_compute; reflexivity|].
  match goal with
  | |- Rental.amount_refunded ?row = _ /\ _ =>
      destruct (settlement_stores_the_ledger (Sample.orderA COMPLETED) Sample.car7
                  Sample.w_done row) as (_ & H2 & _ & _ & H3 & _)
  end.
  - vm_compute. reflexivity.
  - split; [rewrite H2; vm_compute; reflexivity|].
    apply H3. split; vm_compute; reflexivity.
Defined.

(** ** What the sweep stores for an activated booking *)

Lemma activated_as_step (r0 : Rental.t) (v : Vehicle.t) (t : datetime) :
  activated_as r0
    (Rental.set_created_at t (save_defaults v (Rental.set_status ONGOING r0))).
Proof.
  unfold activated_as. rewrite save_defaults_fields. cbn. repeat split.
Qed.

Lemma activate_loop_lists (rows : list (Rental.t * Vehicle.t)) :
  forall (ar : list Rental.t) (av : list Vehicle.t) (w : World),
    let r := activate_loop rows ar av w in
    (forall o, In o (fst (fst r)) ->
       In o ar \/ exists r0 v0, In (r0, v0) rows /\ activated_as r0 o)
    /\ (forall v, In v (snd (fst r)) ->
          In v av \/ exists r0 v0, In (r0, v0) rows
                      /\ Vehicle.status v0 = "AVAILABLE"%string
                      /\ v = Vehicle.set_status "RENTED" v0).
Proof.
  induction rows as [|[r0 v0] rows IH]; intros ar av w; cbv zeta.
  - cbn. auto.
  - cbn [activate_loop].
    destruct (Rental_save_instance v0 (Rental.set_status ONGOING r0) w)
      as [t Ht].
    destruct (Rental_save v0 (Rental.set_status ONGOING r0) w) as [r1 w1].
    cbn [fst] in Ht. subst r1.
    set (r1 := Rental.set_created_at t _).
    destruct (Vehicle.status v0 =? "AVAILABLE")%string eqn:E.
    + apply String.eqb_eq in E.
      pose proof (IH (ar ++ [r1]) (av ++ [Vehicle.set_status "RENTED" v0])
                    (Vehicle_save (Vehicle.set_status "RENTED" v0) w1)) as H.
      cbv zeta in H. destruct H as [H1 H2]. split.
      * intros o Ho. destruct (H1 o Ho) as [Hin | (ra & va & Hin & Ha)].
        -- apply in_app_or in Hin. destruct Hin as [Hin | [<- | []]]; [now left|].
           right. exists r0, v0. split; [now left | apply activated_as_step].
        -- right. exists ra, va. split; [now right | exact Ha].
      * intros v Hv. destruct (H2 v Hv) as [Hin | (ra & va & Hin & Ha)].
        -- apply in_app_or in Hin. destruct Hin as [Hin | [<- | []]]; [now left|].
           right. exists r0, v0. split; [now left|]. now split.
        -- right. exists ra, va. split; [now right | exact Ha].
    + pose proof (IH (ar ++ [r1]) av w1) as H.
      cbv zeta in H. destruct H as [H1 H2]. split.
      * intros o Ho. destruct (H1 o Ho) as [Hin | (ra & va & Hin & Ha)].
        -- apply in_app_or in Hin. destruct Hin as [Hin | [<- | []]]; [now left|].
           right. exists r0, v0. split; [now left | apply activated_as_step].
        -- right. exists ra, va. split; [now right | exact Ha].
      * intros v Hv. destruct (H2 v Hv) as [Hin | (ra & va & Hin & Ha)];
          [now left|].
        right. exists ra, va. split; [now right | exact Ha].
Qed.

(** A vehicle row the loop has stored as rented stays so to its end: every
    later write to the same key writes the same row. *)
Lemma activate_loop_keeps_rented (w0 : World) (rows : list (Rental.t * Vehicle.t)) :
  forall (ar : list Rental.t) (av : list Vehicle.t) (w : World) (v0 : Vehicle.t),
    (forall r v, In (r, v) rows ->
       get Vehicle.id (Vehicle.id v) (vehicles w0) = Some v) ->
    get Vehicle.id (Vehicle.id v0) (vehicles w0) = Some v0 ->
    get Vehicle.id (Vehicle.id v0) (vehicles w)
    = Some (Vehicle.set_status "RENTED" v0) ->
    get Vehicle.id (Vehicle.id v0)
      (vehicles (snd (activate_loop rows ar av w)))
    = Some (Vehicle.set_status "RENTED" v0).
Proof.
  induction rows as [|[r1 v1] rows IH]; intros ar av w v0 Hrows H0 Hw.
  - exact Hw.
  - cbn [activate_loop].
    assert (Hrows' : forall r v, In (r, v) rows ->
              get Vehicle.id (Vehicle.id v) (vehicles w0) = Some v)
      by (intros r v Hin; apply (Hrows r v); now right).
    destruct (Rental_save_frame v1 (Rental.set_status ONGOING r1) w)
      as (_ & Hveh & _).
    destruct (Rental_save v1 (Rental.set_status ONGOING r1) w) as [r2 w2].
    cbn [snd] in Hveh. rewrite <- Hveh in Hw.
    destruct (Vehicle.status v1 =? "AVAILABLE")%string.
    + apply IH; [exact Hrows' | exact H0|].
      unfold Vehicle_save. cbn [vehicles with_vehicles with_rentals].
      destruct (Z.eq_dec (Vehicle.id v1) (Vehicle.id v0)) as [E | E].
      * assert (v1 = v0) as ->.
        { pose proof (Hrows r1 v1 (or_introl eq_refl)) as H1.
          rewrite E, H0 in H1. congruence. }
        apply (get_save_same Vehicle.id (Vehicle.set_status "RENTED" v0)).
      * rewrite get_save_other by exact E. exact Hw.
    + apply IH; [exact Hrows' | exact H0 | exact Hw].
Qed.

Lemma activate_loop_stores_rented (w0 : World) (rows : list (Rental.t * Vehicle.t)) :
  forall (ar : list Rental.t) (av : list Vehicle.t) (w : World)
         (r0 : Rental.t) (v0 : Vehicle.t),
    (forall r v, In (r, v) rows ->
       get Vehicle.id (Vehicle.id v) (vehicles w0) = Some v) ->
    In (r0, v0) rows -> Vehicle.status v0 = "AVAILABLE"%string ->
    get Vehicle.id (Vehicle.id v0)
      (vehicles (snd (activate_loop rows ar av w)))
    = Some (Vehicle.set_status "RENTED" v0).
Proof.
  induction rows as [|[r1 v1] rows IH]; intros ar av w r0 v0 Hrows Hin Hst;
    [destruct Hin|].
  assert (Hrows' : forall r v, In (r, v) rows ->
            get Vehicle.id (Vehicle.id v) (vehicles w0) = Some v)
    by (intros r v Hin'; apply (Hrows r v); now right).
  cbn [activate_loop].
  destruct (Rental_save v1 (Rental.set_status ONGOING r1) w) as [r2 w2].
  destruct Hin as [[= -> ->] | Hin].
  - rewrite Hst. cbn [String.eqb Ascii.eqb Bool.eqb].
    apply (activate_loop_keeps_rented w0); [exact Hrows'| |].
    + apply (Hrows r0 v0). now left.
    + unfold Vehicle_save. cbn [vehicles with_vehicles].
      apply (get_save_same Vehicle.id (Vehicle.set_status "RENTED" v0)).
  - destruct (Vehicle.status v1 =? "AVAILABLE")%string;
      now apply (IH _ _ _ r0 v0).
Qed.

(** X23.  Every order the sweep reports as activated comes from a stored
    PENDING order whose start date has come; it keeps key, customer,
    vehicle, dates and return date and is ONGOING. Every vehicle reported as
    rented was AVAILABLE before the sweep and is stored as RENTED after the
    phase. *)
Theorem sweep_activation_details (today : Date.t) (w : World) :
  let r := _activate_pending_rentals today w in
  (forall o, In o (fst (fst r)) ->
     exists o0,
       In o0 (rentals w) /\ Rental.status o0 = PENDING
       /\ Rental.start_date o0 <= today /\ activated_as o0 o)
  /\ (forall v, In v (snd (fst r)) ->
        Vehicle.status v = "RENTED"%string
        /\ get Vehicle.id (Vehicle.id v) (vehicles (snd r)) = Some v
        /\ exists v0,
             get Vehicle.id (Vehicle.id v) (vehicles w) = Some v0
             /\ Vehicle.status v0 = "AVAILABLE"%string
             /\ v = Vehicle.set_status "RENTED" v0).
Proof.
  cbv zeta. unfold _activate_pending_rentals.
  destruct (Nat.eqb _ 0); [split; intros ? []|].
  set (rows := select_related_vehicle (filter (pending_due today) (rentals w)) w).
  assert (Hrows : forall r v, In (r, v) rows ->
            get Vehicle.id (Vehicle.id v) (vehicles w) = Some v).
  { intros r v Hin. apply In_select_related in Hin. destruct Hin as [_ Hget].
    destruct (get_Some_inv _ _ _ _ Hget) as [_ Hid]. now rewrite Hid. }
  pose proof (activate_loop_lists rows [] [] w) as H. cbv zeta in H.
  destruct H as [H1 H2]. split.
  - intros o Ho. destruct (H1 o Ho) as [[] | (r0 & v0 & Hin & Ha)].
    apply In_select_related in Hin. destruct Hin as [Hin _].
    apply filter_In in Hin. destruct Hin as [Hin Hsel].
    unfold pending_due in Hsel. apply andb_true_iff in Hsel.
    destruct Hsel as [Hs Hd]. apply Z.leb_le in Hd.
    exists r0. split; [exact Hin|]. split; [now destruct (Rental.status r0)|].
    split; [exact Hd | exact Ha].
  - intros v Hv. destruct (H2 v Hv) as [[] | (r0 & v0 & Hin & Hst & ->)].
    split; [reflexivity|]. split.
    + exact (activate_loop_stores_rented w rows [] [] w r0 v0 Hrows Hin Hst).
    + exists v0. split; [exact (Hrows r0 v0 Hin)|]. now split.
Qed.
